(** * Feedly for Obsidian: a shallow embedding of the plugin and its properties

    The plugin exists in two source files that share the annotation sync
    command verbatim: [main.ts] (sync only) and the later file that adds the
    ePub export.  The embedding follows the TypeScript text:

    - strings are byte strings (UTF-8); every character the code tests for
      is ASCII, so a per-byte reading agrees with the per-code-unit one;
    - optional fields of typed interfaces are [option]s, values of type
      [any] coming from the service are [js] values that keep [undefined]
      and [null] apart;
    - the plugin's [this.settings], the data file behind [saveData], the
      vault and the notices shown form an explicit state that every command
      threads through;
    - the remote service is a script: the list of outcomes of the successive
      [requestUrl] calls. *)

From Stdlib Require Import ZArith List String Ascii DecimalString Lia.
From stdpp Require Import base option list strings gmap.

Local Open Scope string_scope.
Local Open Scope Z_scope.

#[local] Arguments String.append !s1 s2 : simpl nomatch.

(** ** JavaScript primitives used by the plugin *)

Module JS.

(** A value of type [any]: absent, [null], or a proper value. *)
Inductive js (A : Type) : Type :=
| undefined : js A
| null : js A
| val : A -> js A.
Arguments undefined {A}.
Arguments null {A}.
Arguments val {A} _.

(** [a ?? b] *)
Definition nullish {A} (a b : js A) : js A :=
  match a with
  | val _ => a
  | _ => b
  end.

(** [o?.f] *)
Definition optchain {A B} (o : js A) (f : A -> js B) : js B :=
  match o with
  | val x => f x
  | _ => undefined
  end.

(** [x !== undefined] *)
Definition is_defined {A} (a : js A) : bool :=
  match a with
  | undefined => false
  | _ => true
  end.

(** Truthiness of a string: non-empty. *)
Definition truthy (s : string) : bool :=
  match s with
  | EmptyString => false
  | String _ _ => true
  end.

Definition truthy_opt (o : option string) : bool :=
  match o with
  | Some s => truthy s
  | None => false
  end.

Definition truthy_js (o : js string) : bool :=
  match o with
  | val s => truthy s
  | _ => false
  end.

Definition LF : ascii := "010"%char.
Definition nl : string := String LF EmptyString.
Definition dquote : ascii := "034"%char.
Definition backslash : ascii := "092"%char.

(** [s.replace(/c/g, r)] for a single character [c]. *)
Fixpoint replace_char (c : ascii) (r : string) (s : string) : string :=
  match s with
  | EmptyString => EmptyString
  | String a s' =>
      if Ascii.eqb a c then r +:+ replace_char c r s'
      else String a (replace_char c r s')
  end.

Definition mem_char (a : ascii) (cs : list ascii) : bool :=
  existsb (Ascii.eqb a) cs.

(** [s.replace(/[cs]/g, '')] for a character class [cs]. *)
Fixpoint remove_chars (cs : list ascii) (s : string) : string :=
  match s with
  | EmptyString => EmptyString
  | String a s' =>
      if mem_char a cs then remove_chars cs s'
      else String a (remove_chars cs s')
  end.

(** [s.includes(sub)] *)
Fixpoint includes (s sub : string) : bool :=
  String.prefix sub s ||
  match s with
  | EmptyString => false
  | String _ s' => includes s' sub
  end.

(** [n.toString()] for an integer-valued number of size below 10^21, where
    the text is the plain decimal form. *)
Definition Number_toString (z : Z) : string :=
  NilZero.string_of_int (Z.to_int z).

Fixpoint repeat_string (n : nat) (pad : string) : string :=
  match n with
  | O => EmptyString
  | S n' => pad +:+ repeat_string n' pad
  end.

(** [s.padStart(n, c)] for a one-character pad [c]. *)
Definition padStart (n : nat) (c : ascii) (s : string) : string :=
  repeat_string (n - String.length s) (String c EmptyString) +:+ s.

(** An [Error] object: its [name] and [message]. *)
Record Error := mkError { name : string; message : string }.

(** [String(e)] for an error object ([Error.prototype.toString]). *)
Definition Error_toString (e : Error) : string :=
  match name e, message e with
  | EmptyString, m => m
  | n, EmptyString => n
  | n, m => n +:+ ": " +:+ m
  end.

(** [new Error(x)] where [x] prints as [s]. *)
Definition new_Error (s : string) : Error := mkError "Error" s.

(** The outcome of an awaited call: a value or a thrown error. *)
Inductive result (A : Type) : Type :=
| Ok : A -> result A
| Throw : Error -> result A.
Arguments Ok {A} _.
Arguments Throw {A} _.

End JS.
Import JS.

(** ** The host: what Obsidian and the JavaScript runtime provide

    [normalizePath] is Obsidian's; the three calendar getters are those of
    [Date.prototype] and depend on the local time zone.  They act on a time
    value in milliseconds since the epoch. *)

Record Host := mkHost {
  normalizePath : string -> string;
  getFullYear : Z -> Z;
  getMonth : Z -> Z;
  getDate : Z -> Z
}.

(** A [Date] object: a time value, or the invalid date. *)
Inductive Date :=
| ValidDate (t : Z)
| InvalidDate.

(** [new Date(ms)], with the range check of the language ([TimeClip]). *)
Definition new_Date (ms : Z) : Date :=
  if Z.abs ms <=? 8640000000000000 then ValidDate ms else InvalidDate.

(** [new Date(v)] for an untyped [v]: [undefined] gives the invalid date,
    [null] converts to 0. *)
Definition new_Date_js (v : js Z) : Date :=
  match v with
  | undefined => InvalidDate
  | null => new_Date 0
  | val ms => new_Date ms
  end.

(** ** Sanitizers *)

(** [sanitizeFrontmatter(v = '')]: a missing argument ([None]) takes the
    default, the empty string. *)
Definition sanitizeFrontmatter (v : option string) : string :=
  replace_char ":" " - " (default "" v).

(** The character class of the regular expression that cleans a title:
    star, double quote, escaped slash (a backslash followed by a slash
    denotes the slash alone), less-than, greater-than, colon, bar and
    question mark. *)
Definition fileNameClass : list ascii :=
  ["*"%char; dquote; "/"%char; "<"%char; ">"%char; ":"%char; "|"%char; "?"%char].

(** [title.replace(re, '')] with [re] the global regular expression over
    [fileNameClass]. *)
Definition sanitizeFileName (title : string) : string :=
  remove_chars fileNameClass title.

(** The nine characters the comment above that line lists as forbidden in a
    file name: the class and the backslash. *)
Definition forbiddenInFileName : list ascii :=
  ["*"%char; dquote; backslash; "/"%char; "<"%char; ">"%char; ":"%char; "|"%char; "?"%char].

Section WithHost.

Variable host : Host.

(** [dateToJournal(date)]: [YYYY-MM-DD] in local time; every getter of the
    invalid date is [NaN], which prints as [NaN] and is left alone by
    [padStart(2, '0')]. *)
Definition dateToJournal (date : Date) : string :=
  match date with
  | ValidDate t =>
      Number_toString (getFullYear host t) +:+ "-" +:+
      padStart 2 "0" (Number_toString (getMonth host t + 1)) +:+ "-" +:+
      padStart 2 "0" (Number_toString (getDate host t))
  | InvalidDate => "NaN-NaN-NaN"
  end.

End WithHost.

(** ** Data model *)

Module Settings.
(** [FeedlySettings]; an absent field is [None]. *)
Record t := mk {
  userId : option string;
  accessToken : option string;
  lastSync : option Z;
  continuationTime : option Z;
  continuationToken : option string;
  annotationsFolder : option string
}.

Definition set_lastSync (v : option Z) (s : t) : t :=
  mk (userId s) (accessToken s) v (continuationTime s) (continuationToken s)
     (annotationsFolder s).

Definition set_continuationTime (v : option Z) (s : t) : t :=
  mk (userId s) (accessToken s) (lastSync s) v (continuationToken s)
     (annotationsFolder s).

Definition set_continuationToken (v : option string) (s : t) : t :=
  mk (userId s) (accessToken s) (lastSync s) (continuationTime s) v
     (annotationsFolder s).

Definition set_annotationsFolder (v : option string) (s : t) : t :=
  mk (userId s) (accessToken s) (lastSync s) (continuationTime s)
     (continuationToken s) v.
End Settings.

Definition DEFAULT_FOLDER : string := "Feedly Annotations".

(** [Object.assign({}, DEFAULT_SETTINGS, data)]: the stored fields win, the
    folder falls back to its default. *)
Definition assignDefaults (data : Settings.t) : Settings.t :=
  Settings.set_annotationsFolder
    (Some (default DEFAULT_FOLDER (Settings.annotationsFolder data))) data.

Module Highlight.
Record t := mk { text : string }.
End Highlight.

Module Annotation.
Record t := mk { highlight : option Highlight.t; comment : option string }.
End Annotation.

Module Origin.
Record t := mk { title : string }.
End Origin.

Module Entry.
Record t := mk {
  canonicalUrl : string;
  id : string;
  published : option Z;
  crawled : Z;
  author : string;
  title : string;
  origin : option Origin.t
}.
End Entry.

Module AnnotatedEntry.
(** [FeedlyAnnotatedEntry] *)
Record t := mk { annotation : Annotation.t; entry : Entry.t; created : Z }.
End AnnotatedEntry.

(** ** Document text *)

Section Documents.

Variable host : Host.

(** [getInitialContent(entry)]: the frontmatter of a new document. *)
Definition getInitialContent (e : AnnotatedEntry.t) : string :=
  let en := AnnotatedEntry.entry e in
  "---" +:+
  (if truthy (Entry.canonicalUrl en)
   then nl +:+ "url: " +:+ Entry.canonicalUrl en else "") +:+ nl +:+
  "feedlyUrl: https://feedly.com/i/entry/" +:+ Entry.id en +:+ nl +:+
  "date: " +:+ dateToJournal host (new_Date (AnnotatedEntry.created e)) +:+ nl +:+
  "pubDate: " +:+
    dateToJournal host
      (new_Date (default (Entry.crawled en) (Entry.published en))) +:+ nl +:+
  "author: " +:+ sanitizeFrontmatter (Some (Entry.author en)) +:+
  (match Entry.origin en with
   | Some o =>
       if truthy (Origin.title o)
       then nl +:+ "publisher: " +:+ sanitizeFrontmatter (Some (Origin.title o))
       else ""
   | None => ""
   end) +:+ nl +:+
  "---" +:+ nl.

End Documents.

(** The replacement of a line break inside a highlight: a line break, a
    quote marker alone on its line, and the marker of the next line. *)
Definition quoteBreak : string := nl +:+ ">" +:+ nl +:+ "> ".

(** [getAppendContent(entry)]: the text appended for one annotation.  An
    object is always truthy, a string only when it is not empty. *)
Definition getAppendContent (e : AnnotatedEntry.t) : string :=
  let a := AnnotatedEntry.annotation e in
  match Annotation.highlight a with
  | Some h => nl +:+ nl +:+ "> " +:+ replace_char LF quoteBreak (Highlight.text h)
  | None =>
      if truthy_opt (Annotation.comment a)
      then nl +:+ "    " +:+ nl +:+ default "" (Annotation.comment a)
      else ""
  end.

(** ** JSON values and [JSON.stringify]

    The fragment the plugin posts: numbers are integers (identifiers,
    counts, timestamps). *)

Unset Elimination Schemes.
Inductive json :=
| JNull
| JBool (b : bool)
| JNum (z : Z)
| JStr (s : string)
| JArr (l : list json)
| JObj (l : list (string * json)).
Set Elimination Schemes.

Definition hexDigit (n : nat) : ascii :=
  match n with
  | 0%nat => "0" | 1%nat => "1" | 2%nat => "2" | 3%nat => "3"
  | 4%nat => "4" | 5%nat => "5" | 6%nat => "6" | 7%nat => "7"
  | 8%nat => "8" | 9%nat => "9" | 10%nat => "a" | 11%nat => "b"
  | 12%nat => "c" | 13%nat => "d" | 14%nat => "e" | _ => "f"
  end%char.

(** The escape of one character inside a JSON string. *)
Definition escapeChar (a : ascii) : string :=
  let n := nat_of_ascii a in
  if Ascii.eqb a dquote then String backslash (String dquote EmptyString)
  else if Ascii.eqb a backslash then String backslash (String backslash EmptyString)
  else if Nat.eqb n 8 then String backslash "b"
  else if Nat.eqb n 9 then String backslash "t"
  else if Nat.eqb n 10 then String backslash "n"
  else if Nat.eqb n 12 then String backslash "f"
  else if Nat.eqb n 13 then String backslash "r"
  else if Nat.ltb n 32 then
    String backslash "u00" +:+
    String (hexDigit (n / 16)) (String (hexDigit (n mod 16)) EmptyString)
  else String a EmptyString.

Fixpoint escapeString (s : string) : string :=
  match s with
  | EmptyString => EmptyString
  | String a s' => escapeChar a +:+ escapeString s'
  end.

Definition quoteString (s : string) : string :=
  String dquote (escapeString s) +:+ String dquote EmptyString.

Fixpoint JSON_stringify (j : json) : string :=
  match j with
  | JNull => "null"
  | JBool true => "true"
  | JBool false => "false"
  | JNum z => Number_toString z
  | JStr s => quoteString s
  | JArr l =>
      "[" +:+
      (fix items (l : list json) : string :=
         match l with
         | [] => ""
         | x :: r =>
             JSON_stringify x +:+
             match r with [] => "" | _ => "," +:+ items r end
         end) l +:+ "]"
  | JObj l =>
      "{" +:+
      (fix members (l : list (string * json)) : string :=
         match l with
         | [] => ""
         | (k, v) :: r =>
             quoteString k +:+ ":" +:+ JSON_stringify v +:+
             match r with [] => "" | _ => "," +:+ members r end
         end) l +:+ "}"
  end.

(** ** API gateway *)

(** What [requestUrl] is handed as [body]: a string, or a value that was
    never serialized. *)
Inductive Body :=
| BodyText (s : string)
| BodyValue (v : json).

Record Request := mkRequest {
  url : string;
  method : string;
  headers : list (string * string);
  body : option Body
}.

(** The two source files differ in one expression of [apiCall]. *)
Inductive SourceFile := main_ts | part_000.

(** The [body] expression: [data ?? undefined] in [main.ts],
    [JSON.stringify(data) ?? undefined] in the later file.  [data] is
    [None] when the argument is omitted. *)
Definition apiCall_body (f : SourceFile) (data : option json) : option Body :=
  match f with
  | main_ts =>
      match data with
      | None => None
      | Some JNull => None
      | Some v => Some (BodyValue v)
      end
  | part_000 =>
      match data with
      | None => None
      | Some v => Some (BodyText (JSON_stringify v))
      end
  end.

(** The request [apiCall] passes to [requestUrl]. *)
Definition apiCall_request (f : SourceFile) (accessToken path : string)
    (method : string) (data : option json) : Request :=
  {| url := "https://cloud.feedly.com/v3/" +:+ path;
     method := method;
     headers := [("Authorization", "Bearer " +:+ accessToken);
                 ("Accept", "application/json")];
     body := apiCall_body f data |}.

(** What [requestUrl] comes back with: it rejects with an error, or
    resolves to a response whose [json] is the decoded payload. *)
Inductive HttpOutcome (A : Type) : Type :=
| Rejected : Error -> HttpOutcome A
| Json : A -> HttpOutcome A.
Arguments Rejected {A} _.
Arguments Json {A} _.

(** The second half of [apiCall]: return [res.json], or wrap whatever was
    caught in a new error whose message is its printed form. *)
Definition apiCall_result {A} (r : HttpOutcome A) : result A :=
  match r with
  | Json a => Ok a
  | Rejected e => Throw (new_Error (Error_toString e))
  end.

Definition GET : string := "GET".

(** ** Fetching one page of annotations *)

(** The decoded payload of [annotations/journal], read through the three
    properties the code touches. *)
Record JournalPayload := mkPayload {
  errorCode : option Z;
  entries : option (list AnnotatedEntry.t);
  continuation : option string
}.

(** What [getAnnotations] returns on success. *)
Record Page := mkPage {
  page_entries : list AnnotatedEntry.t;
  page_continuation : option string;
  page_count : nat
}.

(** Truthiness of a number: neither absent nor zero. *)
Definition truthy_num (o : option Z) : bool :=
  match o with
  | Some n => negb (n =? 0)
  | None => false
  end.

(** The path and query [getAnnotations] asks for; [syncTime] defaults
    to 0. *)
Definition journalPath (continuation : option string) (syncTime : option Z) : string :=
  "annotations/journal?newerThan=" +:+ Number_toString (default 0 syncTime) +:+
  "&withEntries=true&count=100" +:+
  (if truthy_opt continuation
   then "&continuation=" +:+ default "" continuation else "").

Definition getAnnotations_request (f : SourceFile) (accessToken : string)
    (continuation : option string) (syncTime : option Z) : Request :=
  apiCall_request f accessToken (journalPath continuation syncTime) GET None.

(** The [TypeError] raised when property [prop] is read from [undefined]
    or [null] ([what]). *)
Definition readOfNothing (what prop : string) : Error :=
  mkError "TypeError"
    ("Cannot read properties of " +:+ what +:+ " (reading '" +:+ prop +:+ "')").

Definition MSG_TOKEN_EXPIRED : string := "Access token expired, request a new one".
Definition MSG_RATE_LIMIT : string := "API rate limit reached".

(** The [catch] block of [getAnnotations]: two messages are recognised and
    thrown anew; for any other error the block ends and the function returns
    [undefined]. *)
Definition getAnnotations_catch (e : Error) : result (option Page) :=
  if includes (message e) "status 401" then Throw (new_Error MSG_TOKEN_EXPIRED)
  else if includes (message e) "status 429" then Throw (new_Error MSG_RATE_LIMIT)
  else Ok None.

(** The [try] block of [getAnnotations] once [requestUrl] has settled. *)
Definition getAnnotations_try (r : HttpOutcome (js JournalPayload)) : result Page :=
  match apiCall_result r with
  | Throw e => Throw e
  | Ok (val a) =>
      if truthy_num (errorCode a) then Throw (new_Error "[object Object]")
      else
        match entries a with
        | Some es => Ok (mkPage es (continuation a) (length es))
        | None => Throw (readOfNothing "undefined" "length")
        end
  | Ok undefined => Throw (readOfNothing "undefined" "errorCode")
  | Ok null => Throw (readOfNothing "null" "errorCode")
  end.

(** [getAnnotations], after its single network call has settled. *)
Definition getAnnotations (r : HttpOutcome (js JournalPayload)) : result (option Page) :=
  match getAnnotations_try r with
  | Ok p => Ok (Some p)
  | Throw e => getAnnotations_catch e
  end.

(** ** The plugin state *)

(** What a command does that the outside can observe, in order. *)
Inductive Event :=
| Notice (msg : string)
| SaveData (s : Settings.t)
| RequestUrl (r : Request).

(** [settings] is [this.settings]; [data] is the stored copy that
    [loadData] reads and [saveData] replaces; [files] maps a vault path to
    the text of the document there. *)
Record State := mkState {
  settings : Settings.t;
  data : Settings.t;
  files : gmap string string;
  folders : gset string;
  log : list Event
}.

Definition emit (e : Event) (st : State) : State :=
  mkState (settings st) (data st) (files st) (folders st) (log st ++ [e]).

Definition set_settings (s : Settings.t) (st : State) : State :=
  mkState s (data st) (files st) (folders st) (log st).

Definition set_files (fs : gmap string string) (st : State) : State :=
  mkState (settings st) (data st) fs (folders st) (log st).

(** [new Notice(msg)] *)
Definition notice (msg : string) (st : State) : State := emit (Notice msg) st.

(** [loadSettings()] *)
Definition loadSettings (st : State) : State :=
  set_settings (assignDefaults (data st)) st.

(** [saveSettings(this.settings)]: the stored copy becomes the settings as
    they are at the call. *)
Definition saveSettings (st : State) : State :=
  emit (SaveData (settings st))
    (mkState (settings st) (settings st) (files st) (folders st) (log st)).

(** [vault.createFolder(name)] when [vault.getFolderByPath(name)] finds
    nothing. *)
Definition ensureFolder (name : string) (st : State) : State :=
  if decide (name ∈ folders st) then st
  else mkState (settings st) (data st) (files st) ({[name]} ∪ folders st) (log st).

(** ** Merging a page into the vault

    The vault calls are taken on their success path: the store is a finite
    map from path to text, [getFileByPath] is a lookup, [create] an insert
    and [append] an update in place. *)

Section Sync.

Variable host : Host.
Variable source : SourceFile.

(** The path of the document of an entry. *)
Definition documentPath (folderName : string) (e : AnnotatedEntry.t) : string :=
  let sanitizedFileName := sanitizeFileName (Entry.title (AnnotatedEntry.entry e)) in
  let filename := sanitizedFileName +:+ ".md" in
  normalizePath host (folderName +:+ "/" +:+ filename).

(** One turn of the loop of [processAnnotations]: create the document with
    its frontmatter when the path is free, then append. *)
Definition processAnnotation (folderName : string) (e : AnnotatedEntry.t)
    (fs : gmap string string) : gmap string string :=
  let path := documentPath folderName e in
  let fs' := match fs !! path with
             | Some _ => fs
             | None => <[path := getInitialContent host e]> fs
             end in
  alter (fun doc => doc +:+ getAppendContent e) path fs'.

Definition processAnnotations (folderName : string) (es : list AnnotatedEntry.t)
    (fs : gmap string string) : gmap string string :=
  foldl (fun acc e => processAnnotation folderName e acc) fs es.

(** ** The sync loop *)

(** A command in flight: the plugin state and the two local variables of
    the callback. *)
Record Run := mkRun {
  state : State;
  entryCounter : nat;
  continuationToken : option string
}.

Inductive Control := Continue | Break.

(** [${v}] for an optional string. *)
Definition template (v : option string) : string := default "undefined" v.

(** The request one iteration sends. *)
Definition iterationRequest (run : Run) : Request :=
  let s := settings (state run) in
  getAnnotations_request source (template (Settings.accessToken s))
    (continuationToken run) (Settings.lastSync s).

Definition MSG_RATE_LIMIT_NOTICE : string :=
  "The Feedly API rate limit has been reached, continue later".
Definition MSG_ALL_SYNCED : string := "All Feedly annotations synced".

(** The body of the [while (true)] loop once the request has settled with
    [r]. *)
Definition iteration (folderName : string) (r : HttpOutcome (js JournalPayload))
    (run : Run) : Run * Control :=
  match getAnnotations r with
  | Throw e =>
      let st := if includes (message e) "API rate limit"
                then notice MSG_RATE_LIMIT_NOTICE (state run)
                else notice (message e) (state run) in
      (mkRun st (entryCounter run) (continuationToken run), Break)
  | Ok None => (run, Break)
  | Ok (Some res) =>
      let token := page_continuation res in
      let st1 := set_files
                   (processAnnotations folderName (page_entries res) (files (state run)))
                   (state run) in
      let counter := (entryCounter run + length (page_entries res))%nat in
      if (page_count res <? 100)%nat then
        let s1 := Settings.set_continuationToken None (settings st1) in
        let s2 := Settings.set_lastSync (Settings.continuationTime s1) s1 in
        let st2 := saveSettings (set_settings s2 st1) in
        (mkRun (notice MSG_ALL_SYNCED st2) counter token, Break)
      else
        let s1 := Settings.set_continuationToken token (settings st1) in
        let st2 := saveSettings (set_settings s1 st1) in
        (mkRun st2 counter token, Continue)
  end.

Definition sendRequest (run : Run) : Run :=
  mkRun (emit (RequestUrl (iterationRequest run)) (state run))
        (entryCounter run) (continuationToken run).

(** How far the loop got on a script of outcomes: it left the loop, or it
    is still waiting for an outcome the script does not hold. *)
Inductive Status := Left | Waiting.

Fixpoint syncLoop (folderName : string)
    (script : list (HttpOutcome (js JournalPayload))) (run : Run) : Run * Status :=
  match script with
  | [] => (sendRequest run, Waiting)
  | r :: script' =>
      match iteration folderName r (sendRequest run) with
      | (run', Continue) => syncLoop folderName script' run'
      | (run', Break) => (run', Left)
      end
  end.

(** ** The sync command *)

Definition MSG_NO_USER : string := "Missing Feedly user id".
Definition MSG_NO_TOKEN : string := "Missing Feedly access token".
Definition MSG_BEGIN : string := "Beginning to download Feedly annotations".

Definition syncedNotice (n : nat) : string :=
  "Synced " +:+ Number_toString (Z.of_nat n) +:+ " annotations".

(** [this.settings.annotationsFolder ?? 'Feedly Annotations'] *)
Definition syncFolder (st : State) : string :=
  default DEFAULT_FOLDER (Settings.annotationsFolder (settings st)).

(** The part of the callback before the loop, for configured credentials:
    take the stored token, and on a fresh sync stamp the time and save. *)
Definition syncPrelude (now : Z) (st : State) : Run :=
  let continuationToken := Settings.continuationToken (settings st) in
  let st1 := if truthy_opt continuationToken then st
             else saveSettings
                    (set_settings
                       (Settings.set_continuationTime (Some now) (settings st)) st) in
  let st2 := notice MSG_BEGIN st1 in
  mkRun (ensureFolder (syncFolder st2) st2) O continuationToken.

(** The callback of the command [sync], run at time [now] against a
    service that answers with [script]. *)
Definition sync (now : Z) (script : list (HttpOutcome (js JournalPayload)))
    (st0 : State) : State * Status :=
  let st := loadSettings st0 in
  if negb (truthy_opt (Settings.userId (settings st))) then
    (notice MSG_NO_USER st, Left)
  else if negb (truthy_opt (Settings.accessToken (settings st))) then
    (notice MSG_NO_TOKEN st, Left)
  else
    let run := syncPrelude now st in
    match syncLoop (syncFolder (state run)) script run with
    | (run', Left) => (notice (syncedNotice (entryCounter run')) (state run'), Left)
    | (run', Waiting) => (state run', Waiting)
    end.

End Sync.

(** ** Article export *)

Module ContentJ.
(** The object under [content] and under [summary]. *)
Record t := mk { content : js string }.
End ContentJ.

Module OriginJ.
Record t := mk { title : js string }.
End OriginJ.

Module Article.
(** An item of the unread stream or of the saved entries, of type [any]:
    every property may be missing or [null]. *)
Record t := mk {
  canonicalUrl : js string;
  id : js string;
  title : js string;
  published : js Z;
  crawled : js Z;
  author : js string;
  origin : js OriginJ.t;
  content : js ContentJ.t;
  summary : js ContentJ.t;
  fullContent : js string
}.
End Article.

(** [getContent(article)]:
    [article.content?.content ?? article.summary?.content ?? article.fullContent] *)
Definition getContent (x : Article.t) : js string :=
  nullish
    (nullish (optchain (Article.content x) ContentJ.content)
             (optchain (Article.summary x) ContentJ.content))
    (Article.fullContent x).

(** [articles.filter(x => getContent(x) !== undefined)] *)
Definition articlesToExport (articles : list Article.t) : list Article.t :=
  List.filter (fun x => is_defined (getContent x)) articles.

(** [${v}] for an untyped string. *)
Definition template_js (v : js string) : string :=
  match v with
  | undefined => "undefined"
  | null => "null"
  | val s => s
  end.

Module Section_.
(** One element of [contents]. *)
Record t := mk { title : js string; author : js string; data : string; css : string }.
End Section_.

Definition IMG_CSS : string := "img { display: none; width: 0px; height: 0px; }".

Section ExportPipeline.

Variable host : Host.

(** The argument of [sanitizeFrontmatter] on the author line,
    [x.author ?? x.origin.title]: reading [title] from a missing origin, or
    calling [replace] on [null], raises. *)
Definition authorOrOrigin (x : Article.t) : result (option string) :=
  match Article.author x with
  | val a => Ok (Some a)
  | _ =>
      match Article.origin x with
      | undefined => Throw (readOfNothing "undefined" "title")
      | null => Throw (readOfNothing "null" "title")
      | val o =>
          match OriginJ.title o with
          | val t => Ok (Some t)
          | undefined => Ok None
          | null => Throw (readOfNothing "null" "replace")
          end
      end
  end.

(** The publisher line: present when [x.origin?.title] is truthy. *)
Definition publisherLine (x : Article.t) : string :=
  match optchain (Article.origin x) OriginJ.title with
  | val t => if truthy t then nl +:+ "publisher: " +:+ sanitizeFrontmatter (Some t) else ""
  | _ => ""
  end.

(** The metadata block that opens an article's section. *)
Definition metadataBlock (x : Article.t) (authorArg : option string) : string :=
  "<pre>---" +:+
  (if truthy_js (Article.canonicalUrl x)
   then nl +:+ "url: " +:+ template_js (Article.canonicalUrl x) else "") +:+ nl +:+
  "feedlyUrl: https://feedly.com/i/entry/" +:+ template_js (Article.id x) +:+ nl +:+
  "title: " +:+ template_js (Article.title x) +:+ nl +:+
  "pubDate: " +:+
    dateToJournal host
      (new_Date_js (nullish (Article.published x) (Article.crawled x))) +:+ nl +:+
  "author: " +:+ sanitizeFrontmatter authorArg +:+ publisherLine x +:+ nl +:+
  "---</pre>" +:+ nl +:+ nl.

Definition indent20 : string := "                    ".
Definition indent24 : string := "                        ".

(** The body appended when [getContent(x)] is truthy. *)
Definition bodyBlock (x : Article.t) : string :=
  if truthy_js (getContent x) then
    nl +:+ indent24 +:+ "<div>" +:+ nl +:+
    indent24 +:+ template_js (getContent x) +:+ nl +:+
    indent24 +:+ "</div>" +:+ nl +:+ indent20
  else "".

(** The callback of [articlesToExport.map]. *)
Definition toSection (x : Article.t) : result Section_.t :=
  match authorOrOrigin x with
  | Throw e => Throw e
  | Ok a =>
      Ok (Section_.mk (Article.title x) (Article.author x)
            (metadataBlock x a +:+ bodyBlock x) IMG_CSS)
  end.

Fixpoint contents (xs : list Article.t) : result (list Section_.t) :=
  match xs with
  | [] => Ok []
  | x :: xs' =>
      match toSection x with
      | Throw e => Throw e
      | Ok s =>
          match contents xs' with
          | Throw e => Throw e
          | Ok ss => Ok (s :: ss)
          end
      end
  end.

End ExportPipeline.

(** ** Container assembly *)

(** A file as [getFilesForEPUB] of the e-book library describes it.  The
    assembler reads [name], [folder] and [content], and [data] for the
    mimetype file. *)
Record EpubFile := mkFile {
  file_name : string;
  file_folder : string;
  file_content : string;
  file_data : option string
}.

Module Zip.
(** The zip library keeps its entries in a table keyed by path that is
    walked in insertion order when the archive is generated; assigning to a
    path already present replaces the entry where it stands. *)

Inductive Compression := STORE | DEFLATE.

Record entry := mkEntry {
  path : string;
  dir : bool;
  bytes : string;
  compression : option Compression
}.

Definition t := list entry.

Definition has (p : string) (z : t) : bool :=
  existsb (fun e => String.eqb (path e) p) z.

Fixpoint put (e : entry) (z : t) : t :=
  match z with
  | [] => [e]
  | e' :: z' => if String.eqb (path e') (path e) then e :: z' else e' :: put e z'
  end.

Definition endsWithSlash (s : string) : bool :=
  match String.length s with
  | O => false
  | S n => match String.get n s with
           | Some c => Ascii.eqb c "/"
           | None => false
           end
  end.

Definition forceTrailingSlash (s : string) : string :=
  if endsWithSlash s then s else s +:+ "/".

(** The index of the last slash of [s], scanning from index [i]. *)
Fixpoint lastSlashFrom (i : nat) (s : string) (found : option nat) : option nat :=
  match s with
  | EmptyString => found
  | String c s' =>
      lastSlashFrom (S i) s' (if Ascii.eqb c "/" then Some i else found)
  end.

(** The folder a path lies in: what precedes its last slash, a trailing
    slash set aside; empty when there is none or the slash comes first. *)
Definition parentFolder (p : string) : string :=
  let p' := if endsWithSlash p then String.substring 0 (String.length p - 1) p else p in
  match lastSlashFrom 0 p' None with
  | Some (S k) => String.substring 0 (S k) p'
  | _ => ""
  end.

Definition dirEntry (p : string) : entry := mkEntry p true "" None.

(** The folder entries a path implies: its parent folder is added when
    absent, after that folder's own parents.  Each parent is shorter than
    its path, so [fuel] the length of the path is enough. *)
Fixpoint addParents (fuel : nat) (p : string) (z : t) : t :=
  match fuel with
  | O => z
  | S n =>
      let parent := parentFolder p in
      if truthy parent then
        let d := forceTrailingSlash parent in
        if has d z then z else put (dirEntry d) (addParents n d z)
      else z
  end.

(** [zip.file(name, data, options)] on the view rooted at [root].  Missing
    or empty data makes an empty entry, which is always stored. *)
Definition file (root name : string) (data : option string)
    (c : option Compression) (z : t) : t :=
  let p := root +:+ name in
  let e := if truthy_opt data then mkEntry p false (default "" data) c
           else mkEntry p false "" (Some STORE) in
  put e (addParents (String.length p) p z).

(** [zip.folder(name)] on the view rooted at [root]: the folder entry is
    made when absent; the result is the new root. *)
Definition folder (root name : string) (z : t) : t * string :=
  let p := forceTrailingSlash (root +:+ name) in
  ((if has p z then z else put (dirEntry p) (addParents (String.length p) p z)), p).

(** An entry of the generated archive, its compression resolved against
    the default of [generateAsync], which is to store. *)
Record archived := mkArchived {
  a_path : string;
  a_bytes : string;
  a_method : Compression
}.

Definition generateAsync (z : t) : list archived :=
  map (fun e => mkArchived (path e) (bytes e) (default STORE (compression e))) z.

End Zip.

(** [`${++i}. ${c.title}`]: the section titles handed to the e-book
    library, numbered from 1. *)
Fixpoint numberedTitles (i : nat) (ss : list Section_.t) : list string :=
  match ss with
  | [] => []
  | c :: ss' =>
      (Number_toString (Z.of_nat (S i)) +:+ ". " +:+ template_js (Section_.title c))
        :: numberedTitles (S i) ss'
  end.

Definition MIMETYPE : string := "mimetype".

(** [files.find(file => file.name === 'mimetype')] *)
Definition findMimetype (fs : list EpubFile) : option EpubFile :=
  List.find (fun f => String.eqb (file_name f) MIMETYPE) fs.

(** Step 4 of [generateEpub]: the mimetype file, when there is one, goes
    into the empty container with the option to store. *)
Definition addMimetype (fs : list EpubFile) : Zip.t :=
  match findMimetype fs with
  | Some m => Zip.file "" (file_name m) (file_data m) (Some Zip.STORE) []
  | None => []
  end.

(** The table [folders]: the five folder views and the root each one
    writes under. *)
Definition makeFolders (z : Zip.t) : Zip.t * list (string * string) :=
  let '(z1, meta) := Zip.folder "" "META-INF" z in
  let '(z2, oebpf) := Zip.folder "" "OEBPF" z1 in
  let '(z3, css) := Zip.folder oebpf "css" z2 in
  let '(z4, content) := Zip.folder oebpf "content" z3 in
  let '(z5, images) := Zip.folder oebpf "images" z4 in
  (z5, [("META-INF", meta); ("OEBPF", oebpf); ("OEBPF/css", css);
        ("OEBPF/content", content); ("OEBPF/images", images)]).

Fixpoint lookupFolder (k : string) (tbl : list (string * string)) : option string :=
  match tbl with
  | [] => None
  | (k', v) :: tbl' => if String.eqb k' k then Some v else lookupFolder k tbl'
  end.

(** The names an object literal answers without having them as keys of
    its own: the properties of [Object.prototype]. *)
Definition inheritedKeys : list string :=
  ["constructor"; "__defineGetter__"; "__defineSetter__"; "hasOwnProperty";
   "__lookupGetter__"; "__lookupSetter__"; "isPrototypeOf";
   "propertyIsEnumerable"; "toString"; "valueOf"; "__proto__"; "toLocaleString"].

(** The [TypeError] raised when the value called is not a function. *)
Definition notAFunction (callee : string) : Error :=
  mkError "TypeError" (callee +:+ " is not a function").

(** [folders[k].file(...)] for a [k] that is no key of the table: an
    inherited name gives a value without a [file] method, any other name
    gives [undefined]. *)
Definition missingFolder (k : string) : Error :=
  if existsb (String.eqb k) inheritedKeys
  then notAFunction "folders[file.folder].file"
  else readOfNothing "undefined" "file".

(** One turn of the loop of step 5.  A folder outside the table has no
    view, and calling [file] on it raises. *)
Definition addFile (tbl : list (string * string)) (f : EpubFile) (z : Zip.t)
    : result Zip.t :=
  if String.eqb (file_name f) MIMETYPE then Ok z
  else if truthy (file_folder f) then
    match lookupFolder (file_folder f) tbl with
    | Some root => Ok (Zip.file root (file_name f) (Some (file_content f)) None z)
    | None => Throw (missingFolder (file_folder f))
    end
  else
    Ok (Zip.file "" (file_folder f +:+ "/" +:+ file_name f)
          (Some (file_content f)) None z).

Fixpoint addFiles (tbl : list (string * string)) (fs : list EpubFile) (z : Zip.t)
    : result Zip.t :=
  match fs with
  | [] => Ok z
  | f :: fs' =>
      match addFile tbl f z with
      | Ok z' => addFiles tbl fs' z'
      | Throw e => Throw e
      end
  end.

(** Steps 3 to 5 of [generateEpub]: the container filled from the
    generated files. *)
Definition assemble (fs : list EpubFile) : result Zip.t :=
  let '(z, tbl) := makeFolders (addMimetype fs) in
  addFiles tbl fs z.

(** Steps 3 to 6: the entries of the archive, in the order written. *)
Definition packFiles (fs : list EpubFile) : result (list Zip.archived) :=
  match assemble fs with
  | Ok z => Ok (Zip.generateAsync z)
  | Throw e => Throw e
  end.

(** ** Fetching the unread stream *)

Module StreamPayload.
(** The decoded payload of [streams/contents], read through the two
    properties the code touches. *)
Record t := mk { items : option (list Article.t); continuation : option string }.
End StreamPayload.

(** The path and query of one page of the unread stream. *)
Definition streamPath (userId : string) (continuation : option string) : string :=
  "streams/contents?streamId=user/" +:+ userId +:+
  "/category/global.all&unreadOnly=true&count=250" +:+
  (if truthy_opt continuation
   then "&continuation=" +:+ default "" continuation else "").

Definition streamRequest (accessToken userId : string)
    (continuation : option string) : Request :=
  apiCall_request part_000 accessToken (streamPath userId continuation) GET None.

(** The local variables of the loop: the articles gathered and the token
    of the last page. *)
Record Gathered := mkGathered {
  articles : list Article.t;
  streamToken : option string
}.

(** How one turn of the loop ends: it goes round again, it breaks out of
    the loop, or it returns from the callback. *)
Inductive StreamControl := GoOn | BreakOut | ReturnNow.

(** The [catch] block of the loop: two messages end the command with a
    notice; after any other error the block ends and the loop goes round
    again with its variables as they were. *)
Definition streamCatch (e : Error) (g : Gathered) (st : State)
    : Gathered * State * StreamControl :=
  if includes (message e) "status 401" then (g, notice MSG_TOKEN_EXPIRED st, ReturnNow)
  else if includes (message e) "status 429" then (g, notice MSG_RATE_LIMIT st, ReturnNow)
  else (g, st, GoOn).

(** One turn of the loop once [requestUrl] has settled with [r]. *)
Definition streamIteration (r : HttpOutcome (js StreamPayload.t))
    (g : Gathered) (st : State) : Gathered * State * StreamControl :=
  match apiCall_result r with
  | Throw e => streamCatch e g st
  | Ok undefined => streamCatch (readOfNothing "undefined" "items") g st
  | Ok null => streamCatch (readOfNothing "null" "items") g st
  | Ok (val res) =>
      match StreamPayload.items res with
      | None => (g, st, ReturnNow)
      | Some its =>
          let g' := mkGathered (articles g ++ its) (StreamPayload.continuation res) in
          if (length its <? 250)%nat then (g', st, BreakOut) else (g', st, GoOn)
      end
  end.

(** What the loop comes to on a script of outcomes: the articles it
    gathered, a return from the callback, or a wait for an outcome the
    script does not hold. *)
Inductive Unread :=
| Gathers (xs : list Article.t)
| Returns
| Waits.

Fixpoint streamLoop (accessToken userId : string)
    (script : list (HttpOutcome (js StreamPayload.t)))
    (g : Gathered) (st : State) : State * Unread :=
  let st1 := emit (RequestUrl (streamRequest accessToken userId (streamToken g))) st in
  match script with
  | [] => (st1, Waits)
  | r :: script' =>
      match streamIteration r g st1 with
      | (g', st2, GoOn) => streamLoop accessToken userId script' g' st2
      | (g', st2, BreakOut) => (st2, Gathers (articles g'))
      | (_, st2, ReturnNow) => (st2, Returns)
      end
  end.

(** The first part of the callback of the command [epub], up to the end of
    the loop.  The settings are the ones in memory: the callback does not
    load them. *)
Definition fetchUnread (script : list (HttpOutcome (js StreamPayload.t)))
    (st : State) : State * Unread :=
  if negb (truthy_opt (Settings.userId (settings st))) then
    (notice MSG_NO_USER st, Returns)
  else if negb (truthy_opt (Settings.accessToken (settings st))) then
    (notice MSG_NO_TOKEN st, Returns)
  else
    streamLoop (template (Settings.accessToken (settings st)))
      (template (Settings.userId (settings st))) script (mkGathered [] None) st.

(** ** Fetching the saved entries *)

(** The decoded payload of [markers/tags]: the table from tag id to the
    list of entries marked with it, in the order its keys are listed. *)
Record TagsPayload := mkTags { taggedEntries : option (list (string * json)) }.

(** [Object.keys(t).filter(x => x.includes('global.saved'))[0]] *)
Definition globalSaved (t : list (string * json)) : option string :=
  head (List.filter (fun k => includes k "global.saved") (map fst t)).

(** [t[k]] for a key that may be [undefined], which then reads the
    property of that name. *)
Fixpoint property (k : string) (t : list (string * json)) : option json :=
  match t with
  | [] => None
  | (k', v) :: t' => if String.eqb k' k then Some v else property k t'
  end.

Definition tagsRequest (accessToken : string) : Request :=
  apiCall_request part_000 accessToken "markers/tags" GET None.

Definition mgetRequest (accessToken : string) (entries : option json) : Request :=
  apiCall_request part_000 accessToken "entries/.mget" "POST" entries.

(** The error of spreading a value that cannot be iterated. *)
Definition notIterable : Error :=
  mkError "TypeError"
    "Spread syntax requires ...iterable[Symbol.iterator] to be a function".

(** [getSavedLater(accessToken)] on the outcomes [r1] and [r2] of its two
    calls: the requests it sends and what it returns or throws.  Nothing is
    caught here. *)
Definition getSavedLater (accessToken : string)
    (r1 : HttpOutcome (js TagsPayload))
    (r2 : HttpOutcome (js (list Article.t)))
    : list Request * result (list Article.t) :=
  match apiCall_result r1 with
  | Throw e => ([tagsRequest accessToken], Throw e)
  | Ok undefined =>
      ([tagsRequest accessToken], Throw (readOfNothing "undefined" "taggedEntries"))
  | Ok null =>
      ([tagsRequest accessToken], Throw (readOfNothing "null" "taggedEntries"))
  | Ok (val m) =>
      match taggedEntries m with
      | None =>
          ([tagsRequest accessToken],
           Throw (mkError "TypeError" "Cannot convert undefined or null to object"))
      | Some t =>
          let entries := property (template (globalSaved t)) t in
          let reqs := [tagsRequest accessToken; mgetRequest accessToken entries] in
          match apiCall_result r2 with
          | Throw e => (reqs, Throw e)
          | Ok (val entryRes) => (reqs, Ok entryRes)
          | Ok _ => (reqs, Throw notIterable)
          end
      end
  end.

(** ** The calls of the gateway

    [apiCall] is private to its file.  [main.ts] calls it once, for a page
    of annotations; the later file calls it there, for the tags, for the
    saved entries and for a page of the unread stream.  Only the call for
    the saved entries passes a method and data. *)
Inductive Call : Type :=
| JournalCall (continuation : option string) (syncTime : option Z)
| TagsCall
| MgetCall (entries : option json)
| StreamCall (userId : string) (continuation : option string).

Definition calls (f : SourceFile) (c : Call) : bool :=
  match c with
  | JournalCall _ _ => true
  | _ => match f with part_000 => true | main_ts => false end
  end.

Definition callPath (c : Call) : string :=
  match c with
  | JournalCall continuation syncTime => journalPath continuation syncTime
  | TagsCall => "markers/tags"
  | MgetCall _ => "entries/.mget"
  | StreamCall userId continuation => streamPath userId continuation
  end.

Definition callMethod (c : Call) : string :=
  match c with
  | MgetCall _ => "POST"
  | _ => GET
  end.

Definition callData (c : Call) : option json :=
  match c with
  | MgetCall entries => entries
  | _ => None
  end.

Definition callRequest (f : SourceFile) (accessToken : string) (c : Call) : Request :=
  apiCall_request f accessToken (callPath c) (callMethod c) (callData c).

(** ** Deleting the generated archives *)

(** A file of the vault as the cleanup reads it. *)
Record TFile := mkTFile { tf_path : string; basename : string; extension : string }.

(** The test of the cleanup loop. *)
Definition isGeneratedArchive (f : TFile) : bool :=
  String.eqb (extension f) "epub" && String.prefix "FeedlySync" (basename f).

(** The callback of the command [cleanup] on the files of the vault: the
    files it moves to the trash, in order, and the files it leaves. *)
Definition cleanup (fs : list TFile) : list TFile * list TFile :=
  (List.filter isGeneratedArchive fs,
   List.filter (fun f => negb (isGeneratedArchive f)) fs).

(** ** A concrete host: the UTC calendar and clean paths

    Used to run the model on concrete inputs.  The calendar is the
    proleptic Gregorian one; [normalizePath] is applied to paths that are
    already normal. *)

Module UTC.

Definition msPerDay : Z := 86400000.

(** Year, month (1..12) and day of the civil date [days] after the epoch. *)
Definition civil (days : Z) : Z * Z * Z :=
  let z := days + 719468 in
  let era := z / 146097 in
  let doe := z - era * 146097 in
  let yoe := (doe - doe / 1460 + doe / 36524 - doe / 146096) / 365 in
  let doy := doe - (365 * yoe + yoe / 4 - yoe / 100) in
  let mp := (5 * doy + 2) / 153 in
  let d := doy - (153 * mp + 2) / 5 + 1 in
  let m := if mp <? 10 then mp + 3 else mp - 9 in
  let y := yoe + era * 400 + (if m <=? 2 then 1 else 0) in
  (y, m, d).

Definition host : Host :=
  {| normalizePath := fun p => p;
     getFullYear := fun t => fst (fst (civil (t / msPerDay)));
     getMonth := fun t => snd (fst (civil (t / msPerDay))) - 1;
     getDate := fun t => snd (civil (t / msPerDay)) |}.

End UTC.

(** * Vocabulary of the properties *)

(** Occurrence of a character in a string. *)
Fixpoint has_char (c : ascii) (s : string) : bool :=
  match s with
  | EmptyString => false
  | String a s' => Ascii.eqb a c || has_char c s'
  end.

(** The text of a list of [key: value] lines, each preceded by a line
    break. *)
Definition renderFields (fs : list (string * string)) : string :=
  fold_right (fun kv acc => nl +:+ fst kv +:+ ": " +:+ snd kv +:+ acc) "" fs.

(** The values listed under key [k]. *)
Definition fieldValues (k : string) (fs : list (string * string)) : list string :=
  map snd (List.filter (fun kv => String.eqb (fst kv) k) fs).

(** The pieces of a text between the occurrences of a character, a list of
    pieces joined with a separator between consecutive ones, and the number
    of occurrences of a character. *)
Fixpoint splitOn (c : ascii) (s : string) : list string :=
  match s with
  | EmptyString => [""]
  | String a s' =>
      if Ascii.eqb a c then "" :: splitOn c s'
      else match splitOn c s' with
           | p :: ps => String a p :: ps
           | [] => [String a ""]
           end
  end.

Fixpoint joinWith (sep : string) (ps : list string) : string :=
  match ps with
  | [] => ""
  | p :: ps' =>
      match ps' with
      | [] => p
      | _ :: _ => p +:+ sep +:+ joinWith sep ps'
      end
  end.

Fixpoint count_char (c : ascii) (s : string) : nat :=
  match s with
  | EmptyString => 0%nat
  | String a s' => ((if Ascii.eqb a c then 1 else 0) + count_char c s')%nat
  end.

(** A value with each of its colons replaced by the three characters space,
    hyphen, space: the pieces between its colons, put together again with
    that string where the colons were. *)
Definition colonsReplaced (v : string) : string := joinWith " - " (splitOn ":" v).

(** The frontmatter of a new document, field by field. *)
Definition initialFields (host : Host) (e : AnnotatedEntry.t) : list (string * string) :=
  let en := AnnotatedEntry.entry e in
  ((if truthy (Entry.canonicalUrl en) then [("url", Entry.canonicalUrl en)] else []) ++
   [("feedlyUrl", "https://feedly.com/i/entry/" +:+ Entry.id en);
    ("date", dateToJournal host (new_Date (AnnotatedEntry.created e)));
    ("pubDate", dateToJournal host
                  (new_Date (default (Entry.crawled en) (Entry.published en))));
    ("author", colonsReplaced (Entry.author en))] ++
   match Entry.origin en with
   | Some o =>
       if truthy (Origin.title o)
       then [("publisher", colonsReplaced (Origin.title o))] else []
   | None => []
   end)%list.

(** The metadata block of an exported article, field by field. *)
Definition metadataFields (host : Host) (x : Article.t) (authorArg : option string)
    : list (string * string) :=
  ((if truthy_js (Article.canonicalUrl x)
    then [("url", template_js (Article.canonicalUrl x))] else []) ++
   [("feedlyUrl", "https://feedly.com/i/entry/" +:+ template_js (Article.id x));
    ("title", template_js (Article.title x));
    ("pubDate", dateToJournal host
                  (new_Date_js (nullish (Article.published x) (Article.crawled x))));
    ("author", colonsReplaced (default "" authorArg))] ++
   match optchain (Article.origin x) OriginJ.title with
   | val t => if truthy t then [("publisher", colonsReplaced t)] else []
   | _ => []
   end)%list.

(** An article whose title holds a colon. *)
Definition colonArticle : Article.t :=
  Article.mk undefined (val "e1") (val "Chips: the sequel") undefined (val 0)
    (val "A: B") undefined undefined undefined (val "<p>text</p>").

(** A title with a backslash in it. *)
Definition backslashTitle : string := "AC" +:+ String backslash "DC".

(** The lines of a text: the pieces between its line breaks. *)
Fixpoint lines (s : string) : list string :=
  match s with
  | EmptyString => [""]
  | String c s' =>
      if Ascii.eqb c LF then "" :: lines s'
      else match lines s' with
           | l :: ls => String c l :: ls
           | [] => [String c ""]
           end
  end.

(** A Markdown blockquote of the given lines: each line carries the quote
    marker, and consecutive lines are joined by a line that holds the
    marker alone. *)
Definition blockquote (ls : list string) : list string :=
  match ls with
  | [] => []
  | l :: ls' => ("> " +:+ l) :: flat_map (fun l' => [">"; "> " +:+ l']) ls'
  end.

Definition entryWith (a : Annotation.t) : AnnotatedEntry.t :=
  AnnotatedEntry.mk a
    (Entry.mk "https://example.org/a" "e1" None 1700000000000 "A. Writer"
       "AI & Chips" (Some (Origin.mk "The Paper")))
    1700700000000.

Definition highlightEntry : AnnotatedEntry.t :=
  entryWith (Annotation.mk (Some (Highlight.mk ("first" +:+ nl +:+ "second"))) None).
Definition commentEntry : AnnotatedEntry.t :=
  entryWith (Annotation.mk None (Some "worth a second read")).
Definition bareEntry : AnnotatedEntry.t :=
  entryWith (Annotation.mk None None).

(** The rendered content and the summary content of an article. *)
Definition rendered (x : Article.t) : js string :=
  optchain (Article.content x) ContentJ.content.
Definition summaryText (x : Article.t) : js string :=
  optchain (Article.summary x) ContentJ.content.

Definition is_nullish {A} (v : js A) : bool :=
  match v with
  | val _ => false
  | _ => true
  end.

(** The resolution in the words of the specification: the first non-empty
    of rendered content, summary content and full content; empty when there
    is none. *)
Definition nonEmpty (v : js string) : option string :=
  match v with
  | val s => if truthy s then Some s else None
  | _ => None
  end.

Definition firstNonEmpty (x : Article.t) : string :=
  match nonEmpty (rendered x) with
  | Some s => s
  | None =>
      match nonEmpty (summaryText x) with
      | Some s => s
      | None => default "" (nonEmpty (Article.fullContent x))
      end
  end.

(** An article whose rendered content is the empty string and whose
    summary has text. *)
Definition emptyRendered : Article.t :=
  Article.mk (val "https://example.org/a") (val "e1") (val "T") undefined (val 0)
    (val "A") undefined (val (ContentJ.mk (val ""))) (val (ContentJ.mk (val "S")))
    undefined.

(** The body of the one request of the plugin that has a body: the list
    of entry ids posted to [entries/.mget]. *)
Definition savedIds : json := JArr [JStr "entry-1"; JStr "entry-2"].

(** A request as the gateway is to send it: the bearer token and the
    accepted type for headers, and for body nothing or the JSON text of a
    value. *)
Definition gatewayRequest (r : Request) : Prop :=
  (exists accessToken,
     headers r = [("Authorization", "Bearer " +:+ accessToken);
                  ("Accept", "application/json")]) /\
  (body r = None \/ exists v, body r = Some (BodyText (JSON_stringify v))).

(** The claim on the resolved content as stated: an article resolves to the
    first non-empty content, or that content is empty and the article is
    left out of the export. *)
Definition resolvesFirstNonEmpty (x : Article.t) : Prop :=
  getContent x = val (firstNonEmpty x) \/
  (firstNonEmpty x = "" /\ articlesToExport [x] = []).

(** The five folders the assembler has a view for. *)
Definition knownFolders : list string :=
  ["META-INF"; "OEBPF"; "OEBPF/css"; "OEBPF/content"; "OEBPF/images"].

(** The table [folders] as it always comes out: each known folder with
    the root of its view. *)
Definition folderTable : list (string * string) :=
  map (fun k => (k, k +:+ "/")) knownFolders.

(** Where a generated file belongs: its folder, a slash, its name. *)
Definition targetPath (f : EpubFile) : string :=
  file_folder f +:+ "/" +:+ file_name f.

(** The container opens with the mimetype entry, a file entry that carries
    the option to store. *)
Definition mimetypeFirst (z : Zip.t) : Prop :=
  match z with
  | e :: _ =>
      Zip.path e = MIMETYPE /\ Zip.dir e = false /\
      Zip.compression e = Some Zip.STORE
  | [] => False
  end.

(** The archive opens with the mimetype entry, stored. *)
Definition mimetypeFirstStored (a : list Zip.archived) : Prop :=
  match a with
  | e :: _ => Zip.a_path e = MIMETYPE /\ Zip.a_method e = Zip.STORE
  | [] => False
  end.

(** The files of a small book. *)
Definition sampleFiles : list EpubFile :=
  [mkFile "container.xml" "META-INF" "<container/>" None;
   mkFile "mimetype" "" "application/epub+zip" None;
   mkFile "ebook.opf" "OEBPF" "<package/>" None;
   mkFile "ebook.css" "OEBPF/css" "img { display: none }" None;
   mkFile "s1.xhtml" "OEBPF/content" "<html/>" None].

(** *** Vocabulary of the sync claims *)

(** Both credentials are stored and non-empty. *)
Definition configured (st : State) : bool :=
  truthy_opt (Settings.userId (data st)) && truthy_opt (Settings.accessToken (data st)).

(** A token is stored: the sync resumes; otherwise it is fresh. *)
Definition resuming (st : State) : bool :=
  truthy_opt (Settings.continuationToken (data st)).

(** The page an outcome amounts to, when it is one. *)
Definition pageOf (r : HttpOutcome (js JournalPayload)) : option Page :=
  match getAnnotations r with
  | Ok (Some p) => Some p
  | _ => None
  end.

(** A fetched page with fewer than 100 entries. *)
Definition shortPage (r : HttpOutcome (js JournalPayload)) : bool :=
  match pageOf r with
  | Some p => (page_count p <? 100)%nat
  | None => false
  end.

(** A fetched page with 100 entries or more. *)
Definition fullPage (r : HttpOutcome (js JournalPayload)) : bool :=
  match pageOf r with
  | Some p => negb (page_count p <? 100)%nat
  | None => false
  end.

(** The loop gets to a short page: full pages only come before it. *)
Fixpoint reachesShort (script : list (HttpOutcome (js JournalPayload))) : bool :=
  match script with
  | [] => false
  | r :: script' => shortPage r || (fullPage r && reachesShort script')
  end.

(** The fetch fails in any other way. *)
Definition otherFailure (r : HttpOutcome (js JournalPayload)) : bool :=
  match getAnnotations_try r with
  | Throw e =>
      negb (includes (message e) "status 401" || includes (message e) "status 429")
  | Ok _ => false
  end.

(** The token the last of the given pages came with; [init] when there is
    no page. *)
Fixpoint lastToken (init : option string)
    (pages : list (HttpOutcome (js JournalPayload))) : option string :=
  match pages with
  | [] => init
  | r :: pages' =>
      lastToken (match pageOf r with
                 | Some p => page_continuation p
                 | None => init
                 end) pages'
  end.

(** The entries of the given pages. *)
Definition entriesOf (pages : list (HttpOutcome (js JournalPayload))) : nat :=
  fold_right (fun r n => (match pageOf r with
                          | Some p => length (page_entries p)
                          | None => O
                          end + n)%nat) O pages.

Definition noticesOf (l : list Event) : list string :=
  flat_map (fun ev => match ev with Notice m => [m] | _ => [] end) l.

(** A save leaves the recorded start time at [ct]. *)
Definition saveKeepsTime (ct : option Z) (ev : Event) : Prop :=
  match ev with
  | SaveData s => Settings.continuationTime s = ct
  | _ => True
  end.

(** A save is accounted for: it leaves [lastSync] at [ls], or it is the
    save of a completed sync, which clears the token and sets [lastSync] to
    the recorded start time. *)
Definition saveAccounted (ls : option Z) (ev : Event) : Prop :=
  match ev with
  | SaveData s =>
      Settings.lastSync s = ls \/
      (Settings.lastSync s = Settings.continuationTime s /\
       Settings.continuationToken s = None)
  | _ => True
  end.

(** The settings in memory and the stored copy agree on the two times. *)
Definition timesAgree (st : State) : Prop :=
  Settings.lastSync (settings st) = Settings.lastSync (data st) /\
  Settings.continuationTime (settings st) = Settings.continuationTime (data st).

(** The stored credentials. *)
Definition credentials (s : Settings.t) : option string * option string :=
  (Settings.userId s, Settings.accessToken s).

(** The settings in memory and the stored copy hold the same credentials. *)
Definition credentialsAgree (st : State) : Prop :=
  credentials (settings st) = credentials (data st).

(** The request that asks for the page after [token], for annotations
    newer than [since]. *)
Definition resumeRequest (source : SourceFile) (d : Settings.t)
    (token : option string) : Request :=
  getAnnotations_request source (template (Settings.accessToken d)) token
    (Settings.lastSync d).

(** The settings a fresh sync saves before anything else: the stored ones,
    the folder defaulted, stamped with the time of the call. *)
Definition stamped (now : Z) (st : State) : Settings.t :=
  Settings.set_continuationTime (Some now) (assignDefaults (data st)).

(** The recorded start time of the sync that runs: the stored one when it
    resumes, the time of the call when it is fresh. *)
Definition windowStart (now : Z) (st : State) : option Z :=
  if resuming st then Settings.continuationTime (data st) else Some now.

(** The first request of a sync: the stored token and the stored
    [lastSync] go into the query. *)
Definition firstRequest (source : SourceFile) (st : State) : Request :=
  getAnnotations_request source (template (Settings.accessToken (data st)))
    (Settings.continuationToken (data st)) (Settings.lastSync (data st)).

(** The run after the given pages, each one taken as a turn of the loop
    that goes on. *)
Fixpoint afterPages (host : Host) (source : SourceFile) (folder : string)
    (pages : list (HttpOutcome (js JournalPayload))) (run : Run) : Run :=
  match pages with
  | [] => run
  | r :: pages' =>
      afterPages host source folder pages'
        (fst (iteration host folder r (sendRequest source run)))
  end.

(** Some notice shown so far carries the text [msg]. *)
Definition surfaced (msg : string) (st : State) : Prop :=
  existsb (fun m => includes m msg) (noticesOf (log st)) = true.

(** *** Sample states and outcomes *)

Definition noSettings : Settings.t := Settings.mk None None None None None None.

(** Credentials and a completed earlier sync; no sync in flight. *)
Definition storedIdle : Settings.t :=
  Settings.mk (Some "user-1") (Some "secret") (Some 1000) (Some 1000) None None.

(** A sync that began at time 2000 and was cut short after a page. *)
Definition storedMidway : Settings.t :=
  Settings.mk (Some "user-1") (Some "secret") (Some 1000) (Some 2000) (Some "cursor-1")
    (Some "Notes").

Definition stateOf (d : Settings.t) : State := mkState noSettings d ∅ ∅ [].

(** A page of [n] annotations that comes with the token [tok]. *)
Definition pageWith (n : nat) (tok : option string) : HttpOutcome (js JournalPayload) :=
  Json (val (mkPayload None (Some (repeat highlightEntry n)) tok)).

Definition rejected (msg : string) : HttpOutcome (js JournalPayload) :=
  Rejected (mkError "Error" msg).

Definition MSG_429 : string := "Request failed, status 429".
Definition MSG_401 : string := "Request failed, status 401".
Definition MSG_500 : string := "Request failed, status 500".

(** A response that decodes but carries an error code. *)
Definition errorPayload : HttpOutcome (js JournalPayload) :=
  Json (val (mkPayload (Some 500) None None)).

(** A page of 100 annotations, then a page of 40. *)
Definition twoPages : list (HttpOutcome (js JournalPayload)) :=
  [pageWith 100 (Some "cursor-2"); pageWith 40 None].

(** A page of 100 annotations that comes with a token. *)
Definition onePage : list (HttpOutcome (js JournalPayload)) :=
  [pageWith 100 (Some "cursor-2")].

(** The command as the later source file has it, on the UTC host, called at
    time 5000. *)
Definition runSync (script : list (HttpOutcome (js JournalPayload)))
    (d : Settings.t) : State * Status :=
  sync UTC.host part_000 5000 script (stateOf d).

(** *** Vocabulary of the further properties *)

Fixpoint concatText (ts : list string) : string :=
  match ts with
  | [] => ""
  | t :: ts' => t +:+ concatText ts'
  end.

(** The entries of a page whose document is at path [p], in page order. *)
Definition entriesAt (host : Host) (folder p : string)
    (es : list AnnotatedEntry.t) : list AnnotatedEntry.t :=
  List.filter (fun e => String.eqb (documentPath host folder e) p) es.

Definition requestsOf (l : list Event) : list Request :=
  flat_map (fun ev => match ev with RequestUrl r => [r] | _ => [] end) l.

Definition savesOf (l : list Event) : list Settings.t :=
  flat_map (fun ev => match ev with SaveData s => [s] | _ => [] end) l.

(** The tokens the loop sends while it goes through the given pages and
    asks for the next one: the token it starts with, then the token of each
    page. *)
Fixpoint tokensSent (init : option string)
    (pages : list (HttpOutcome (js JournalPayload))) : list (option string) :=
  match pages with
  | [] => [init]
  | r :: pages' =>
      init :: tokensSent (match pageOf r with
                          | Some p => page_continuation p
                          | None => init
                          end) pages'
  end.

(** The vault after the entries of the given pages are merged, page after
    page. *)
Definition mergedFiles (host : Host) (folder : string)
    (pages : list (HttpOutcome (js JournalPayload)))
    (fs : gmap string string) : gmap string string :=
  foldl (fun acc r => match pageOf r with
                      | Some p => processAnnotations host folder (page_entries p) acc
                      | None => acc
                      end) fs pages.

(** What the loop does for each of the given pages, all of them taken to
    be full: it asks with the token it has, then saves the settings [s]
    with the token of the page. *)
Fixpoint pageEvents (source : SourceFile) (s : Settings.t) (init : option string)
    (pages : list (HttpOutcome (js JournalPayload))) : list Event :=
  match pages with
  | [] => []
  | r :: pages' =>
      let token := match pageOf r with
                   | Some p => page_continuation p
                   | None => init
                   end in
      RequestUrl (resumeRequest source s init) ::
      SaveData (Settings.set_continuationToken token s) ::
      pageEvents source s token pages'
  end.

(** The settings in memory when the loop starts: the stored ones with the
    folder defaulted, stamped with the time of the call on a fresh sync. *)
Definition startSettings (now : Z) (st : State) : Settings.t :=
  if resuming st then assignDefaults (data st) else stamped now st.

(** What the callback logs before the loop. *)
Definition preludeEvents (now : Z) (st : State) : list Event :=
  ((if resuming st then [] else [SaveData (stamped now st)]) ++
   [Notice MSG_BEGIN])%list.

(** Two runs with the same settings, stored copy, vault and token; their
    logs, their counters and the vault folders may differ. *)
Definition sameCore (a b : Run) : Prop :=
  settings (state a) = settings (state b) /\
  data (state a) = data (state b) /\
  files (state a) = files (state b) /\
  continuationToken a = continuationToken b.

(** The folder the documents go to. *)
Definition storedFolder (st : State) : string :=
  default DEFAULT_FOLDER (Settings.annotationsFolder (data st)).

(** The settings a completed sync stores: the token cleared and [lastSync]
    moved to the recorded start time. *)
Definition completedSettings (now : Z) (st : State) : Settings.t :=
  Settings.set_lastSync (windowStart now st)
    (Settings.set_continuationToken None (startSettings now st)).

(** Two entries with the same title, one highlighted and one commented,
    and a third with a title of its own. *)
Definition otherEntry : AnnotatedEntry.t :=
  AnnotatedEntry.mk (Annotation.mk None (Some "see also"))
    (Entry.mk "" "e2" (Some 1600000000000) 1700000000000 "B. Writer"
       "Other: piece" None)
    1700700000000.

Definition mixedPage : list AnnotatedEntry.t :=
  [highlightEntry; otherEntry; commentEntry].

(** *** Vocabulary of the export properties *)

(** The items of an outcome that is a page of the stream. *)
Definition streamItems (r : HttpOutcome (js StreamPayload.t)) : option (list Article.t) :=
  match r with
  | Json (val res) => StreamPayload.items res
  | _ => None
  end.

Definition streamNext (init : option string) (r : HttpOutcome (js StreamPayload.t))
    : option string :=
  match r with
  | Json (val res) => StreamPayload.continuation res
  | _ => init
  end.

(** A page of 250 items or more. *)
Definition fullStreamPage (r : HttpOutcome (js StreamPayload.t)) : bool :=
  match streamItems r with
  | Some its => negb (length its <? 250)%nat
  | None => false
  end.

(** A page of fewer than 250 items. *)
Definition lastStreamPage (r : HttpOutcome (js StreamPayload.t)) : bool :=
  match streamItems r with
  | Some its => (length its <? 250)%nat
  | None => false
  end.

(** A fetch that fails without a mention of status 401 or status 429: a
    rejection with another message, or a response without a payload. *)
Definition retried (r : HttpOutcome (js StreamPayload.t)) : bool :=
  match r with
  | Rejected e =>
      negb (includes (Error_toString e) "status 401" ||
            includes (Error_toString e) "status 429")
  | Json (val _) => false
  | Json _ => true
  end.

Definition gatheredItems (pages : list (HttpOutcome (js StreamPayload.t)))
    : list Article.t :=
  flat_map (fun r => default [] (streamItems r)) pages.

(** The tokens the stream loop sends for the given pages. *)
Fixpoint pageTokens (init : option string)
    (pages : list (HttpOutcome (js StreamPayload.t))) : list (option string) :=
  match pages with
  | [] => []
  | r :: pages' => init :: pageTokens (streamNext init r) pages'
  end.

Fixpoint lastStreamToken (init : option string)
    (pages : list (HttpOutcome (js StreamPayload.t))) : option string :=
  match pages with
  | [] => init
  | r :: pages' => lastStreamToken (streamNext init r) pages'
  end.

(** The tokens the stream loop sends while it goes through the given
    pages and asks for the next one. *)
Definition streamTokens (init : option string)
    (pages : list (HttpOutcome (js StreamPayload.t))) : list (option string) :=
  (pageTokens init pages ++ [lastStreamToken init pages])%list.

(** The state with more events logged. *)
Definition logged (evs : list Event) (st : State) : State :=
  mkState (settings st) (data st) (files st) (folders st) (log st ++ evs).

(** The settings in memory hold both credentials. *)
Definition credentialsInMemory (st : State) : bool :=
  truthy_opt (Settings.userId (settings st)) &&
  truthy_opt (Settings.accessToken (settings st)).

(** The request for the page of the stream after [token], with the
    credentials in memory. *)
Definition unreadRequest (st : State) (token : option string) : Request :=
  streamRequest (template (Settings.accessToken (settings st)))
    (template (Settings.userId (settings st))) token.

(** Sample outcomes of the stream. *)
Definition streamPage (n : nat) (tok : option string) : HttpOutcome (js StreamPayload.t) :=
  Json (val (StreamPayload.mk (Some (repeat emptyRendered n)) tok)).

Definition streamFailure (msg : string) : HttpOutcome (js StreamPayload.t) :=
  Rejected (mkError "Error" msg).

Definition memoryOf (d : Settings.t) : State := mkState d d ∅ ∅ [].

(** The tag id names the saved collection. *)
Definition namesSaved (k : string) : bool := includes k "global.saved".

(** A table of two tags, the second one the saved collection. *)
Definition sampleTags : list (string * json) :=
  [("user/u1/tag/reading", JArr [JStr "entry-9"]);
   ("user/u1/tag/global.saved", savedIds)].

(** The author line of an article cannot be written: it has no author,
    and no origin to fall back on or an origin whose title is null. *)
Definition lacksAuthor (x : Article.t) : bool :=
  is_nullish (Article.author x) &&
  match Article.origin x with
  | val o => match OriginJ.title o with
             | null => true
             | _ => false
             end
  | _ => true
  end.

(** An article with neither author nor origin. *)
Definition anonymousArticle : Article.t :=
  Article.mk undefined (val "e7") (val "T") undefined (val 0) undefined undefined
    undefined undefined (val "<p>text</p>").

(** A file lies in a folder the assembler has no view for. *)
Definition misplaced (f : EpubFile) : bool :=
  negb (String.eqb (file_name f) MIMETYPE) && truthy (file_folder f) &&
  negb (existsb (fun k => String.eqb k (file_folder f)) knownFolders).

(** The files of a book with a stray file. *)
Definition strayFiles : list EpubFile :=
  [mkFile "mimetype" "" "application/epub+zip" None;
   mkFile "notes.txt" "extras" "n" None].

(** The files of a book with a file in a folder named like an inherited
    property, followed by a stray file. *)
Definition inheritedFiles : list EpubFile :=
  [mkFile "mimetype" "" "application/epub+zip" None;
   mkFile "container.xml" "META-INF" "<container/>" None;
   mkFile "a.txt" "constructor" "a" None;
   mkFile "notes.txt" "extras" "n" None].

(** The files of a book whose mimetype file also carries [data]. *)
Definition dataFiles : list EpubFile :=
  [mkFile "mimetype" "" "application/epub+zip" (Some "application/epub+zip");
   mkFile "container.xml" "META-INF" "<container/>" None].

(** Files of a vault: two generated archives, a document and a book of
    the user. *)
Definition vaultFiles : list TFile :=
  [mkTFile "FeedlySync-1700000000000.epub" "FeedlySync-1700000000000" "epub";
   mkTFile "Feedly Annotations/AI & Chips.md" "AI & Chips" "md";
   mkTFile "Books/Dune.epub" "Dune" "epub";
   mkTFile "old/FeedlySync-1.epub" "FeedlySync-1" "epub"].

(** The page comes without a token, or with an empty one. *)
Definition tokenless (r : HttpOutcome (js JournalPayload)) : bool :=
  negb (truthy_opt (lastToken None [r])).

(** The decimal digit of a number from 0 to 9, and a number written on
    exactly two and on exactly four decimal digits, leading zeros kept. *)
Definition digitChar (d : Z) : ascii := ascii_of_nat (48 + Z.to_nat d).

Definition twoDigits (z : Z) : string :=
  String (digitChar (z / 10)) (String (digitChar (z mod 10)) "").

Definition fourDigits (z : Z) : string :=
  String (digitChar (z / 1000))
    (String (digitChar (z / 100 mod 10)) (twoDigits (z mod 100))).

(** The integers from [lo], [n] of them. *)
Definition Zrange (lo : Z) (n : nat) : list Z :=
  map (fun k => lo + Z.of_nat k) (seq 0 n).

(** * Properties *)

(** ** Strings *)

Lemma append_assoc (a b c : string) : (a +:+ b) +:+ c = a +:+ (b +:+ c).
Proof. induction a as [|x a IH]; simpl; [reflexivity | f_equal; exact IH]. Qed.

Lemma append_empty_r (a : string) : a +:+ "" = a.
Proof. induction a as [|x a IH]; simpl; [reflexivity | f_equal; exact IH]. Qed.

(** Bring both sides of an equation between concatenations to the same
    right-nested form. *)
Ltac string_norm :=
  repeat (progress (rewrite ?append_assoc, ?append_empty_r; simpl String.append)).

Lemma has_char_append c a b : has_char c (a +:+ b) = has_char c a || has_char c b.
Proof.
  induction a as [|x a IH]; simpl; [reflexivity|].
  rewrite IH. now rewrite orb_assoc.
Qed.

Lemma has_char_replace c r s :
  has_char c r = false -> has_char c (replace_char c r s) = false.
Proof.
  intros Hr. induction s as [|a s IH]; simpl; [reflexivity|].
  destruct (Ascii.eqb a c) eqn:E.
  - rewrite has_char_append, Hr, IH. reflexivity.
  - simpl. rewrite E, IH. reflexivity.
Qed.

Lemma has_char_remove c cs s :
  mem_char c cs = true -> has_char c (remove_chars cs s) = false.
Proof.
  intros Hc. induction s as [|a s IH]; simpl; [reflexivity|].
  destruct (mem_char a cs) eqn:E; [exact IH|].
  simpl. rewrite IH, orb_false_r.
  destruct (Ascii.eqb a c) eqn:Eac; [|reflexivity].
  apply Ascii.eqb_eq in Eac. subst a. congruence.
Qed.

Lemma has_char_remove_other c cs s :
  mem_char c cs = false -> has_char c (remove_chars cs s) = has_char c s.
Proof.
  intros Hc. induction s as [|a s IH]; simpl; [reflexivity|].
  destruct (mem_char a cs) eqn:E.
  - rewrite IH. destruct (Ascii.eqb a c) eqn:Eac; [|reflexivity].
    apply Ascii.eqb_eq in Eac. subst a. congruence.
  - simpl. now rewrite IH.
Qed.

Lemma includes_append_l pre s sub :
  includes s sub = true -> includes (pre +:+ s) sub = true.
Proof.
  intros H. induction pre as [|a pre IH]; simpl; [exact H|].
  rewrite IH. apply orb_true_r.
Qed.

Lemma includes_empty sub : truthy sub = true -> includes "" sub = false.
Proof. destruct sub; simpl; [discriminate | reflexivity]. Qed.

(** Printing an error keeps every non-empty fragment of its message. *)
Lemma includes_Error_toString e sub :
  truthy sub = true ->
  includes (message e) sub = true ->
  includes (Error_toString e) sub = true.
Proof.
  intros Hs H. unfold Error_toString.
  destruct (name e) as [|a n]; [exact H|].
  destruct (message e) as [|b m] eqn:Em.
  - rewrite includes_empty in H by exact Hs. discriminate.
  - do 2 apply includes_append_l. exact H.
Qed.

(** ** File names *)

(** C3.  The regular expression that cleans a title removes the eight
    characters star, double quote, slash, less-than, greater-than, colon,
    bar and question mark, and leaves the backslash, which the comment above
    it lists among the characters a file name cannot contain: every
    backslash of a title survives, as in the title AC\DC. *)
Theorem sanitizeFileName_keeps_backslash :
  (forall title,
     forallb (fun c => negb (has_char c (sanitizeFileName title))) fileNameClass = true) /\
  (forall title,
     has_char backslash (sanitizeFileName title) = has_char backslash title) /\
  sanitizeFileName backslashTitle = backslashTitle /\
  has_char backslash (sanitizeFileName backslashTitle) = true /\
  mem_char backslash forbiddenInFileName = true.
Proof.
  split; [|split; [|repeat split]].
  - intros title. apply forallb_forall. intros c Hc.
    unfold sanitizeFileName. rewrite has_char_remove; [reflexivity|].
    unfold mem_char. apply existsb_exists. exists c. split; [exact Hc|].
    apply Ascii.eqb_refl.
  - intros title. apply has_char_remove_other. reflexivity.
Qed.

(** ** Frontmatter *)

Lemma splitOn_cons c s : exists p ps, splitOn c s = p :: ps.
Proof.
  induction s as [|a s [p [ps IH]]]; simpl; [eauto|].
  destruct (Ascii.eqb a c); [eauto|]. rewrite IH. eauto.
Qed.

Lemma joinWith_cons_char sep a p ps :
  joinWith sep (String a p :: ps) = String a (joinWith sep (p :: ps)).
Proof. destruct ps; reflexivity. Qed.

Lemma joinWith_cons_empty sep p ps :
  joinWith sep ("" :: p :: ps) = sep +:+ joinWith sep (p :: ps).
Proof. reflexivity. Qed.

(** Replacing a character is cutting at it and joining with the
    replacement. *)
Lemma replace_char_joinWith c r s :
  replace_char c r s = joinWith r (splitOn c s).
Proof.
  induction s as [|a s IH]; [reflexivity|].
  cbn [replace_char splitOn]. rewrite IH.
  destruct (splitOn_cons c s) as [p [ps E]]. rewrite E.
  destruct (Ascii.eqb a c).
  - rewrite joinWith_cons_empty. reflexivity.
  - rewrite joinWith_cons_char. reflexivity.
Qed.

(** Joining the pieces with the character gives the text back. *)
Lemma joinWith_splitOn c s : joinWith (String c "") (splitOn c s) = s.
Proof.
  induction s as [|a s IH]; [reflexivity|].
  cbn [splitOn]. destruct (splitOn_cons c s) as [p [ps E]]. rewrite E in *.
  destruct (Ascii.eqb a c) eqn:Eac.
  - apply Ascii.eqb_eq in Eac. subst a.
    rewrite joinWith_cons_empty, IH. reflexivity.
  - rewrite joinWith_cons_char, IH. reflexivity.
Qed.

Lemma splitOn_no_char c s :
  forallb (fun p => negb (has_char c p)) (splitOn c s) = true.
Proof.
  induction s as [|a s IH]; [reflexivity|].
  cbn [splitOn]. destruct (splitOn_cons c s) as [p [ps E]]. rewrite E in *.
  destruct (Ascii.eqb a c) eqn:Eac.
  - cbn [forallb has_char negb andb]. exact IH.
  - cbn [forallb has_char] in *. rewrite Eac. exact IH.
Qed.

Lemma splitOn_length c s : length (splitOn c s) = S (count_char c s).
Proof.
  induction s as [|a s IH]; [reflexivity|].
  cbn [splitOn count_char]. destruct (splitOn_cons c s) as [p [ps E]].
  rewrite E in *. destruct (Ascii.eqb a c); cbn [length] in *; lia.
Qed.

Lemma length_append a b :
  String.length (a +:+ b) = (String.length a + String.length b)%nat.
Proof. induction a as [|x a IH]; simpl; [reflexivity | now rewrite IH]. Qed.

Lemma colonsReplaced_length v :
  String.length (colonsReplaced v) = (String.length v + 2 * count_char ":" v)%nat.
Proof.
  unfold colonsReplaced. rewrite <- replace_char_joinWith.
  induction v as [|a v IH]; [reflexivity|].
  cbn [replace_char count_char String.length].
  destruct (Ascii.eqb a ":").
  - rewrite length_append, IH. cbn [String.length]. lia.
  - cbn [String.length]. rewrite IH. lia.
Qed.

Lemma sanitizeFrontmatter_colonsReplaced v :
  sanitizeFrontmatter (Some v) = colonsReplaced v.
Proof. unfold sanitizeFrontmatter, colonsReplaced. apply replace_char_joinWith. Qed.

Lemma sanitizeFrontmatter_default :
  forall v, sanitizeFrontmatter v = colonsReplaced (default "" v).
Proof. intros [v|]; [apply sanitizeFrontmatter_colonsReplaced | reflexivity]. Qed.

Lemma sanitizeFrontmatter_no_colon v :
  has_char ":" (sanitizeFrontmatter v) = false.
Proof. unfold sanitizeFrontmatter. now apply has_char_replace. Qed.

Lemma colonsReplaced_no_colon v : has_char ":" (colonsReplaced v) = false.
Proof.
  rewrite <- sanitizeFrontmatter_colonsReplaced. apply sanitizeFrontmatter_no_colon.
Qed.

Lemma getInitialContent_fields host e :
  getInitialContent host e =
  "---" +:+ renderFields (initialFields host e) +:+ nl +:+ "---" +:+ nl.
Proof.
  unfold getInitialContent, initialFields.
  rewrite !sanitizeFrontmatter_colonsReplaced.
  destruct e as [a [url i pub cr au ti og] c]. cbn [AnnotatedEntry.entry
    AnnotatedEntry.created Entry.canonicalUrl Entry.id Entry.published
    Entry.crawled Entry.author Entry.title Entry.origin default].
  destruct (truthy url); destruct og as [[t]|]; cbn [Origin.title];
    rewrite ?sanitizeFrontmatter_colonsReplaced;
    try destruct (truthy t); cbn; string_norm; reflexivity.
Qed.

Lemma metadataBlock_fields host x a :
  metadataBlock host x a =
  "<pre>---" +:+ renderFields (metadataFields host x a) +:+ nl +:+ "---</pre>" +:+
  nl +:+ nl.
Proof.
  unfold metadataBlock, metadataFields, publisherLine.
  rewrite (sanitizeFrontmatter_default a).
  destruct (truthy_js (Article.canonicalUrl x));
    destruct (optchain (Article.origin x) OriginJ.title) as [| |t];
    rewrite ?sanitizeFrontmatter_colonsReplaced;
    try destruct (truthy t); cbn; string_norm; reflexivity.
Qed.

(** C10.  [sanitizeFrontmatter] replaces each colon of its argument by the
    three characters space, hyphen, space and changes nothing else: its
    result is the pieces between the colons of the argument, themselves
    free of colons and one more than there are colons, put together again
    with that string where the colons were, so that it is two characters
    longer for each colon and holds none.  In the frontmatter of a new
    document the author value is the entry's author treated so, and so is
    the publisher value when the entry has a publisher.  The title of the
    metadata block of an exported article is the title as it came, colons
    included. *)
Theorem frontmatter_colons_sanitized :
  (forall v,
     sanitizeFrontmatter (Some v) = joinWith " - " (splitOn ":" v) /\
     joinWith ":" (splitOn ":" v) = v /\
     forallb (fun p => negb (has_char ":" p)) (splitOn ":" v) = true /\
     length (splitOn ":" v) = S (count_char ":" v) /\
     String.length (sanitizeFrontmatter (Some v)) =
       (String.length v + 2 * count_char ":" v)%nat /\
     has_char ":" (sanitizeFrontmatter (Some v)) = false) /\
  sanitizeFrontmatter None = "" /\
  sanitizeFrontmatter (Some "Doe: Jane: Ed.") = "Doe -  Jane -  Ed." /\
  (forall host e,
     getInitialContent host e =
       "---" +:+ renderFields (initialFields host e) +:+ nl +:+ "---" +:+ nl /\
     fieldValues "author" (initialFields host e) =
       [joinWith " - " (splitOn ":" (Entry.author (AnnotatedEntry.entry e)))] /\
     fieldValues "publisher" (initialFields host e) =
       match Entry.origin (AnnotatedEntry.entry e) with
       | Some o => if truthy (Origin.title o)
                   then [joinWith " - " (splitOn ":" (Origin.title o))] else []
       | None => []
       end /\
     forallb (fun v => negb (has_char ":" v))
       (fieldValues "author" (initialFields host e) ++
        fieldValues "publisher" (initialFields host e)) = true) /\
  (forall host x a,
     metadataBlock host x a =
       "<pre>---" +:+ renderFields (metadataFields host x a) +:+ nl +:+
       "---</pre>" +:+ nl +:+ nl /\
     fieldValues "title" (metadataFields host x a) = [template_js (Article.title x)]) /\
  forallb (has_char ":") (fieldValues "title" (metadataFields UTC.host colonArticle None))
    = true.
Proof.
  split; [|split; [reflexivity|split; [reflexivity|split; [|split; [|reflexivity]]]]].
  - intros v. rewrite sanitizeFrontmatter_colonsReplaced.
    split; [reflexivity|]. split; [apply (joinWith_splitOn ":")|].
    split; [apply splitOn_no_char|]. split; [apply splitOn_length|].
    split; [apply colonsReplaced_length | apply colonsReplaced_no_colon].
  - intros host e.
    assert (Ha : fieldValues "author" (initialFields host e) =
                 [colonsReplaced (Entry.author (AnnotatedEntry.entry e))]).
    { unfold initialFields, fieldValues.
      destruct (truthy (Entry.canonicalUrl (AnnotatedEntry.entry e)));
        destruct (Entry.origin (AnnotatedEntry.entry e)) as [o|];
        try destruct (truthy (Origin.title o)); reflexivity. }
    assert (Hp : fieldValues "publisher" (initialFields host e) =
                 match Entry.origin (AnnotatedEntry.entry e) with
                 | Some o => if truthy (Origin.title o)
                             then [colonsReplaced (Origin.title o)] else []
                 | None => []
                 end).
    { unfold initialFields, fieldValues.
      destruct (truthy (Entry.canonicalUrl (AnnotatedEntry.entry e)));
        destruct (Entry.origin (AnnotatedEntry.entry e)) as [o|];
        try destruct (truthy (Origin.title o)); reflexivity. }
    split; [apply getInitialContent_fields|].
    split; [exact Ha|]. split; [exact Hp|].
    rewrite Ha, Hp.
    destruct (Entry.origin (AnnotatedEntry.entry e)) as [o|];
      try destruct (truthy (Origin.title o)); cbn [app forallb];
      rewrite ?colonsReplaced_no_colon; reflexivity.
  - intros host x a. split; [apply metadataBlock_fields|].
    unfold metadataFields, fieldValues.
    destruct (truthy_js (Article.canonicalUrl x));
      destruct (optchain (Article.origin x) OriginJ.title) as [| |t];
      try destruct (truthy t); reflexivity.
Qed.

(** ** Appended text *)

Lemma lines_cons s : exists l ls, lines s = l :: ls.
Proof.
  induction s as [|c s [l [ls IH]]]; simpl; [eauto|].
  destruct (Ascii.eqb c LF); [eauto|]. rewrite IH. eauto.
Qed.

(** A prefix without line break stays on the first line. *)
Lemma lines_prefix p s l ls :
  has_char LF p = false -> lines s = l :: ls -> lines (p +:+ s) = (p +:+ l) :: ls.
Proof.
  induction p as [|c p IH]; simpl; intros Hp Hs; [exact Hs|].
  apply orb_false_elim in Hp as [Hc Hp].
  rewrite Hc, (IH Hp Hs). reflexivity.
Qed.

Lemma lines_replace_break p t :
  has_char LF p = false ->
  lines (p +:+ replace_char LF quoteBreak t) =
  match lines t with
  | l :: ls => (p +:+ l) :: flat_map (fun l' => [">"; "> " +:+ l']) ls
  | [] => []
  end.
Proof.
  revert p. induction t as [|c t IH]; intros p Hp.
  - simpl. now rewrite (lines_prefix p "" "" []).
  - simpl. destruct (Ascii.eqb c LF) eqn:Ec.
    + specialize (IH "> " eq_refl).
      destruct (lines_cons t) as [l [ls Hl]]. rewrite Hl in IH |- *.
      rewrite (lines_prefix p _ "" (">" :: ("> " +:+ l)
                 :: flat_map (fun l' => [">"; "> " +:+ l']) ls) Hp).
      * reflexivity.
      * unfold quoteBreak. string_norm. simpl. cbn in IH. rewrite IH. reflexivity.
    + destruct (lines_cons t) as [l [ls Hl]]. rewrite Hl.
      replace (p +:+ String c (replace_char LF quoteBreak t))
        with ((p +:+ String c "") +:+ replace_char LF quoteBreak t)
        by (string_norm; reflexivity).
      rewrite IH.
      * rewrite Hl. string_norm. reflexivity.
      * rewrite has_char_append, Hp. simpl. rewrite Ec. reflexivity.
Qed.

(** Merging an entry leaves its document holding what it held, or the
    frontmatter when it is new, followed by the appended text; every other
    document is untouched. *)
Lemma processAnnotation_appends host folder e (fs : gmap string string) :
  processAnnotation host folder e fs !! documentPath host folder e =
    Some (default (getInitialContent host e) (fs !! documentPath host folder e) +:+
          getAppendContent e) /\
  (forall p, p <> documentPath host folder e ->
     processAnnotation host folder e fs !! p = fs !! p).
Proof.
  unfold processAnnotation. split.
  - rewrite lookup_alter_eq.
    destruct (fs !! documentPath host folder e) as [d|] eqn:E.
    + rewrite E. reflexivity.
    + rewrite lookup_insert_eq. reflexivity.
  - intros p Hp. rewrite lookup_alter_ne by congruence.
    destruct (fs !! documentPath host folder e); [reflexivity|].
    rewrite lookup_insert_ne by congruence. reflexivity.
Qed.

(** C8.  For an entry with a highlight the appended text is a blank line
    and a blockquote of the highlight: its first line after the quote
    marker, and for each line break a line with the marker alone followed by
    the next line after the marker.  For an entry with a non-empty comment
    and no highlight it is the comment as a paragraph of its own.  For an
    entry with neither it is empty.  In each case that text is what the
    merge adds at the end of the entry's document. *)
Theorem getAppendContent_cases (e : AnnotatedEntry.t) :
  (forall host folder (fs : gmap string string),
     processAnnotation host folder e fs !! documentPath host folder e =
       Some (default (getInitialContent host e) (fs !! documentPath host folder e) +:+
             getAppendContent e)) /\
  (forall h,
     Annotation.highlight (AnnotatedEntry.annotation e) = Some h ->
     getAppendContent e =
       nl +:+ nl +:+ "> " +:+ replace_char LF (nl +:+ ">" +:+ nl +:+ "> ") (Highlight.text h) /\
     lines (getAppendContent e) = "" :: "" :: blockquote (lines (Highlight.text h))) /\
  (forall c,
     Annotation.highlight (AnnotatedEntry.annotation e) = None ->
     Annotation.comment (AnnotatedEntry.annotation e) = Some c ->
     c <> "" ->
     getAppendContent e = nl +:+ "    " +:+ nl +:+ c) /\
  (Annotation.highlight (AnnotatedEntry.annotation e) = None ->
   truthy_opt (Annotation.comment (AnnotatedEntry.annotation e)) = false ->
   getAppendContent e = "").
Proof.
  split; [intros host folder fs; apply processAnnotation_appends|].
  unfold getAppendContent. split; [|split].
  - intros h Hh. rewrite Hh. split; [reflexivity|].
    change (lines (nl +:+ nl +:+ "> " +:+ replace_char LF quoteBreak (Highlight.text h)))
      with ("" :: "" :: lines ("> " +:+ replace_char LF quoteBreak (Highlight.text h))).
    rewrite (lines_replace_break "> " (Highlight.text h) eq_refl).
    unfold blockquote. destruct (lines_cons (Highlight.text h)) as [l [ls ->]].
    reflexivity.
  - intros c Hh Hc Hne. rewrite Hh, Hc. destruct c; [congruence|reflexivity].
  - intros Hh Hc. rewrite Hh, Hc. reflexivity.
Qed.

Lemma getAppendContent_cases_witness :
  lines (getAppendContent highlightEntry) = [""; ""; "> first"; ">"; "> second"] /\
  getAppendContent commentEntry = nl +:+ "    " +:+ nl +:+ "worth a second read" /\
  getAppendContent bareEntry = "".
Proof.
  destruct (getAppendContent_cases highlightEntry) as [_ [H1 _]].
  destruct (getAppendContent_cases commentEntry) as [_ [_ [H2 _]]].
  destruct (getAppendContent_cases bareEntry) as [_ [_ [_ H3]]].
  split; [|split].
  - destruct (H1 _ eq_refl) as [_ Hl]. rewrite Hl. reflexivity.
  - apply (H2 _ eq_refl eq_refl). discriminate.
  - apply H3; reflexivity.
Defined.

(** ** API gateway *)

(** The gateway as a function.  Every request it builds carries the bearer
    token and asks for JSON, in both source files.  The later file sends
    data as its JSON text.  The [apiCall] of [main.ts] would hand data over
    as the value it was given; its one caller passes none. *)
Remark apiCall_request_shape :
  (forall f accessToken path method data,
     headers (apiCall_request f accessToken path method data) =
       [("Authorization", "Bearer " +:+ accessToken); ("Accept", "application/json")]) /\
  (forall accessToken path method data,
     body (apiCall_request part_000 accessToken path method data) =
       option_map (fun v => BodyText (JSON_stringify v)) data) /\
  (forall accessToken path method,
     body (apiCall_request main_ts accessToken path method None) = None) /\
  body (apiCall_request main_ts "token" "entries/.mget" "POST" (Some savedIds)) =
    Some (BodyValue savedIds).
Proof.
  split; [|split; [|split; [|reflexivity]]].
  - intros f accessToken path method data. reflexivity.
  - intros accessToken path method [v|]; reflexivity.
  - reflexivity.
Qed.

(** ** Resolved content of an article *)

Lemma getContent_cases x :
  getContent x =
  match rendered x with
  | val s => val s
  | _ => match summaryText x with
         | val s => val s
         | _ => Article.fullContent x
         end
  end.
Proof.
  unfold getContent, rendered, summaryText, nullish.
  destruct (optchain (Article.content x) ContentJ.content);
    destruct (optchain (Article.summary x) ContentJ.content); reflexivity.
Qed.

Lemma in_articlesToExport x xs :
  In x (articlesToExport xs) <-> In x xs /\ getContent x <> undefined.
Proof.
  unfold articlesToExport. rewrite filter_In.
  destruct (getContent x); simpl; intuition congruence.
Qed.

(** C6, as stated, fails: an article whose rendered content is the empty
    string and whose summary has text resolves to the empty string, and is
    exported. *)
Lemma getContent_keeps_empty_string :
  ~ resolvesFirstNonEmpty emptyRendered.
Proof.
  unfold resolvesFirstNonEmpty. intros [H|[H _]]; vm_compute in H; discriminate.
Qed.

(** C6, amended.  The resolved content of an article is the first of
    rendered content, summary content and full content that is present,
    that is neither missing nor null, and the full content as it is when
    the first two are not.  An article is left out exactly when its
    resolved content is undefined, which is when rendered and summary
    content are not present and the full content is missing.  An article
    whose rendered content is the empty string resolves to the empty string
    and stays in the export. *)
Theorem getContent_first_present (x : Article.t) :
  getContent x =
    (if negb (is_nullish (rendered x)) then rendered x
     else if negb (is_nullish (summaryText x)) then summaryText x
     else Article.fullContent x) /\
  (forall xs, In x (articlesToExport xs) <-> In x xs /\ getContent x <> undefined) /\
  (getContent x = undefined <->
   is_nullish (rendered x) = true /\ is_nullish (summaryText x) = true /\
   Article.fullContent x = undefined) /\
  (rendered x = val "" ->
   getContent x = val "" /\ forall xs, In x xs -> In x (articlesToExport xs)).
Proof.
  split; [|split; [|split]].
  - rewrite getContent_cases.
    destruct (rendered x); destruct (summaryText x); reflexivity.
  - intros xs. apply in_articlesToExport.
  - rewrite getContent_cases.
    destruct (rendered x); destruct (summaryText x); simpl;
      intuition congruence.
  - intros Hr. rewrite getContent_cases, Hr. split; [reflexivity|].
    intros xs Hin. apply in_articlesToExport. split; [exact Hin|].
    rewrite getContent_cases, Hr. discriminate.
Qed.

Lemma getContent_first_present_witness :
  getContent emptyRendered = val "" /\
  In emptyRendered (articlesToExport [emptyRendered]).
Proof.
  destruct (getContent_first_present emptyRendered) as (_ & _ & _ & H).
  destruct (H eq_refl) as [H1 H2].
  split; [exact H1|]. apply H2. left. reflexivity.
Defined.

(** ** Container assembly *)

Module ZipFacts.
Import Zip.

Lemma has_put_same e z : has (path e) (put e z) = true.
Proof.
  induction z as [|e' z IH]; simpl.
  - now rewrite String.eqb_refl.
  - destruct (String.eqb (path e') (path e)) eqn:E; simpl.
    + now rewrite String.eqb_refl.
    + now rewrite E, IH.
Qed.

Lemma has_put_mono p e z : has p z = true -> has p (put e z) = true.
Proof.
  induction z as [|e' z IH]; simpl; [discriminate|].
  intros H. destruct (String.eqb (path e') (path e)) eqn:E; simpl.
  - apply orb_true_iff in H as [H|H].
    + apply String.eqb_eq in E. rewrite <- E, H. reflexivity.
    + rewrite H. apply orb_true_r.
  - apply orb_true_iff in H as [H|H]; [now rewrite H|].
    rewrite (IH H). apply orb_true_r.
Qed.

Lemma has_addParents_mono p n q z :
  has p z = true -> has p (addParents n q z) = true.
Proof.
  revert q. induction n as [|n IH]; intros q H; simpl; [exact H|].
  destruct (truthy (parentFolder q)); [|exact H].
  destruct (has (forceTrailingSlash (parentFolder q)) z); [exact H|].
  apply has_put_mono, IH, H.
Qed.

Lemma has_file root name data c z :
  has (root +:+ name) (file root name data c z) = true.
Proof.
  unfold file. destruct (truthy_opt data).
  - apply (has_put_same (mkEntry (root +:+ name) false (default "" data) c)).
  - apply (has_put_same (mkEntry (root +:+ name) false "" (Some STORE))).
Qed.

Lemma has_file_mono p root name data c z :
  has p z = true -> has p (file root name data c z) = true.
Proof. intros H. unfold file. apply has_put_mono, has_addParents_mono, H. Qed.

Lemma endsWithSlash_has_slash s :
  endsWithSlash s = true -> has_char "/" s = true.
Proof.
  unfold endsWithSlash. induction s as [|c s IH]; simpl; [discriminate|].
  destruct s as [|c' s'].
  - simpl. intros H. now rewrite H.
  - simpl in *. intros H. rewrite (IH H). apply orb_true_r.
Qed.

Lemma forceTrailingSlash_has_slash s :
  has_char "/" (forceTrailingSlash s) = true.
Proof.
  unfold forceTrailingSlash. destruct (endsWithSlash s) eqn:E.
  - now apply endsWithSlash_has_slash.
  - rewrite has_char_append. apply orb_true_r.
Qed.

Lemma slash_not_mimetype p : has_char "/" p = true -> p <> MIMETYPE.
Proof. intros H ->. discriminate. Qed.

Lemma mimetypeFirst_put e z :
  path e <> MIMETYPE -> mimetypeFirst z -> mimetypeFirst (put e z).
Proof.
  destruct z as [|e' z]; simpl; [tauto|].
  intros Hne (Hp & Hd & Hc).
  destruct (String.eqb (path e') (path e)) eqn:E.
  - apply String.eqb_eq in E. congruence.
  - simpl. auto.
Qed.

Lemma mimetypeFirst_addParents n q z :
  mimetypeFirst z -> mimetypeFirst (addParents n q z).
Proof.
  revert q. induction n as [|n IH]; intros q H; simpl; [exact H|].
  destruct (truthy (parentFolder q)); [|exact H].
  destruct (has (forceTrailingSlash (parentFolder q)) z); [exact H|].
  apply mimetypeFirst_put; [|apply IH, H].
  apply slash_not_mimetype, forceTrailingSlash_has_slash.
Qed.

Lemma mimetypeFirst_file root name data c z :
  has_char "/" (root +:+ name) = true ->
  mimetypeFirst z -> mimetypeFirst (file root name data c z).
Proof.
  intros Hs H. unfold file.
  destruct (truthy_opt data);
    (apply mimetypeFirst_put;
     [now apply slash_not_mimetype | now apply mimetypeFirst_addParents]).
Qed.

Lemma mimetypeFirst_folder root name z :
  mimetypeFirst z -> mimetypeFirst (fst (folder root name z)).
Proof.
  intros H. unfold folder. simpl.
  destruct (has (forceTrailingSlash (root +:+ name)) z); [exact H|].
  apply mimetypeFirst_put; [|now apply mimetypeFirst_addParents].
  apply slash_not_mimetype, forceTrailingSlash_has_slash.
Qed.

Lemma has_folder_mono p root name z :
  has p z = true -> has p (fst (folder root name z)) = true.
Proof.
  intros H. unfold folder. simpl.
  destruct (has (forceTrailingSlash (root +:+ name)) z); [exact H|].
  apply has_put_mono, has_addParents_mono, H.
Qed.

Lemma has_generateAsync p z :
  has p z = true -> exists a, In a (generateAsync z) /\ a_path a = p.
Proof.
  unfold has, generateAsync. intros H.
  apply existsb_exists in H as (e & Hin & He). apply String.eqb_eq in He.
  exists (mkArchived (path e) (bytes e) (default STORE (compression e))).
  split; [|exact He].
  apply in_map_iff. exists e. split; [reflexivity|exact Hin].
Qed.

End ZipFacts.

Lemma makeFolders_table z : snd (makeFolders z) = folderTable.
Proof. reflexivity. Qed.

Lemma makeFolders_mimetypeFirst z :
  mimetypeFirst z -> mimetypeFirst (fst (makeFolders z)).
Proof.
  intros H. unfold makeFolders.
  repeat match goal with
         | |- context [Zip.folder ?r ?n ?x] =>
             let z' := fresh "z" in
             let Hz := fresh "Hz" in
             assert (Hz : mimetypeFirst (fst (Zip.folder r n x)))
               by (apply ZipFacts.mimetypeFirst_folder; assumption);
             destruct (Zip.folder r n x) as [z' ?]; simpl in Hz
         end.
  exact Hz3.
Qed.

Lemma lookupFolder_table k root :
  lookupFolder k folderTable = Some root -> root = k +:+ "/" /\ In k knownFolders.
Proof.
  unfold folderTable, knownFolders. cbn [map lookupFolder].
  repeat match goal with
         | |- context [String.eqb ?a k] =>
             let E := fresh "E" in
             destruct (String.eqb a k) eqn:E;
             [apply String.eqb_eq in E; subst k; intros [= <-];
              split; [reflexivity | simpl; tauto] |]
         end.
  discriminate.
Qed.

Lemma findMimetype_some fs :
  (exists m, In m fs /\ file_name m = MIMETYPE) ->
  exists m, findMimetype fs = Some m /\ file_name m = MIMETYPE.
Proof.
  intros (m & Hin & Hm). unfold findMimetype.
  destruct (List.find _ fs) as [m'|] eqn:E.
  - exists m'. split; [reflexivity|].
    apply find_some in E as [_ E]. now apply String.eqb_eq in E.
  - apply (find_none _ _ E) in Hin. rewrite Hm in Hin. discriminate.
Qed.

Lemma addMimetype_first fs :
  (exists m, In m fs /\ file_name m = MIMETYPE) -> mimetypeFirst (addMimetype fs).
Proof.
  intros H. apply findMimetype_some in H as (m & Hf & Hm).
  unfold addMimetype. rewrite Hf, Hm. unfold Zip.file.
  destruct (truthy_opt (file_data m)); simpl; auto.
Qed.

Lemma addFile_facts f z z' :
  addFile folderTable f z = Ok z' ->
  (mimetypeFirst z -> mimetypeFirst z') /\
  (forall p, Zip.has p z = true -> Zip.has p z' = true) /\
  (file_name f <> MIMETYPE ->
   Zip.has (targetPath f) z' = true /\
   (file_folder f <> "" -> In (file_folder f) knownFolders)).
Proof.
  unfold addFile, targetPath.
  destruct (String.eqb (file_name f) MIMETYPE) eqn:En.
  { intros [= <-]. apply String.eqb_eq in En. repeat split; auto; congruence. }
  destruct (truthy (file_folder f)) eqn:Et.
  - destruct (lookupFolder (file_folder f) folderTable) as [root|] eqn:El;
      [|discriminate].
    apply lookupFolder_table in El as [-> Hk]. intros [= <-].
    split; [|split].
    + apply ZipFacts.mimetypeFirst_file.
      rewrite !has_char_append. simpl. now rewrite orb_true_r.
    + intros p. apply ZipFacts.has_file_mono.
    + intros _. split; [|intros _; exact Hk].
      rewrite <- append_assoc. apply ZipFacts.has_file.
  - intros [= <-]. split; [|split].
    + apply ZipFacts.mimetypeFirst_file.
      rewrite !has_char_append. simpl. now rewrite orb_true_r.
    + intros p. apply ZipFacts.has_file_mono.
    + intros _. split.
      * apply (ZipFacts.has_file "").
      * destruct (file_folder f); [congruence | discriminate].
Qed.

Lemma addFiles_facts fs z z' :
  addFiles folderTable fs z = Ok z' ->
  (mimetypeFirst z -> mimetypeFirst z') /\
  (forall p, Zip.has p z = true -> Zip.has p z' = true) /\
  (forall f, In f fs -> file_name f <> MIMETYPE ->
   Zip.has (targetPath f) z' = true /\
   (file_folder f <> "" -> In (file_folder f) knownFolders)).
Proof.
  revert z. induction fs as [|f fs IH]; intros z; simpl.
  - intros [= <-]. repeat split; auto; contradiction.
  - destruct (addFile folderTable f z) as [z1|e] eqn:E1; [|discriminate].
    intros E. apply addFile_facts in E1 as (Hm1 & Hh1 & Hf1).
    apply IH in E as (Hm & Hh & Hf).
    split; [auto|]. split; [auto|].
    intros g [<-|Hin] Hne.
    + destruct (Hf1 Hne) as [Hp Hk]. split; [apply Hh, Hp | exact Hk].
    + apply Hf; assumption.
Qed.

(** C7.  In every archive the assembler produces from files that include
    the mimetype file, the first entry is the mimetype entry, written with
    the option to store and stored in the archive; and every other file
    has an entry at its folder, a slash and its name, its folder being one
    of META-INF, OEBPF, OEBPF/css, OEBPF/content and OEBPF/images when it
    has one.  All entries are in the container when the archive is
    generated from it. *)
Theorem packFiles_layout (fs : list EpubFile) (archive : list Zip.archived) :
  packFiles fs = Ok archive ->
  (exists z, assemble fs = Ok z /\ archive = Zip.generateAsync z /\
     ((exists m, In m fs /\ file_name m = MIMETYPE) -> mimetypeFirst z)) /\
  ((exists m, In m fs /\ file_name m = MIMETYPE) -> mimetypeFirstStored archive) /\
  (forall f, In f fs -> file_name f <> MIMETYPE ->
     (exists a, In a archive /\ Zip.a_path a = targetPath f) /\
     (file_folder f <> "" -> In (file_folder f) knownFolders)).
Proof.
  unfold packFiles. destruct (assemble fs) as [z|e] eqn:Ea; [|discriminate].
  intros [= <-]. unfold assemble in Ea.
  pose proof (makeFolders_table (addMimetype fs)) as Ht.
  pose proof (makeFolders_mimetypeFirst (addMimetype fs)) as Hm.
  destruct (makeFolders (addMimetype fs)) as [z0 tbl]. simpl in Ht, Hm. subst tbl.
  apply addFiles_facts in Ea as (Hfirst & _ & Hfiles).
  assert (Hz : (exists m, In m fs /\ file_name m = MIMETYPE) -> mimetypeFirst z).
  { intros H. apply Hfirst, Hm, addMimetype_first, H. }
  split; [|split].
  - exists z. auto.
  - intros H. specialize (Hz H). destruct z as [|e z]; [contradiction|].
    destruct Hz as (Hp & _ & Hc). simpl. rewrite Hc. auto.
  - intros f Hin Hne. destruct (Hfiles f Hin Hne) as [Hp Hk].
    split; [now apply ZipFacts.has_generateAsync | exact Hk].
Qed.

Lemma packFiles_layout_witness :
  exists archive,
    packFiles sampleFiles = Ok archive /\
    mimetypeFirstStored archive /\
    exists a, In a archive /\ Zip.a_path a = "OEBPF/content/s1.xhtml".
Proof.
  destruct (packFiles sampleFiles) as [archive|e] eqn:E; [|vm_compute in E; discriminate].
  exists archive. split; [reflexivity|].
  destruct (packFiles_layout sampleFiles archive E) as (_ & Hm & Hf).
  split.
  - apply Hm. exists (mkFile "mimetype" "" "application/epub+zip" None).
    split; [simpl; tauto | reflexivity].
  - apply (Hf (mkFile "s1.xhtml" "OEBPF/content" "<html/>" None));
      [simpl; tauto | discriminate].
Defined.

(** ** The sync loop *)

Section SyncFacts.

Variable host : Host.
Variable source : SourceFile.

Lemma pageOf_Some r p : pageOf r = Some p <-> getAnnotations r = Ok (Some p).
Proof.
  unfold pageOf. destruct (getAnnotations r) as [[q|]|e]; split; congruence.
Qed.

(** Close a goal on the events one step adds. *)
Ltac forall_events :=
  cbn [app];
  repeat (first [apply List.Forall_nil | apply List.Forall_cons]);
  cbn [saveAccounted saveKeepsTime]; auto.

(** What one iteration does to the checkpoint, whatever the outcome. *)
Lemma iteration_inv folder r run run' c :
  iteration host folder r (sendRequest source run) = (run', c) ->
  timesAgree (state run) ->
  let ct := Settings.continuationTime (settings (state run)) in
  let ls := Settings.lastSync (settings (state run)) in
  exists ext,
    log (state run') =
      (log (state run) ++ RequestUrl (iterationRequest source run) :: ext)%list /\
    Forall (saveKeepsTime ct) ext /\
    Forall (saveAccounted ls) ext /\
    timesAgree (state run') /\
    Settings.continuationTime (settings (state run')) = ct /\
    (shortPage r = true ->
       c = Break /\
       Settings.lastSync (data (state run')) = ct /\
       Settings.continuationToken (data (state run')) = None) /\
    (shortPage r = false ->
       Settings.lastSync (data (state run')) = Settings.lastSync (data (state run))) /\
    (c = Continue <-> fullPage r = true).
Proof.
  intros Hit [Hl Ht]. unfold iteration in Hit.
  unfold shortPage, fullPage, pageOf.
  destruct (getAnnotations r) as [[p|]|e].
  - destruct (page_count p <? 100)%nat; injection Hit as <- <-; simpl.
    + eexists. split; [rewrite <- !app_assoc; reflexivity|].
      split; [forall_events|].
      split; [forall_events|].
      repeat split; auto; discriminate.
    + eexists. split; [rewrite <- !app_assoc; reflexivity|].
      split; [forall_events|].
      split; [forall_events|].
      repeat split; auto; discriminate.
  - injection Hit as <- <-. simpl.
    exists []. split; [reflexivity|].
    split; [forall_events|].
    split; [forall_events|].
    repeat split; auto; discriminate.
  - injection Hit as <- <-.
    destruct (includes (message e) "API rate limit"); simpl;
      (eexists; split; [rewrite <- !app_assoc; reflexivity|];
       split; [forall_events|];
       split; [forall_events|];
       repeat split; auto; discriminate).
Qed.

Lemma fullPage_shortPage r : fullPage r = true -> shortPage r = false.
Proof.
  unfold shortPage, fullPage. destruct (pageOf r); [|reflexivity].
  now destruct (page_count p <? 100)%nat.
Qed.

(** What the loop does to the checkpoint on any script. *)
Lemma syncLoop_inv folder script : forall run run' status,
  syncLoop host source folder script run = (run', status) ->
  timesAgree (state run) ->
  let ct := Settings.continuationTime (settings (state run)) in
  let ls := Settings.lastSync (settings (state run)) in
  exists ext,
    log (state run') =
      (log (state run) ++ RequestUrl (iterationRequest source run) :: ext)%list /\
    Forall (saveKeepsTime ct) ext /\
    Forall (saveAccounted ls) ext /\
    timesAgree (state run') /\
    Settings.continuationTime (settings (state run')) = ct /\
    Settings.lastSync (data (state run')) =
      (if reachesShort script then ct else Settings.lastSync (data (state run))) /\
    (reachesShort script = true ->
       Settings.continuationToken (data (state run')) = None /\ status = Left).
Proof.
  induction script as [|r script IH]; intros run run' status Hl Ha; simpl in Hl.
  - injection Hl as <- <-. simpl. exists []. split; [reflexivity|].
    repeat split; try apply Ha; try discriminate; repeat constructor.
  - destruct (iteration host folder r (sendRequest source run)) as [run1 c] eqn:Hit.
    destruct (iteration_inv _ _ _ _ _ Hit Ha)
      as (ext1 & Hlog1 & Hk1 & Hs1 & Ha1 & Hct1 & Hshort & Hkeep & Hcont).
    destruct c.
    + assert (Hf : fullPage r = true) by now apply Hcont.
      pose proof (fullPage_shortPage _ Hf) as Hns.
      destruct (IH _ _ _ Hl Ha1)
        as (ext2 & Hlog2 & Hk2 & Hs2 & Ha2 & Hct2 & Hls2 & Htok2).
      assert (Hls1 : Settings.lastSync (settings (state run1)) =
                     Settings.lastSync (settings (state run))).
      { destruct Ha1 as [-> _]. rewrite (Hkeep Hns). symmetry. apply Ha. }
      rewrite Hct1 in Hk2, Hct2, Hls2. rewrite Hls1 in Hs2.
      exists (ext1 ++ RequestUrl (iterationRequest source run1) :: ext2)%list.
      simpl reachesShort. rewrite Hns, Hf. simpl.
      split; [rewrite Hlog2, Hlog1, <- app_assoc; reflexivity|].
      split; [apply Forall_app; split; [exact Hk1 | now constructor]|].
      split; [apply Forall_app; split; [exact Hs1 | now constructor]|].
      split; [exact Ha2|]. split; [exact Hct2|].
      split; [|exact Htok2].
      rewrite Hls2, (Hkeep Hns). reflexivity.
    + injection Hl as <- <-.
      assert (Hf : fullPage r = false).
      { destruct (fullPage r); [|reflexivity].
        assert (Break = Continue) by now apply Hcont. discriminate. }
      exists ext1. simpl reachesShort. rewrite Hf, orb_false_r.
      split; [exact Hlog1|]. split; [exact Hk1|]. split; [exact Hs1|].
      split; [exact Ha1|]. split; [exact Hct1|].
      destruct (shortPage r) eqn:Hs.
      * destruct (Hshort eq_refl) as (_ & H1 & H2). auto.
      * split; [now apply Hkeep | discriminate].
Qed.

Lemma configured_inv st :
  configured st = true ->
  truthy_opt (Settings.userId (settings (loadSettings st))) = true /\
  truthy_opt (Settings.accessToken (settings (loadSettings st))) = true.
Proof. unfold configured. intros H. apply andb_true_iff in H. exact H. Qed.

Lemma ensureFolder_settings name st : settings (ensureFolder name st) = settings st.
Proof. unfold ensureFolder. now destruct (decide _). Qed.

Lemma ensureFolder_data name st : data (ensureFolder name st) = data st.
Proof. unfold ensureFolder. now destruct (decide _). Qed.

Lemma ensureFolder_files name st : files (ensureFolder name st) = files st.
Proof. unfold ensureFolder. now destruct (decide _). Qed.

Lemma ensureFolder_log name st : log (ensureFolder name st) = log st.
Proof. unfold ensureFolder. now destruct (decide _). Qed.

(** What the callback has done when it enters the loop. *)
Lemma syncPrelude_inv now st0 :
  let run := syncPrelude now (loadSettings st0) in
  timesAgree (state run) /\
  log (state run) =
    (log st0 ++ (if resuming st0 then [] else [SaveData (stamped now st0)]) ++
     [Notice MSG_BEGIN])%list /\
  Settings.continuationTime (settings (state run)) = windowStart now st0 /\
  Settings.lastSync (settings (state run)) = Settings.lastSync (data st0) /\
  Settings.lastSync (data (state run)) = Settings.lastSync (data st0) /\
  Settings.continuationToken (data (state run)) = Settings.continuationToken (data st0) /\
  continuationToken run = Settings.continuationToken (data st0) /\
  entryCounter run = O /\
  files (state run) = files st0 /\
  Settings.accessToken (settings (state run)) = Settings.accessToken (data st0).
Proof.
  unfold syncPrelude, windowStart, resuming, stamped, timesAgree.
  cbn [state continuationToken entryCounter].
  rewrite ensureFolder_settings, ensureFolder_data, ensureFolder_files,
    ensureFolder_log.
  change (Settings.continuationToken (settings (loadSettings st0)))
    with (Settings.continuationToken (data st0)).
  destruct (truthy_opt (Settings.continuationToken (data st0)));
    cbn; rewrite <- ?app_assoc; repeat split; reflexivity.
Qed.

(** The whole command, for configured credentials. *)
Lemma sync_inv now script st0 st' status :
  sync host source now script st0 = (st', status) ->
  configured st0 = true ->
  exists ext,
    log st' =
      (log st0 ++ (if resuming st0 then [] else [SaveData (stamped now st0)]) ++
       Notice MSG_BEGIN :: RequestUrl (firstRequest source st0) :: ext)%list /\
    Forall (saveKeepsTime (windowStart now st0)) ext /\
    Forall (saveAccounted (Settings.lastSync (data st0))) ext /\
    Settings.continuationTime (settings st') = windowStart now st0 /\
    Settings.continuationTime (data st') = windowStart now st0 /\
    Settings.lastSync (data st') =
      (if reachesShort script then windowStart now st0
       else Settings.lastSync (data st0)) /\
    (reachesShort script = true ->
       Settings.continuationToken (data st') = None /\ status = Left).
Proof.
  intros Hs Hc. unfold sync in Hs. cbv zeta in Hs.
  destruct (configured_inv _ Hc) as [Hu Hk0]. rewrite Hu, Hk0 in Hs.
  cbn [negb] in Hs.
  destruct (syncPrelude_inv now st0)
    as (Ha & Hlog & Hct & Hls & Hld & _ & Htk & _ & _ & Hset).
  destruct (syncLoop host source _ script _) as [run' stt] eqn:Hl.
  destruct (syncLoop_inv _ _ _ _ _ Hl Ha)
    as (ext & Hlog' & Hk & Hsv & Ha' & Hct' & Hls' & Htok).
  rewrite Hct in Hk, Hct', Hls'. rewrite Hls in Hsv. rewrite Hld in Hls'.
  destruct Ha' as [_ Hat]. rewrite Hct' in Hat.
  assert (Hreq : iterationRequest source (syncPrelude now (loadSettings st0)) =
                 firstRequest source st0).
  { unfold iterationRequest, firstRequest. rewrite Htk, Hls, Hset. reflexivity. }
  rewrite Hreq in Hlog'.
  destruct stt; injection Hs as <- <-.
  - exists (ext ++ [Notice (syncedNotice (entryCounter run'))])%list.
    cbn [notice emit log data settings].
    rewrite Hlog', Hlog, <- !app_assoc. cbn [app].
    split; [reflexivity|].
    split; [apply Forall_app; split; [exact Hk | forall_events]|].
    split; [apply Forall_app; split; [exact Hsv | forall_events]|].
    auto.
  - exists ext. rewrite Hlog', Hlog, <- !app_assoc. cbn [app].
    repeat split; auto; apply Htok; assumption.
Qed.

(** *** Runs that go through full pages *)

Lemma syncLoop_cons folder r rest run :
  syncLoop host source folder (r :: rest) run =
  match iteration host folder r (sendRequest source run) with
  | (run', Continue) => syncLoop host source folder rest run'
  | (run', Break) => (run', Left)
  end.
Proof. reflexivity. Qed.

Lemma iteration_full folder r run p :
  pageOf r = Some p -> (page_count p <? 100)%nat = false ->
  iteration host folder r run =
  (mkRun
     (saveSettings
        (set_settings
           (Settings.set_continuationToken (page_continuation p)
              (settings (state run)))
           (set_files
              (processAnnotations host folder (page_entries p) (files (state run)))
              (state run))))
     (entryCounter run + length (page_entries p))
     (page_continuation p),
   Continue).
Proof.
  intros Hp Hc. apply pageOf_Some in Hp. unfold iteration. rewrite Hp.
  unfold set_files, set_settings. simpl. rewrite Hc. reflexivity.
Qed.

Lemma fullPage_inv r :
  fullPage r = true ->
  exists p, pageOf r = Some p /\ (page_count p <? 100)%nat = false.
Proof.
  unfold fullPage. destruct (pageOf r) as [p|]; [|discriminate].
  intros H. exists p. split; [reflexivity|]. now apply negb_true_iff.
Qed.

Lemma syncLoop_full_prefix folder pages rest : forall run,
  forallb fullPage pages = true ->
  syncLoop host source folder (pages ++ rest) run =
  syncLoop host source folder rest (afterPages host source folder pages run).
Proof.
  induction pages as [|r pages IH]; intros run Hf; [reflexivity|].
  simpl in Hf. apply andb_true_iff in Hf as [Hr Hf].
  destruct (fullPage_inv _ Hr) as (p & Hp & Hc).
  simpl. rewrite (iteration_full _ _ _ _ Hp Hc). simpl.
  apply IH, Hf.
Qed.

(** After full pages the stored token is the one of the last page, the
    stored [lastSync] is untouched, and every entry has been counted. *)
Lemma afterPages_inv folder pages : forall run,
  forallb fullPage pages = true ->
  let run' := afterPages host source folder pages run in
  Settings.continuationToken (data (state run')) =
    lastToken (Settings.continuationToken (data (state run))) pages /\
  continuationToken run' = lastToken (continuationToken run) pages /\
  entryCounter run' = (entryCounter run + entriesOf pages)%nat.
Proof.
  induction pages as [|r pages IH]; intros run Hf.
  - simpl. auto.
  - simpl in Hf. apply andb_true_iff in Hf as [Hr Hf].
    destruct (fullPage_inv _ Hr) as (p & Hp & Hc).
    simpl. rewrite (iteration_full _ _ _ _ Hp Hc). simpl. rewrite Hp.
    destruct (IH (mkRun
       (saveSettings
          (set_settings
             (Settings.set_continuationToken (page_continuation p)
                (settings (state (sendRequest source run))))
             (set_files
                (processAnnotations host folder (page_entries p)
                   (files (state (sendRequest source run))))
                (state (sendRequest source run)))))
       (entryCounter (sendRequest source run) + length (page_entries p))
       (page_continuation p)) Hf) as (H1 & H2 & H3).
    simpl in H1, H2, H3. rewrite H1, H2, H3. simpl.
    repeat split. lia.
Qed.

Lemma reachesShort_full pages :
  forallb fullPage pages = true -> reachesShort pages = false.
Proof.
  induction pages as [|r pages IH]; [reflexivity|]. simpl.
  intros H. apply andb_true_iff in H as [Hr Hf].
  rewrite (fullPage_shortPage _ Hr), Hr, (IH Hf). reflexivity.
Qed.

(** *** Failed fetches *)

Lemma getAnnotations_announced e :
  includes (message e) "status 401" || includes (message e) "status 429" = true ->
  getAnnotations (Rejected e) =
  Throw (new_Error (if includes (Error_toString e) "status 401"
                    then MSG_TOKEN_EXPIRED else MSG_RATE_LIMIT)).
Proof.
  intros H. unfold getAnnotations, getAnnotations_try, apiCall_result,
    getAnnotations_catch. simpl.
  destruct (includes (Error_toString e) "status 401") eqn:E1; [reflexivity|].
  apply orb_true_iff in H as [H|H].
  - apply (includes_Error_toString e "status 401" eq_refl) in H. congruence.
  - apply (includes_Error_toString e "status 429" eq_refl) in H.
    rewrite H. reflexivity.
Qed.

Lemma getAnnotations_other r : otherFailure r = true -> getAnnotations r = Ok None.
Proof.
  unfold otherFailure, getAnnotations, getAnnotations_catch.
  destruct (getAnnotations_try r) as [p|e]; [discriminate|].
  intros H. apply negb_true_iff, orb_false_iff in H as [-> ->]. reflexivity.
Qed.

(** The command on a script of full pages followed by one more outcome:
    it is where the command stands waiting after the pages, carried on by
    the last iteration. *)
Lemma sync_after_pages now pages r rest st0 :
  configured st0 = true ->
  forallb fullPage pages = true ->
  let run0 := syncPrelude now (loadSettings st0) in
  let runN := afterPages host source (syncFolder (state run0)) pages run0 in
  sync host source now pages st0 = (state (sendRequest source runN), Waiting) /\
  sync host source now (pages ++ r :: rest) st0 =
    (match iteration host (syncFolder (state run0)) r (sendRequest source runN) with
     | (run', Continue) =>
         match syncLoop host source (syncFolder (state run0)) rest run' with
         | (run'', Left) => (notice (syncedNotice (entryCounter run'')) (state run''), Left)
         | (run'', Waiting) => (state run'', Waiting)
         end
     | (run', Break) => (notice (syncedNotice (entryCounter run')) (state run'), Left)
     end) /\
  entryCounter runN = entriesOf pages /\
  Settings.lastSync (data (state (sendRequest source runN))) =
    Settings.lastSync (data st0) /\
  Settings.continuationToken (data (state (sendRequest source runN))) =
    lastToken (Settings.continuationToken (data st0)) pages.
Proof.
  intros Hc Hf. cbv zeta.
  destruct (configured_inv _ Hc) as [Hu Ht].
  destruct (syncPrelude_inv now st0)
    as (Ha & _ & _ & _ & Hld & Htok & _ & Hcnt & _).
  destruct (afterPages_inv (syncFolder (state (syncPrelude now (loadSettings st0))))
              pages (syncPrelude now (loadSettings st0)) Hf)
    as (Ht1 & _ & Hc1).
  pose proof (syncLoop_full_prefix
                (syncFolder (state (syncPrelude now (loadSettings st0))))
                pages [] (syncPrelude now (loadSettings st0)) Hf) as Hw.
  rewrite app_nil_r in Hw. cbn [syncLoop] in Hw.
  split; [|split; [|split; [|split]]].
  - unfold sync. cbv zeta. rewrite Hu, Ht. cbn [negb]. rewrite Hw. reflexivity.
  - unfold sync. cbv zeta. rewrite Hu, Ht. cbn [negb].
    rewrite syncLoop_full_prefix by exact Hf. rewrite syncLoop_cons.
    destruct (iteration host _ r _) as [run' [|]]; [|reflexivity].
    destruct (syncLoop host source _ rest run') as [run'' [|]]; reflexivity.
  - rewrite Hc1, Hcnt. reflexivity.
  - destruct (syncLoop_inv _ _ _ _ _ Hw Ha) as (_ & _ & _ & _ & _ & _ & Hls & _).
    rewrite (reachesShort_full _ Hf) in Hls. rewrite Hls. exact Hld.
  - cbn [sendRequest state emit data]. rewrite Ht1, Htok. reflexivity.
Qed.

(** *** Credentials are never written *)

Lemma iteration_credentials folder r run run' c :
  iteration host folder r run = (run', c) ->
  credentialsAgree (state run) ->
  credentialsAgree (state run') /\
  credentials (data (state run')) = credentials (data (state run)).
Proof.
  unfold credentialsAgree, iteration. intros Hit Ha.
  destruct (getAnnotations r) as [[p|]|e].
  - destruct (page_count p <? 100)%nat; injection Hit as <- <-;
      cbn -[processAnnotations]; rewrite <- Ha; auto.
  - injection Hit as <- <-. auto.
  - injection Hit as <- <-.
    destruct (includes (message e) "API rate limit"); auto.
Qed.

Lemma syncLoop_credentials folder script : forall run run' status,
  syncLoop host source folder script run = (run', status) ->
  credentialsAgree (state run) ->
  credentialsAgree (state run') /\
  credentials (data (state run')) = credentials (data (state run)).
Proof.
  induction script as [|r script IH]; intros run run' status Hl Ha.
  - injection Hl as <- <-. auto.
  - rewrite syncLoop_cons in Hl.
    destruct (iteration host folder r (sendRequest source run)) as [run1 c] eqn:Hit.
    apply iteration_credentials in Hit as [Ha1 Hd1]; [|exact Ha].
    destruct c.
    + destruct (IH _ _ _ Hl Ha1) as [Ha2 Hd2]. split; [exact Ha2|].
      rewrite Hd2. exact Hd1.
    + injection Hl as <- <-. auto.
Qed.

Lemma syncPrelude_credentials now st0 :
  credentialsAgree (state (syncPrelude now (loadSettings st0))) /\
  credentials (data (state (syncPrelude now (loadSettings st0)))) =
    credentials (data st0).
Proof.
  unfold credentialsAgree, syncPrelude. cbn [state].
  rewrite ensureFolder_settings, ensureFolder_data.
  destruct (truthy_opt (Settings.continuationToken (settings (loadSettings st0))));
    split; reflexivity.
Qed.

Lemma sync_credentials now script st0 :
  credentials (data (fst (sync host source now script st0))) = credentials (data st0).
Proof.
  unfold sync. cbv zeta.
  destruct (negb (truthy_opt (Settings.userId (settings (loadSettings st0)))));
    [reflexivity|].
  destruct (negb (truthy_opt (Settings.accessToken (settings (loadSettings st0)))));
    [reflexivity|].
  destruct (syncPrelude_credentials now st0) as [Ha Hp].
  destruct (syncLoop host source _ script _) as [run' stt] eqn:Hl.
  apply syncLoop_credentials in Hl as [_ Hd]; [|exact Ha].
  destruct stt; cbn [fst notice emit data]; rewrite Hd; exact Hp.
Qed.

Lemma configured_credentials st st' :
  credentials (data st') = credentials (data st) -> configured st' = configured st.
Proof. unfold credentials, configured. intros [= -> ->]. reflexivity. Qed.

(** *** The claims on the sync command *)

(** C1.  Over a whole sync command the stored [lastSync] changes in one
    way only: when the loop fetches a page with fewer than 100 entries it
    becomes the stored [continuationTime], the stored token is cleared and
    the loop is left.  In every other run it keeps its value.  Each save
    the command makes either leaves [lastSync] as it was stored, or is that
    completing save. *)
Theorem lastSync_set_only_by_short_page now script st0 :
  let st' := fst (sync host source now script st0) in
  let completed := configured st0 && reachesShort script in
  Settings.lastSync (data st') =
    (if completed then Settings.continuationTime (data st')
     else Settings.lastSync (data st0)) /\
  (completed = true ->
     Settings.continuationToken (data st') = None /\
     snd (sync host source now script st0) = Left /\
     Settings.continuationTime (data st') = windowStart now st0) /\
  exists ext,
    log st' = (log st0 ++ ext)%list /\
    Forall (saveAccounted (Settings.lastSync (data st0))) ext.
Proof.
  cbv zeta. destruct (configured st0) eqn:Hc.
  - destruct (sync host source now script st0) as [st' status] eqn:Hs.
    destruct (sync_inv _ _ _ _ _ Hs Hc)
      as (ext & Hlog & _ & Hsv & _ & Hct & Hls & Htok).
    cbn [fst snd andb]. split; [|split].
    + rewrite Hls, Hct. reflexivity.
    + intros Hr. destruct (Htok Hr). auto.
    + eexists. split; [exact Hlog|].
      apply Forall_app. split.
      * destruct (resuming st0); forall_events.
      * forall_events.
  - cbn [andb]. unfold sync. cbv zeta.
    change (Settings.userId (settings (loadSettings st0)))
      with (Settings.userId (data st0)).
    change (Settings.accessToken (settings (loadSettings st0)))
      with (Settings.accessToken (data st0)).
    unfold configured in Hc.
    destruct (truthy_opt (Settings.userId (data st0)));
      [destruct (truthy_opt (Settings.accessToken (data st0))); [discriminate|]|];
      cbn [negb fst snd notice emit loadSettings set_settings data log];
      (split; [reflexivity|]; split; [discriminate|];
       eexists; split; [reflexivity | forall_events]).
Qed.

(** C9.  For configured credentials: a sync that starts with no stored
    token saves the settings stamped with the current time as the first
    thing it does, before the notice that it begins and before the first
    request; a sync that starts with a stored token leaves the stored
    [continuationTime], and the one in memory, as they were, and no save it
    makes changes it. *)
Theorem fresh_sync_stamps_time_first now script st0 :
  configured st0 = true ->
  let st' := fst (sync host source now script st0) in
  (resuming st0 = false ->
     (exists rest,
        log st' =
          (log st0 ++ SaveData (stamped now st0) :: Notice MSG_BEGIN ::
           RequestUrl (firstRequest source st0) :: rest)%list) /\
     Settings.continuationTime (stamped now st0) = Some now /\
     Settings.continuationTime (data st') = Some now) /\
  (resuming st0 = true ->
     Settings.continuationTime (data st') = Settings.continuationTime (data st0) /\
     Settings.continuationTime (settings st') = Settings.continuationTime (data st0) /\
     exists rest,
       log st' =
         (log st0 ++ Notice MSG_BEGIN :: RequestUrl (firstRequest source st0) :: rest)%list /\
       Forall (saveKeepsTime (Settings.continuationTime (data st0))) rest).
Proof.
  intros Hc. cbv zeta.
  destruct (sync host source now script st0) as [st' status] eqn:Hs.
  destruct (sync_inv _ _ _ _ _ Hs Hc)
    as (ext & Hlog & Hk & _ & Hcs & Hct & _).
  cbn [fst]. unfold windowStart in Hk, Hcs, Hct.
  split; intros Hr; rewrite Hr in *.
  - split; [exists ext; exact Hlog|]. split; [reflexivity | exact Hct].
  - split; [exact Hct|]. split; [exact Hcs|].
    exists ext. split; [exact Hlog | exact Hk].
Qed.

(** C2.  For configured credentials, when the fetch that follows any
    number of full pages is rejected with an error that mentions status 401
    or status 429, the command ends in the state in which it stood waiting
    for that fetch, with two notices added: the one of the failure (the
    token has expired, or the rate limit has been reached) and the count of
    annotations synced.  No request follows.  The stored [lastSync] is the
    one stored before the command, and the stored token is the one that
    came with the last full page, or the one stored before when there was
    no page.  With such a token stored, the next command starts by asking
    for the page after it, for annotations newer than the same
    [lastSync]. *)
Theorem sync_stops_on_announced_failure now pages e rest st0 :
  configured st0 = true ->
  forallb fullPage pages = true ->
  includes (message e) "status 401" || includes (message e) "status 429" = true ->
  let token := lastToken (Settings.continuationToken (data st0)) pages in
  exists stW,
    sync host source now pages st0 = (stW, Waiting) /\
    sync host source now (pages ++ Rejected e :: rest) st0 =
      (notice (syncedNotice (entriesOf pages))
         (notice (if includes (Error_toString e) "status 401"
                  then MSG_TOKEN_EXPIRED else MSG_RATE_LIMIT_NOTICE) stW),
       Left) /\
    Settings.lastSync (data stW) = Settings.lastSync (data st0) /\
    Settings.continuationToken (data stW) = token /\
    (truthy_opt token = true ->
     forall now' script',
     let stF := fst (sync host source now (pages ++ Rejected e :: rest) st0) in
     exists later,
       log (fst (sync host source now' script' stF)) =
         (log stF ++ Notice MSG_BEGIN ::
          RequestUrl (resumeRequest source (data st0) token) :: later)%list).
Proof.
  intros Hc Hf He token.
  destruct (sync_after_pages now pages (Rejected e) rest st0 Hc Hf)
    as (Hw & Hr & Hn & Hls & Htk).
  assert (Hfin : sync host source now (pages ++ Rejected e :: rest) st0 =
    (notice (syncedNotice (entriesOf pages))
       (notice (if includes (Error_toString e) "status 401"
                then MSG_TOKEN_EXPIRED else MSG_RATE_LIMIT_NOTICE)
          (state (sendRequest source
             (afterPages host source
                (syncFolder (state (syncPrelude now (loadSettings st0)))) pages
                (syncPrelude now (loadSettings st0)))))), Left)).
  { rewrite Hr. unfold iteration. rewrite (getAnnotations_announced e He).
    rewrite <- Hn.
    destruct (includes (Error_toString e) "status 401"); reflexivity. }
  eexists. split; [exact Hw|]. split; [exact Hfin|].
  split; [exact Hls|]. split; [exact Htk|].
  intros Htok now' script'. cbv zeta.
  pose proof (sync_credentials now (pages ++ Rejected e :: rest) st0) as Hcr.
  set (stF := fst (sync host source now (pages ++ Rejected e :: rest) st0)) in *.
  assert (HdF : data stF =
                data (state (sendRequest source
                  (afterPages host source
                     (syncFolder (state (syncPrelude now (loadSettings st0)))) pages
                     (syncPrelude now (loadSettings st0)))))).
  { unfold stF. rewrite Hfin. reflexivity. }
  assert (HcF : configured stF = true).
  { rewrite (configured_credentials _ _ Hcr). exact Hc. }
  assert (HrF : resuming stF = true).
  { unfold resuming. rewrite HdF, Htk. exact Htok. }
  destruct (sync host source now' script' stF) as [st2 status2] eqn:Hs2.
  destruct (sync_inv _ _ _ _ _ Hs2 HcF) as (ext & Hlog & _).
  rewrite HrF in Hlog. exists ext. cbn [fst]. rewrite Hlog. cbn [app].
  do 3 f_equal. unfold firstRequest, resumeRequest.
  injection Hcr as _ Hacc. rewrite Hacc, HdF, Htk, Hls. reflexivity.
Qed.

(** C4, amended.  For configured credentials, when the fetch that follows
    any number of full pages fails in a way that mentions neither status 401
    nor status 429 (another status, a payload with an error code, a payload
    without entries), the command ends in the state in which it stood
    waiting for that fetch, with one notice added, the count of annotations
    synced: the loop stops, settings, stored checkpoint and vault stay as
    they were, and no notice carries the error. *)
Theorem sync_stops_silently_on_other_failure now pages r rest st0 :
  configured st0 = true ->
  forallb fullPage pages = true ->
  otherFailure r = true ->
  exists stW,
    sync host source now pages st0 = (stW, Waiting) /\
    sync host source now (pages ++ r :: rest) st0 =
      (notice (syncedNotice (entriesOf pages)) stW, Left) /\
    Settings.lastSync (data stW) = Settings.lastSync (data st0) /\
    Settings.continuationToken (data stW) =
      lastToken (Settings.continuationToken (data st0)) pages.
Proof.
  intros Hc Hf Ho.
  destruct (sync_after_pages now pages r rest st0 Hc Hf)
    as (Hw & Hr & Hn & Hls & Htk).
  eexists. split; [exact Hw|]. split; [|split; [exact Hls | exact Htk]].
  rewrite Hr. unfold iteration. rewrite (getAnnotations_other r Ho).
  rewrite <- Hn. reflexivity.
Qed.

End SyncFacts.

Lemma lastSync_set_only_by_short_page_witness :
  Settings.lastSync (data (fst (runSync twoPages storedIdle))) = Some 5000 /\
  Settings.continuationToken (data (fst (runSync twoPages storedIdle))) = None /\
  Settings.lastSync (data (fst (runSync onePage storedIdle))) = Some 1000.
Proof.
  destruct (lastSync_set_only_by_short_page UTC.host part_000 5000 twoPages
              (stateOf storedIdle)) as (H1 & H2 & _).
  destruct (H2 eq_refl) as (Htok & _ & Hct).
  destruct (lastSync_set_only_by_short_page UTC.host part_000 5000 onePage
              (stateOf storedIdle)) as (H3 & _ & _).
  split; [|split].
  - unfold runSync. rewrite H1.
    change (configured (stateOf storedIdle) && reachesShort twoPages) with true.
    cbv iota. rewrite Hct. reflexivity.
  - exact Htok.
  - unfold runSync. rewrite H3. reflexivity.
Defined.

Lemma fresh_sync_stamps_time_first_witness :
  (exists rest,
     log (fst (runSync twoPages storedIdle)) =
       SaveData (stamped 5000 (stateOf storedIdle)) :: Notice MSG_BEGIN ::
       RequestUrl (firstRequest part_000 (stateOf storedIdle)) :: rest) /\
  Settings.continuationTime (data (fst (runSync twoPages storedIdle))) = Some 5000 /\
  Settings.continuationTime (data (fst (runSync twoPages storedMidway))) = Some 2000.
Proof.
  destruct (fresh_sync_stamps_time_first UTC.host part_000 5000 twoPages
              (stateOf storedIdle) eq_refl) as [Hfresh _].
  destruct (Hfresh eq_refl) as (Hlog & _ & Hct).
  destruct (fresh_sync_stamps_time_first UTC.host part_000 5000 twoPages
              (stateOf storedMidway) eq_refl) as [_ Hres].
  destruct (Hres eq_refl) as (Hct' & _).
  split; [exact Hlog|]. split; [exact Hct | exact Hct'].
Defined.

Lemma sync_stops_on_announced_failure_witness :
  exists stW,
    runSync onePage storedIdle = (stW, Waiting) /\
    runSync (onePage ++ [rejected MSG_429]) storedIdle =
      (notice "Synced 100 annotations" (notice MSG_RATE_LIMIT_NOTICE stW), Left) /\
    Settings.lastSync (data stW) = Some 1000 /\
    Settings.continuationToken (data stW) = Some "cursor-2" /\
    exists later,
      log (fst (sync UTC.host part_000 9000 []
                  (fst (runSync (onePage ++ [rejected MSG_429]) storedIdle)))) =
        (log (fst (runSync (onePage ++ [rejected MSG_429]) storedIdle)) ++
         Notice MSG_BEGIN ::
         RequestUrl (resumeRequest part_000 storedIdle (Some "cursor-2")) :: later)%list.
Proof.
  destruct (sync_stops_on_announced_failure UTC.host part_000 5000 onePage
              (mkError "Error" MSG_429) [] (stateOf storedIdle)
              eq_refl eq_refl eq_refl) as (stW & Hw & Hr & Hls & Htk & Hnext).
  exists stW. split; [exact Hw|]. split; [exact Hr|]. split; [exact Hls|].
  split; [exact Htk|].
  destruct (Hnext eq_refl 9000 []) as [later Hl]. exists later. exact Hl.
Defined.

Lemma sync_stops_silently_on_other_failure_witness :
  (exists stW,
     runSync onePage storedIdle = (stW, Waiting) /\
     runSync (onePage ++ [rejected MSG_500]) storedIdle =
       (notice "Synced 100 annotations" stW, Left)) /\
  otherFailure errorPayload = true.
Proof.
  destruct (sync_stops_silently_on_other_failure UTC.host part_000 5000 onePage
              (rejected MSG_500) [] (stateOf storedIdle)
              eq_refl eq_refl eq_refl) as (stW & Hw & Hr & _).
  split; [|reflexivity].
  exists stW. split; [exact Hw | exact Hr].
Defined.

(** C4, as stated, fails: when the first fetch is rejected with status 500,
    or answered with a payload that carries an error code, the loop stops
    and the notices shown are the one that the download begins and the
    count of annotations synced; none carries the error. *)
Lemma other_failure_not_surfaced :
  ~ (snd (runSync [rejected MSG_500] storedIdle) = Left /\
     surfaced MSG_500 (fst (runSync [rejected MSG_500] storedIdle))) /\
  ~ (snd (runSync [errorPayload] storedIdle) = Left /\
     surfaced "[object Object]" (fst (runSync [errorPayload] storedIdle))) /\
  noticesOf (log (fst (runSync [rejected MSG_500] storedIdle))) =
    [MSG_BEGIN; "Synced 0 annotations"].
Proof.
  split; [|split].
  - intros [_ H]. vm_compute in H. discriminate.
  - intros [_ H]. vm_compute in H. discriminate.
  - reflexivity.
Qed.

(** * Further properties *)

(** ** The merge of a page *)

Lemma processAnnotations_cons host folder e es (fs : gmap string string) :
  processAnnotations host folder (e :: es) fs =
  processAnnotations host folder es (processAnnotation host folder e fs).
Proof. reflexivity. Qed.

(** X1.  After a page is merged, the document at any path holds what it
    held before, or the frontmatter of the first entry of the page that maps
    to that path when it is new, followed by the appended texts of all the
    entries of the page that map to that path, in page order; a path no
    entry maps to is left as it was.  Entries that share a sanitized title
    thus end up in one document. *)
Theorem processAnnotations_document host folder es : forall (fs : gmap string string) p,
  processAnnotations host folder es fs !! p =
  match entriesAt host folder p es with
  | [] => fs !! p
  | first :: _ =>
      Some (default (getInitialContent host first) (fs !! p) +:+
            concatText (map getAppendContent (entriesAt host folder p es)))
  end.
Proof.
  induction es as [|e es IH]; intros fs p; [reflexivity|].
  rewrite processAnnotations_cons, IH. unfold entriesAt. cbn [List.filter].
  destruct (processAnnotation_appends host folder e fs) as [Hsame Hother].
  destruct (String.eqb (documentPath host folder e) p) eqn:E.
  - apply String.eqb_eq in E. subst p. rewrite Hsame. cbn [map concatText default].
    destruct (List.filter _ es) as [|e' es']; cbn [map concatText default].
    + rewrite append_empty_r. reflexivity.
    + unfold id. rewrite append_assoc. reflexivity.
  - apply String.eqb_neq in E. rewrite (Hother p) by congruence. reflexivity.
Qed.

(** X2.  The merge never removes a document and never rewrites one: a
    document that exists before a page is merged exists after it, and its
    earlier text is the beginning of its new text. *)
Theorem processAnnotations_only_appends host folder es (fs : gmap string string) p doc :
  fs !! p = Some doc ->
  exists added, processAnnotations host folder es fs !! p = Some (doc +:+ added).
Proof.
  revert fs doc. induction es as [|e es IH]; intros fs doc H.
  - exists "". now rewrite append_empty_r.
  - rewrite processAnnotations_cons.
    destruct (processAnnotation_appends host folder e fs) as [Hsame Hother].
    destruct (String.eqb (documentPath host folder e) p) eqn:E.
    + apply String.eqb_eq in E. subst p. rewrite H in Hsame. cbn [default] in Hsame.
      unfold id in Hsame.
      destruct (IH _ _ Hsame) as [added Ha]. exists (getAppendContent e +:+ added).
      rewrite Ha, append_assoc. reflexivity.
    + apply String.eqb_neq in E. apply IH. rewrite Hother by congruence. exact H.
Qed.

Lemma processAnnotations_only_appends_witness :
  exists added,
    processAnnotations UTC.host "Notes" mixedPage
      {["Notes/AI & Chips.md" := "kept"]} !! "Notes/AI & Chips.md" =
    Some ("kept" +:+ added).
Proof.
  apply (processAnnotations_only_appends UTC.host "Notes" mixedPage
           {["Notes/AI & Chips.md" := "kept"]} "Notes/AI & Chips.md" "kept").
  reflexivity.
Defined.

(** ** Runs of the sync command in closed form *)

Section SyncRuns.

Variable host : Host.
Variable source : SourceFile.

Lemma set_continuationToken_same s :
  Settings.set_continuationToken (Settings.continuationToken s) s = s.
Proof. now destruct s. Qed.

Lemma pageEvents_set_token t s init pages :
  pageEvents source (Settings.set_continuationToken t s) init pages =
  pageEvents source s init pages.
Proof.
  revert init. induction pages as [|r pages IH]; intros init; [reflexivity|].
  cbn [pageEvents]. rewrite IH. reflexivity.
Qed.

(** The run after any number of full pages. *)
Lemma afterPages_closed folder pages : forall run,
  forallb fullPage pages = true ->
  let run' := afterPages host source folder pages run in
  let s := settings (state run) in
  settings (state run') =
    Settings.set_continuationToken
      (lastToken (Settings.continuationToken s) pages) s /\
  continuationToken run' = lastToken (continuationToken run) pages /\
  data (state run') =
    match pages with
    | [] => data (state run)
    | _ => settings (state run')
    end /\
  files (state run') = mergedFiles host folder pages (files (state run)) /\
  folders (state run') = folders (state run) /\
  log (state run') =
    (log (state run) ++ pageEvents source s (continuationToken run) pages)%list /\
  entryCounter run' = (entryCounter run + entriesOf pages)%nat.
Proof.
  induction pages as [|r pages IH]; intros run Hf.
  - cbn [afterPages lastToken pageEvents entriesOf fold_right mergedFiles foldl].
    rewrite set_continuationToken_same, app_nil_r, Nat.add_0_r. auto 10.
  - cbn [forallb] in Hf. apply andb_true_iff in Hf as [Hr Hf].
    destruct (fullPage_inv _ Hr) as (p & Hp & Hc).
    cbn [afterPages]. rewrite (iteration_full host _ _ _ _ Hp Hc). cbn [fst].
    set (run1 := mkRun _ _ _).
    assert (S1 : settings (state run1) =
                 Settings.set_continuationToken (page_continuation p)
                   (settings (state run))) by reflexivity.
    assert (D1 : data (state run1) = settings (state run1)) by reflexivity.
    assert (F1 : files (state run1) =
                 processAnnotations host folder (page_entries p) (files (state run)))
      by reflexivity.
    assert (O1 : folders (state run1) = folders (state run)) by reflexivity.
    assert (L1 : log (state run1) =
                 (log (state run) ++
                  [RequestUrl (resumeRequest source (settings (state run))
                                 (continuationToken run));
                   SaveData (Settings.set_continuationToken (page_continuation p)
                               (settings (state run)))])%list).
    { unfold run1. cbn [state log saveSettings set_settings set_files emit sendRequest
                        settings data files folders].
      rewrite <- app_assoc. reflexivity. }
    assert (T1 : continuationToken run1 = page_continuation p) by reflexivity.
    assert (N1 : entryCounter run1 = (entryCounter run + length (page_entries p))%nat)
      by reflexivity.
    destruct (IH run1 Hf) as (Hs & Ht & Hd & Hfi & Hfo & Hl & Hn).
    cbv zeta in Hs, Ht, Hd, Hfi, Hfo, Hl, Hn. cbv zeta.
    clearbody run1.
    cbn [lastToken pageEvents entriesOf fold_right mergedFiles foldl]. rewrite Hp.
    split; [rewrite Hs, S1; reflexivity|].
    split; [rewrite Ht, T1; reflexivity|].
    split.
    { rewrite Hd. destruct pages; [|reflexivity]. cbn [afterPages]. exact D1. }
    split; [rewrite Hfi, F1; reflexivity|].
    split; [rewrite Hfo, O1; reflexivity|].
    split.
    { rewrite Hl, L1, S1, T1, pageEvents_set_token, <- app_assoc. reflexivity. }
    rewrite Hn, N1. unfold entriesOf. lia.
Qed.

Lemma iteration_short folder r run p :
  pageOf r = Some p -> (page_count p <? 100)%nat = true ->
  iteration host folder r run =
  (mkRun
     (notice MSG_ALL_SYNCED
        (saveSettings
           (set_settings
              (Settings.set_lastSync
                 (Settings.continuationTime (settings (state run)))
                 (Settings.set_continuationToken None (settings (state run))))
              (set_files
                 (processAnnotations host folder (page_entries p) (files (state run)))
                 (state run)))))
     (entryCounter run + length (page_entries p))
     (page_continuation p),
   Break).
Proof.
  intros Hp Hc. apply pageOf_Some in Hp. unfold iteration. rewrite Hp.
  unfold set_files, set_settings. simpl. rewrite Hc. reflexivity.
Qed.

Lemma shortPage_inv r :
  shortPage r = true ->
  exists p, pageOf r = Some p /\ (page_count p <? 100)%nat = true.
Proof.
  unfold shortPage. destruct (pageOf r) as [p|]; [|discriminate].
  intros H. exists p. auto.
Qed.

(** The run when the loop starts. *)
Lemma syncPrelude_closed now st0 :
  let run0 := syncPrelude now (loadSettings st0) in
  settings (state run0) = startSettings now st0 /\
  data (state run0) = (if resuming st0 then data st0 else stamped now st0) /\
  files (state run0) = files st0 /\
  log (state run0) = (log st0 ++ preludeEvents now st0)%list /\
  continuationToken run0 = Settings.continuationToken (data st0) /\
  entryCounter run0 = O /\
  syncFolder (state run0) =
    default DEFAULT_FOLDER (Settings.annotationsFolder (data st0)).
Proof.
  unfold syncPrelude, startSettings, preludeEvents, resuming, stamped, syncFolder.
  cbn [state continuationToken entryCounter].
  rewrite ensureFolder_settings, ensureFolder_data, ensureFolder_files,
    ensureFolder_log.
  change (Settings.continuationToken (settings (loadSettings st0)))
    with (Settings.continuationToken (data st0)).
  destruct (truthy_opt (Settings.continuationToken (data st0)));
    cbn; rewrite <- ?app_assoc; repeat split; reflexivity.
Qed.

Lemma startSettings_facts now st0 :
  Settings.continuationToken (startSettings now st0) =
    Settings.continuationToken (data st0) /\
  Settings.continuationTime (startSettings now st0) = windowStart now st0 /\
  Settings.lastSync (startSettings now st0) = Settings.lastSync (data st0) /\
  Settings.accessToken (startSettings now st0) = Settings.accessToken (data st0).
Proof.
  unfold startSettings, windowStart, stamped. destruct (resuming st0); auto.
Qed.

(** X3.  The command does nothing without credentials: when the stored
    user id is missing or empty it shows the notice that the user id is
    missing, otherwise when the stored access token is missing or empty it
    shows the notice that the token is missing; in both cases it sends no
    request, saves nothing, and leaves the stored settings and the vault as
    they were. *)
Theorem sync_needs_credentials now script st0 :
  configured st0 = false ->
  sync host source now script st0 =
    (notice (if truthy_opt (Settings.userId (data st0))
             then MSG_NO_TOKEN else MSG_NO_USER) (loadSettings st0), Left) /\
  let st' := fst (sync host source now script st0) in
  data st' = data st0 /\ files st' = files st0 /\ folders st' = folders st0 /\
  requestsOf (log st') = requestsOf (log st0) /\
  savesOf (log st') = savesOf (log st0).
Proof.
  intros Hc. unfold configured in Hc.
  assert (He : sync host source now script st0 =
    (notice (if truthy_opt (Settings.userId (data st0))
             then MSG_NO_TOKEN else MSG_NO_USER) (loadSettings st0), Left)).
  { unfold sync. cbv zeta.
    change (Settings.userId (settings (loadSettings st0)))
      with (Settings.userId (data st0)).
    change (Settings.accessToken (settings (loadSettings st0)))
      with (Settings.accessToken (data st0)).
    destruct (truthy_opt (Settings.userId (data st0))); [|reflexivity].
    destruct (truthy_opt (Settings.accessToken (data st0))); [discriminate|].
    reflexivity. }
  split; [exact He|]. cbv zeta. rewrite He.
  cbn [fst notice emit loadSettings set_settings data files folders log].
  unfold requestsOf, savesOf. rewrite !flat_map_app. cbn [flat_map].
  rewrite !app_nil_r. auto.
Qed.

(** The command on full pages only, in closed form. *)
Lemma sync_waiting_closed now pages st0 :
  configured st0 = true ->
  forallb fullPage pages = true ->
  let stW := fst (sync host source now pages st0) in
  let s := startSettings now st0 in
  let token := Settings.continuationToken (data st0) in
  snd (sync host source now pages st0) = Waiting /\
  log stW =
    (log st0 ++ preludeEvents now st0 ++ pageEvents source s token pages ++
     [RequestUrl (resumeRequest source s (lastToken token pages))])%list /\
  files stW = mergedFiles host (storedFolder st0) pages (files st0) /\
  (pages <> [] ->
   data stW = Settings.set_continuationToken (lastToken token pages) s) /\
  Settings.lastSync s = Settings.lastSync (data st0).
Proof.
  intros Hc Hf. cbv zeta.
  destruct (sync_after_pages host source now pages (Rejected (mkError "" ""))
              [] st0 Hc Hf) as (Hw & _).
  rewrite Hw. cbn [fst snd].
  destruct (syncPrelude_closed now st0) as (S0 & D0 & F0 & L0 & T0 & N0 & Fo).
  destruct (afterPages_closed
              (syncFolder (state (syncPrelude now (loadSettings st0)))) pages
              (syncPrelude now (loadSettings st0)) Hf)
    as (Hs & Ht & Hd & Hfi & _ & Hl & _).
  cbv zeta in Hs, Ht, Hd, Hfi, Hl.
  destruct (startSettings_facts now st0) as (Tk & _ & Ls & _).
  rewrite S0, ?T0, ?Fo in *. rewrite Tk in Hs.
  cbn [sendRequest state emit log files data].
  split; [reflexivity|]. split; [|split; [|split]].
  - unfold iterationRequest. rewrite Hl, L0, Hs, Ht, <- !app_assoc.
    reflexivity.
  - rewrite Hfi, F0. reflexivity.
  - intros Hne. rewrite Hd. destruct pages; [congruence|]. exact Hs.
  - exact Ls.
Qed.

(** X4.  While the pages are full the command goes on: for each page it
    sends one request, with the token of the page before (the stored token
    for the first) and always for annotations newer than the stored
    [lastSync], merges the page, and saves the settings with the token of the
    page and nothing else changed; then it asks for the next page.  The
    vault holds the pages merged in order. *)
Theorem sync_through_full_pages now pages st0 :
  configured st0 = true ->
  forallb fullPage pages = true ->
  let stW := fst (sync host source now pages st0) in
  let s := startSettings now st0 in
  let token := Settings.continuationToken (data st0) in
  snd (sync host source now pages st0) = Waiting /\
  log stW =
    (log st0 ++ preludeEvents now st0 ++ pageEvents source s token pages ++
     [RequestUrl (resumeRequest source s (lastToken token pages))])%list /\
  files stW = mergedFiles host (storedFolder st0) pages (files st0) /\
  (pages <> [] ->
   data stW = Settings.set_continuationToken (lastToken token pages) s) /\
  Settings.lastSync s = Settings.lastSync (data st0).
Proof. apply sync_waiting_closed. Qed.

(** X5.  A sync completes on the first page with fewer than 100 entries:
    after any number of full pages and that page the command has left the
    loop; it stores the settings with the token cleared and [lastSync] moved
    to the start time of the sync, as its last save; the vault holds all the
    pages merged in order; the last two notices say that all is synced and
    give the number of entries of all the pages; no request follows,
    whatever the service would have answered. *)
Theorem sync_completes_on_short_page now pages r rest st0 :
  configured st0 = true ->
  forallb fullPage pages = true ->
  shortPage r = true ->
  let stF := fst (sync host source now (pages ++ r :: rest) st0) in
  let s := startSettings now st0 in
  let token := Settings.continuationToken (data st0) in
  snd (sync host source now (pages ++ r :: rest) st0) = Left /\
  data stF = completedSettings now st0 /\
  files stF = mergedFiles host (storedFolder st0) (pages ++ [r]) (files st0) /\
  log stF =
    (log st0 ++ preludeEvents now st0 ++ pageEvents source s token pages ++
     [RequestUrl (resumeRequest source s (lastToken token pages));
      SaveData (completedSettings now st0);
      Notice MSG_ALL_SYNCED;
      Notice (syncedNotice (entriesOf (pages ++ [r])))])%list.
Proof.
  intros Hc Hf Hr. cbv zeta.
  destruct (sync_after_pages host source now pages r rest st0 Hc Hf)
    as (_ & He & _).
  destruct (shortPage_inv _ Hr) as (p & Hp & Hcnt).
  rewrite (iteration_short _ _ _ _ Hp Hcnt) in He. rewrite He. cbn [fst snd].
  destruct (syncPrelude_closed now st0) as (S0 & D0 & F0 & L0 & T0 & N0 & Fo).
  destruct (afterPages_closed
              (syncFolder (state (syncPrelude now (loadSettings st0)))) pages
              (syncPrelude now (loadSettings st0)) Hf)
    as (Hs & Ht & Hd & Hfi & _ & Hl & Hn).
  cbv zeta in Hs, Ht, Hd, Hfi, Hl, Hn.
  destruct (startSettings_facts now st0) as (Tk & Ct & Ls & _).
  rewrite S0 in Hs, Hl. rewrite Tk in Hs. rewrite T0 in Ht, Hl.
  rewrite F0 in Hfi. rewrite L0 in Hl. rewrite N0 in Hn.
  revert Hs Ht Hfi Hl Hn. rewrite Fo. fold (storedFolder st0).
  generalize (afterPages host source (storedFolder st0) pages
                (syncPrelude now (loadSettings st0))).
  intros runN Hs Ht Hfi Hl Hn.
  cbn [sendRequest state emit log files data settings notice saveSettings
       set_settings set_files entryCounter].
  assert (Hcs : Settings.set_lastSync
                  (Settings.continuationTime (settings (state runN)))
                  (Settings.set_continuationToken None (settings (state runN))) =
                completedSettings now st0).
  { rewrite Hs. unfold completedSettings. rewrite <- Ct. reflexivity. }
  rewrite Hcs.
  split; [reflexivity|]. split; [reflexivity|]. split.
  - rewrite Hfi. unfold mergedFiles. rewrite foldl_app. cbn [foldl].
    rewrite Hp. reflexivity.
  - assert (Hcount : entriesOf (pages ++ [r]) =
                     (0 + entriesOf pages + length (page_entries p))%nat).
    { unfold entriesOf. rewrite fold_right_app. cbn [fold_right].
      rewrite Hp, Nat.add_0_r.
      clear. induction pages as [|q pages IH]; cbn [fold_right]; [lia|].
      rewrite IH. lia. }
    unfold iterationRequest. rewrite Hl, Hs, Ht, Hn, Hcount, <- !app_assoc.
    reflexivity.
Qed.

Lemma requestsOf_app l1 l2 :
  requestsOf (l1 ++ l2) = (requestsOf l1 ++ requestsOf l2)%list.
Proof. unfold requestsOf. apply flat_map_app. Qed.

Lemma resumeRequest_url_tokenless s token :
  truthy_opt token = false ->
  url (resumeRequest source s token) = url (resumeRequest source s None).
Proof.
  intros H. unfold resumeRequest, getAnnotations_request, apiCall_request, journalPath.
  cbn [url]. rewrite H. reflexivity.
Qed.

Lemma pageEvents_tokenless s pages : forall token,
  truthy_opt token = false ->
  forallb tokenless pages = true ->
  map url (requestsOf (pageEvents source s token pages ++
                       [RequestUrl (resumeRequest source s (lastToken token pages))])) =
  repeat (url (resumeRequest source s None)) (S (length pages)).
Proof.
  induction pages as [|r pages IH]; intros token Ht Hf.
  - cbn [pageEvents lastToken app length repeat].
    change (requestsOf [RequestUrl ?q]) with [q]. cbn [map].
    now rewrite (resumeRequest_url_tokenless s token Ht).
  - cbn [forallb] in Hf. apply andb_true_iff in Hf as [Hr Hf].
    assert (Hn : truthy_opt (match pageOf r with
                             | Some p => page_continuation p
                             | None => token
                             end) = false).
    { unfold tokenless in Hr. cbn [lastToken] in Hr. apply negb_true_iff in Hr.
      destruct (pageOf r); [exact Hr | exact Ht]. }
    cbn [pageEvents lastToken app length].
    change (requestsOf (RequestUrl ?q :: SaveData ?v :: ?l)) with (q :: requestsOf l).
    cbn [map repeat]. rewrite (IH _ Hn Hf), (resumeRequest_url_tokenless s token Ht).
    reflexivity.
Qed.

(** X17.  A full page that comes without a token sends the loop back to
    the start.  On a fresh sync, as long as each page has 100 entries or
    more and no token (or an empty one), every request of the loop has the
    address of the first one: the command asks for the first page again,
    and merges what it gets again. *)
Theorem sync_repeats_first_page now pages st0 :
  configured st0 = true ->
  resuming st0 = false ->
  forallb fullPage pages = true ->
  forallb tokenless pages = true ->
  map url (requestsOf (log (fst (sync host source now pages st0)))) =
    (map url (requestsOf (log st0)) ++
     repeat (url (firstRequest source st0)) (S (length pages)))%list /\
  files (fst (sync host source now pages st0)) =
    mergedFiles host (storedFolder st0) pages (files st0).
Proof.
  intros Hc Hr Hf Ht.
  destruct (sync_waiting_closed now pages st0 Hc Hf) as (_ & Hl & Hfi & _ & _).
  cbv zeta in Hl, Hfi. split; [|exact Hfi].
  rewrite Hl. rewrite requestsOf_app, map_app. f_equal.
  rewrite requestsOf_app. unfold preludeEvents. rewrite Hr. cbn [app requestsOf flat_map].
  assert (Htok : truthy_opt (Settings.continuationToken (data st0)) = false) by exact Hr.
  rewrite (pageEvents_tokenless _ pages _ Htok Ht). f_equal.
  unfold firstRequest, resumeRequest, getAnnotations_request, apiCall_request,
    journalPath. cbn [url].
  destruct (startSettings_facts now st0) as (_ & _ & -> & _).
  rewrite Htok. reflexivity.
Qed.

End SyncRuns.

(** *** Resuming *)

Section Resume.

Variable host : Host.
Variable source : SourceFile.

Lemma iteration_sameCore folder r a b :
  sameCore a b ->
  sameCore (fst (iteration host folder r (sendRequest source a)))
           (fst (iteration host folder r (sendRequest source b))) /\
  snd (iteration host folder r (sendRequest source a)) =
  snd (iteration host folder r (sendRequest source b)).
Proof.
  intros (Hs & Hd & Hf & Ht). unfold iteration, sameCore.
  destruct (getAnnotations r) as [[p|]|e].
  - destruct (page_count p <? 100)%nat;
      cbn [fst snd state settings data files continuationToken sendRequest emit
           notice saveSettings set_settings set_files];
      rewrite Hs, Hf; auto.
  - cbn [fst snd state settings data files continuationToken sendRequest emit].
    auto.
  - destruct (includes (message e) "API rate limit");
      cbn [fst snd state settings data files continuationToken sendRequest emit
           notice]; auto.
Qed.

Lemma syncLoop_sameCore folder script : forall a b,
  sameCore a b ->
  sameCore (fst (syncLoop host source folder script a))
           (fst (syncLoop host source folder script b)) /\
  snd (syncLoop host source folder script a) =
  snd (syncLoop host source folder script b).
Proof.
  induction script as [|r script IH]; intros a b Hab.
  - cbn [syncLoop fst snd]. split; [|reflexivity].
    destruct Hab as (Hs & Hd & Hf & Ht). unfold sameCore.
    cbn [state settings data files continuationToken sendRequest emit]. auto.
  - rewrite !syncLoop_cons.
    destruct (iteration_sameCore folder r a b Hab) as [Hc Hk].
    destruct (iteration host folder r (sendRequest source a)) as [a1 ca].
    destruct (iteration host folder r (sendRequest source b)) as [b1 cb].
    cbn [fst snd] in Hc, Hk. subst cb.
    destruct ca; [apply IH; exact Hc | auto].
Qed.

(** The command for configured credentials: the prelude, the loop, and
    the closing notice when the loop is left. *)
Lemma sync_configured now script st0 :
  configured st0 = true ->
  sync host source now script st0 =
  match syncLoop host source (storedFolder st0) script
          (syncPrelude now (loadSettings st0)) with
  | (run', Left) => (notice (syncedNotice (entryCounter run')) (state run'), Left)
  | (run', Waiting) => (state run', Waiting)
  end.
Proof.
  intros Hc. unfold sync. cbv zeta.
  destruct (configured_inv _ Hc) as [-> ->]. cbn [negb].
  destruct (syncPrelude_closed now st0) as (_ & _ & _ & _ & _ & _ & Fo).
  rewrite Fo. reflexivity.
Qed.

(** A fetch that does not come back with a page ends the loop, with at
    most a notice added. *)
Lemma iteration_no_page folder r run :
  pageOf r = None ->
  snd (iteration host folder r run) = Break /\
  settings (state (fst (iteration host folder r run))) = settings (state run) /\
  data (state (fst (iteration host folder r run))) = data (state run) /\
  files (state (fst (iteration host folder r run))) = files (state run) /\
  continuationToken (fst (iteration host folder r run)) = continuationToken run.
Proof.
  unfold pageOf, iteration. destruct (getAnnotations r) as [[p|]|e];
    [discriminate| |]; intros _.
  - auto.
  - destruct (includes (message e) "API rate limit"); auto.
Qed.

Lemma assignDefaults_fixed d f :
  Settings.annotationsFolder d = Some f -> assignDefaults d = d.
Proof. destruct d. cbn. intros ->. reflexivity. Qed.

Lemma startSettings_folder now st0 :
  Settings.annotationsFolder (startSettings now st0) = Some (storedFolder st0) /\
  credentials (startSettings now st0) = credentials (data st0).
Proof. unfold startSettings, stamped, storedFolder. destruct (resuming st0); auto. Qed.

(** X6.  An interrupted sync resumes where it stopped.  Let a sync go
    through any number of full pages and then meet a fetch that brings no
    page (a rejection, an error payload), so that a token is stored.  A later
    command that gets the remaining answers ends with the same stored
    settings and the same vault as one command that gets the pages and the
    remaining answers without the interruption; they also agree on whether
    the loop was left. *)
Theorem resumed_sync_matches_uninterrupted now now' pages r rest st0 :
  configured st0 = true ->
  forallb fullPage pages = true ->
  pageOf r = None ->
  truthy_opt (lastToken (Settings.continuationToken (data st0)) pages) = true ->
  let stA := fst (sync host source now (pages ++ [r]) st0) in
  let resumed := sync host source now' rest stA in
  let straight := sync host source now (pages ++ rest) st0 in
  data (fst resumed) = data (fst straight) /\
  files (fst resumed) = files (fst straight) /\
  snd resumed = snd straight.
Proof.
  intros Hc Hf Hr Htok. cbv zeta.
  destruct (syncPrelude_closed now st0) as (S0 & D0 & F0 & _ & T0 & _ & Fo).
  destruct (afterPages_closed host source (storedFolder st0) pages
              (syncPrelude now (loadSettings st0)) Hf)
    as (Hs & Ht & Hd & Hfi & _ & _ & _).
  cbv zeta in Hs, Ht, Hd, Hfi.
  destruct (startSettings_facts now st0) as (Tk & _ & _ & _).
  destruct (startSettings_folder now st0) as (Fd & Cr).
  rewrite S0 in Hs. rewrite Tk in Hs. rewrite T0 in Ht.
  set (runN := afterPages host source (storedFolder st0) pages
                 (syncPrelude now (loadSettings st0))) in *.
  set (token := lastToken (Settings.continuationToken (data st0)) pages) in *.
  (* the interrupted command *)
  assert (HA : exists stA,
             fst (sync host source now (pages ++ [r]) st0) = stA /\
             data stA = data (state runN) /\ files stA = files (state runN)).
  { eexists. split; [reflexivity|].
    rewrite (sync_configured now _ st0 Hc), syncLoop_full_prefix by exact Hf.
    fold runN. rewrite syncLoop_cons.
    destruct (iteration_no_page (storedFolder st0) r (sendRequest source runN) Hr)
      as (Hb & _ & Hd' & Hf' & _).
    destruct (iteration host (storedFolder st0) r (sendRequest source runN))
      as [run' c]. cbn [fst snd] in Hb, Hd', Hf'. subst c.
    cbn [fst notice emit data files]. auto. }
  destruct HA as (stA & -> & DA & FA).
  (* what is stored when the command is interrupted *)
  assert (HD : assignDefaults (data (state runN)) = settings (state runN) /\
               storedFolder stA = storedFolder st0 /\
               credentials (data (state runN)) = credentials (data st0) /\
               Settings.continuationToken (data (state runN)) = token).
  { unfold storedFolder. rewrite DA. destruct pages as [|q pages'].
    - assert (Hres : resuming st0 = true) by exact Htok.
      rewrite Hd, D0, Hs, Hres. unfold token. cbn [lastToken].
      unfold startSettings in *. rewrite Hres in *.
      rewrite <- Tk at 1. rewrite set_continuationToken_same. auto.
    - rewrite Hd. split; [apply (assignDefaults_fixed _ (storedFolder st0))|];
        rewrite Hs; cbn; [exact Fd|]. rewrite Fd. cbn.
      split; [reflexivity|]. split; [exact Cr | reflexivity]. }
  destruct HD as (HAs & HFo & HCr & HTk).
  assert (HcA : configured stA = true).
  { rewrite (configured_credentials st0 stA); [exact Hc|]. rewrite DA. exact HCr. }
  assert (HrA : resuming stA = true).
  { unfold resuming. rewrite DA, HTk. exact Htok. }
  destruct (syncPrelude_closed now' stA) as (S1 & D1 & F1 & _ & T1 & _ & _).
  unfold startSettings in S1. rewrite HrA in S1, D1.
  assert (Hcore : sameCore (syncPrelude now' (loadSettings stA)) runN).
  { unfold sameCore. rewrite S1, D1, F1, T1, DA, FA, HAs, HTk, Ht. auto. }
  destruct (syncLoop_sameCore (storedFolder st0) rest _ _ Hcore) as [Hfin Hst].
  rewrite (sync_configured now' rest stA HcA), HFo.
  rewrite (sync_configured now _ st0 Hc), syncLoop_full_prefix by exact Hf.
  fold runN.
  destruct (syncLoop host source (storedFolder st0) rest
              (syncPrelude now' (loadSettings stA))) as [a sa].
  destruct (syncLoop host source (storedFolder st0) rest runN) as [b sb].
  cbn [fst snd] in Hfin, Hst. subst sb.
  destruct Hfin as (_ & Hda & Hfa & _).
  destruct sa; cbn [fst snd notice emit data files]; auto.
Qed.

End Resume.

(** ** Outcomes of a fetch *)

(** X7.  [getAnnotations] lets two errors through to the loop, the one
    that says the token has expired and the one that says the rate limit is
    reached, and only for a request that was rejected: a response that
    decodes never raises, whatever error code it carries, and gives a page
    exactly when its error code is absent or zero and it has entries; the
    page then counts its entries and carries the continuation of the
    response. *)
Theorem getAnnotations_outcomes (r : HttpOutcome (js JournalPayload)) :
  (forall e, getAnnotations r = Throw e ->
     (e = new_Error MSG_TOKEN_EXPIRED \/ e = new_Error MSG_RATE_LIMIT) /\
     exists cause, r = Rejected cause) /\
  (forall p, getAnnotations r = Ok (Some p) <->
     exists a es,
       r = Json (val a) /\ truthy_num (errorCode a) = false /\
       entries a = Some es /\ p = mkPage es (continuation a) (length es)).
Proof.
  unfold getAnnotations, getAnnotations_try, getAnnotations_catch.
  destruct r as [cause | [ | |a]]; cbn [apiCall_result].
  - split.
    + intros e.
      destruct (includes (message (new_Error (Error_toString cause))) "status 401");
        [intros [= <-]; eauto|].
      destruct (includes (message (new_Error (Error_toString cause))) "status 429");
        [intros [= <-]; eauto | discriminate].
    + intros p. split.
      * destruct (includes _ "status 401"); [discriminate|].
        destruct (includes _ "status 429"); discriminate.
      * intros (a & es & Hr & _). discriminate.
  - split; [intros e; discriminate|].
    intros p. split; [discriminate | intros (a & es & Hr & _); discriminate].
  - split; [intros e; discriminate|].
    intros p. split; [discriminate | intros (a & es & Hr & _); discriminate].
  - destruct (truthy_num (errorCode a)) eqn:Ec.
    + split; [intros e; discriminate|].
      intros p. split; [discriminate|].
      intros (a' & es & [= <-] & Hn & _). congruence.
    + destruct (entries a) as [es|] eqn:Ee.
      * split; [intros e; discriminate|].
        intros p. split.
        -- intros [= <-]. exists a, es. auto.
        -- intros (a' & es' & [= <-] & _ & He & ->). congruence.
      * split; [intros e; discriminate|].
        intros p. split; [discriminate|].
        intros (a' & es' & [= <-] & _ & He & _). congruence.
Qed.

Lemma getAnnotations_outcomes_witness :
  getAnnotations (pageWith 2 (Some "next")) =
    Ok (Some (mkPage (repeat highlightEntry 2) (Some "next") 2)) /\
  getAnnotations errorPayload = Ok None.
Proof.
  split; [|reflexivity].
  apply (proj2 (getAnnotations_outcomes (pageWith 2 (Some "next")))).
  eexists _, _. repeat split; reflexivity.
Defined.

Lemma resumed_sync_matches_uninterrupted_witness :
  data (fst (sync UTC.host part_000 9000 [pageWith 40 None]
               (fst (runSync (onePage ++ [rejected MSG_429]) storedIdle)))) =
  data (fst (runSync twoPages storedIdle)) /\
  files (fst (sync UTC.host part_000 9000 [pageWith 40 None]
                (fst (runSync (onePage ++ [rejected MSG_429]) storedIdle)))) =
  files (fst (runSync twoPages storedIdle)).
Proof.
  destruct (resumed_sync_matches_uninterrupted UTC.host part_000 5000 9000 onePage
              (rejected MSG_429) [pageWith 40 None] (stateOf storedIdle)
              eq_refl eq_refl eq_refl eq_refl) as (Hd & Hf & _).
  split; [exact Hd | exact Hf].
Defined.

(** ** The unread stream *)

Section Stream.

Variables accessToken userId : string.

Lemma streamIteration_log r g st :
  exists ns,
    log (snd (fst (streamIteration r g st))) = (log st ++ map Notice ns)%list /\
    forall st',
      fst (fst (streamIteration r g st')) = fst (fst (streamIteration r g st)) /\
      snd (streamIteration r g st') = snd (streamIteration r g st) /\
      log (snd (fst (streamIteration r g st'))) = (log st' ++ map Notice ns)%list.
Proof.
  unfold streamIteration, streamCatch.
  destruct (apiCall_result r) as [[ | |res]|e].
  - exists []. cbn. rewrite app_nil_r. split; [reflexivity|].
    intros st'. rewrite app_nil_r. auto.
  - exists []. cbn. rewrite app_nil_r. split; [reflexivity|].
    intros st'. rewrite app_nil_r. auto.
  - destruct (StreamPayload.items res) as [its|].
    + destruct (length its <? 250)%nat; exists []; cbn; rewrite app_nil_r;
        (split; [reflexivity|]; intros st'; rewrite app_nil_r; auto).
    + exists []. cbn. rewrite app_nil_r. split; [reflexivity|].
      intros st'. rewrite app_nil_r. auto.
  - destruct (includes (message e) "status 401").
    + exists [MSG_TOKEN_EXPIRED]. cbn. auto.
    + destruct (includes (message e) "status 429").
      * exists [MSG_RATE_LIMIT]. cbn. auto.
      * exists []. cbn. rewrite app_nil_r. split; [reflexivity|].
        intros st'. rewrite app_nil_r. auto.
Qed.

Lemma noticesOf_app l1 l2 : noticesOf (l1 ++ l2) = (noticesOf l1 ++ noticesOf l2)%list.
Proof. unfold noticesOf. apply flat_map_app. Qed.

(** The result of the loop and the notices it shows do not depend on what
    was logged before. *)
Lemma streamLoop_log_irrelevant script : forall g st st',
  noticesOf (log st) = noticesOf (log st') ->
  snd (streamLoop accessToken userId script g st) =
    snd (streamLoop accessToken userId script g st') /\
  noticesOf (log (fst (streamLoop accessToken userId script g st))) =
    noticesOf (log (fst (streamLoop accessToken userId script g st'))).
Proof.
  induction script as [|r script IH]; intros g st st' Hn.
  - cbn. rewrite !noticesOf_app, Hn. auto.
  - cbn [streamLoop].
    set (st1 := emit _ st). set (st1' := emit _ st').
    assert (Hn1 : noticesOf (log st1) = noticesOf (log st1')).
    { unfold st1, st1'. cbn. rewrite !noticesOf_app, Hn. reflexivity. }
    destruct (streamIteration_log r g st1) as (ns & Hl & Hother).
    destruct (Hother st1') as (Hg & Hc & Hl').
    destruct (streamIteration r g st1) as [[g1 st2] c1].
    destruct (streamIteration r g st1') as [[g1' st2'] c1'].
    cbn [fst snd] in *. subst g1' c1'.
    assert (Hn2 : noticesOf (log st2) = noticesOf (log st2')).
    { rewrite Hl, Hl', !noticesOf_app, Hn1. reflexivity. }
    destruct c1; [apply IH; exact Hn2 | auto | auto].
Qed.

Lemma streamIteration_retried r g st :
  retried r = true -> streamIteration r g st = (g, st, GoOn).
Proof.
  unfold retried, streamIteration, streamCatch.
  destruct r as [e | [ | |res]]; cbn; try discriminate; try reflexivity.
  intros H. apply negb_true_iff, orb_false_iff in H as [-> ->]. reflexivity.
Qed.

(** X8.  In the loop that fetches the unread stream, a fetch that fails
    without a mention of status 401 or status 429 is neither reported nor
    counted: the loop asks again with the same token.  On any script of
    outcomes the loop comes to the same result, and shows the same notices,
    as on the script without those failures. *)
Theorem streamLoop_retries_other_failures script g st :
  snd (streamLoop accessToken userId script g st) =
    snd (streamLoop accessToken userId
           (List.filter (fun r => negb (retried r)) script) g st) /\
  noticesOf (log (fst (streamLoop accessToken userId script g st))) =
    noticesOf (log (fst (streamLoop accessToken userId
                           (List.filter (fun r => negb (retried r)) script) g st))).
Proof.
  revert g st. induction script as [|r script IH]; intros g st; [auto|].
  cbn [List.filter]. destruct (retried r) eqn:Hr; cbn [negb].
  - cbn [streamLoop]. rewrite (streamIteration_retried _ _ _ Hr).
    destruct (IH g (emit (RequestUrl (streamRequest accessToken userId (streamToken g))) st))
      as [H1 H2].
    destruct (streamLoop_log_irrelevant
                (List.filter (fun r => negb (retried r)) script) g
                (emit (RequestUrl (streamRequest accessToken userId (streamToken g))) st)
                st) as [H3 H4].
    { cbn. rewrite noticesOf_app. cbn. now rewrite app_nil_r. }
    rewrite H1, H2, H3, H4. auto.
  - cbn [streamLoop].
    destruct (streamIteration r g _) as [[g1 st2] c1].
    destruct c1; [apply IH | auto | auto].
Qed.

Lemma logged_logged a b st : logged b (logged a st) = logged (a ++ b) st.
Proof. unfold logged. cbn. now rewrite app_assoc. Qed.

Lemma fullStreamPage_inv r :
  fullStreamPage r = true ->
  exists res its,
    r = Json (val res) /\ StreamPayload.items res = Some its /\
    (length its <? 250)%nat = false.
Proof.
  unfold fullStreamPage, streamItems. destruct r as [e|[| |res]]; try discriminate.
  destruct (StreamPayload.items res) as [its|] eqn:E; [|discriminate].
  intros H. apply negb_true_iff in H. eauto.
Qed.

Lemma lastStreamPage_inv r :
  lastStreamPage r = true ->
  exists res its,
    r = Json (val res) /\ StreamPayload.items res = Some its /\
    (length its <? 250)%nat = true.
Proof.
  unfold lastStreamPage, streamItems. destruct r as [e|[| |res]]; try discriminate.
  destruct (StreamPayload.items res) as [its|] eqn:E; [|discriminate]. eauto.
Qed.

(** The loop after any number of full pages. *)
Lemma streamLoop_pages pages rest : forall g st,
  forallb fullStreamPage pages = true ->
  streamLoop accessToken userId (pages ++ rest) g st =
  streamLoop accessToken userId rest
    (mkGathered (articles g ++ gatheredItems pages)
       (lastStreamToken (streamToken g) pages))
    (logged (map (fun t => RequestUrl (streamRequest accessToken userId t))
               (pageTokens (streamToken g) pages)) st).
Proof.
  induction pages as [|r pages IH]; intros g st Hf.
  - cbn. unfold logged. rewrite !app_nil_r. now destruct g, st.
  - cbn [forallb] in Hf. apply andb_true_iff in Hf as [Hr Hf].
    destruct (fullStreamPage_inv _ Hr) as (res & its & -> & Hi & Hc).
    cbn [app streamLoop]. unfold streamIteration. cbn [apiCall_result].
    rewrite Hi, Hc. rewrite (IH _ _ Hf).
    cbn [articles streamToken gatheredItems flat_map streamItems default
         lastStreamToken streamNext pageTokens map].
    rewrite Hi. cbn [default]. unfold id.
    change (emit ?e st) with (logged [e] st). rewrite logged_logged.
    rewrite <- app_assoc. reflexivity.
Qed.

(** X11.  The loop that fetches the unread stream has no way out on
    failures that mention neither status 401 nor status 429: as long as the
    fetch fails in such a way the loop sends the very same request again,
    at once, and is still waiting when the outcomes run out; it shows no
    notice and gathers nothing. *)
Theorem streamLoop_never_gives_up script g st :
  forallb retried script = true ->
  streamLoop accessToken userId script g st =
    (logged (repeat (RequestUrl (streamRequest accessToken userId (streamToken g)))
               (S (length script))) st,
     Waits).
Proof.
  revert st. induction script as [|r script IH]; intros st Hf.
  - reflexivity.
  - cbn [forallb] in Hf. apply andb_true_iff in Hf as [Hr Hf].
    cbn [streamLoop]. rewrite (streamIteration_retried _ _ _ Hr), (IH _ Hf).
    change (emit ?e st) with (logged [e] st). rewrite logged_logged. reflexivity.
Qed.

End Stream.

Lemma streamLoop_never_gives_up_witness :
  snd (streamLoop "secret" "user-1"
         [streamFailure MSG_500; Json null; streamFailure MSG_500]
         (mkGathered [] None) (memoryOf storedIdle)) = Waits /\
  length (requestsOf (log (fst (streamLoop "secret" "user-1"
         [streamFailure MSG_500; Json null; streamFailure MSG_500]
         (mkGathered [] None) (memoryOf storedIdle))))) = 4%nat.
Proof.
  rewrite (streamLoop_never_gives_up "secret" "user-1"
             [streamFailure MSG_500; Json null; streamFailure MSG_500]
             (mkGathered [] None) (memoryOf storedIdle) eq_refl).
  split; reflexivity.
Defined.

Lemma fetchUnread_loop script st :
  credentialsInMemory st = true ->
  fetchUnread script st =
  streamLoop (template (Settings.accessToken (settings st)))
    (template (Settings.userId (settings st))) script (mkGathered [] None) st.
Proof.
  unfold credentialsInMemory, fetchUnread. intros H.
  apply andb_true_iff in H as [-> ->]. reflexivity.
Qed.

(** X9.  With credentials in memory, the unread stream is read page by
    page until the first page with fewer than 250 items: the articles
    gathered are the items of all those pages in the order received; each
    page is asked for with the token of the page before it, the first
    without a token; nothing is asked after the short page and no notice is
    shown. *)
Theorem fetchUnread_gathers pages r rest st :
  credentialsInMemory st = true ->
  forallb fullStreamPage pages = true ->
  lastStreamPage r = true ->
  fetchUnread (pages ++ r :: rest) st =
    (logged (map (fun t => RequestUrl (unreadRequest st t)) (streamTokens None pages)) st,
     Gathers (gatheredItems (pages ++ [r]))).
Proof.
  intros Hc Hf Hr. rewrite (fetchUnread_loop _ _ Hc), streamLoop_pages by exact Hf.
  destruct (lastStreamPage_inv _ Hr) as (res & its & -> & Hi & Hn).
  cbn [streamLoop]. unfold streamIteration. cbn [apiCall_result].
  rewrite Hi, Hn. cbn [articles streamToken app].
  change (emit ?e ?s) with (logged [e] s). rewrite logged_logged.
  unfold streamTokens, unreadRequest, gatheredItems.
  rewrite map_app, flat_map_app. cbn [map flat_map streamItems]. rewrite Hi.
  cbn [default]. unfold id. rewrite app_nil_r. reflexivity.
Qed.

Lemma fetchUnread_gathers_witness :
  snd (fetchUnread [streamPage 250 (Some "s2"); streamPage 3 None]
         (memoryOf storedIdle)) =
    Gathers (repeat emptyRendered 253) /\
  requestsOf (log (fst (fetchUnread [streamPage 250 (Some "s2"); streamPage 3 None]
                          (memoryOf storedIdle)))) =
    [unreadRequest (memoryOf storedIdle) None;
     unreadRequest (memoryOf storedIdle) (Some "s2")].
Proof.
  pose proof (fetchUnread_gathers [streamPage 250 (Some "s2")] (streamPage 3 None) []
                (memoryOf storedIdle) eq_refl eq_refl eq_refl) as H.
  cbn [app] in H. rewrite H. split; reflexivity.
Defined.

(** X10.  The ways the fetch of the unread stream ends without articles.
    Without a user id or an access token in memory it shows the notice of
    the missing one and sends nothing.  A rejection that mentions status 401
    or status 429, after any number of full pages, ends the command with the
    notice that the token has expired or that the rate limit is reached.  A
    response without items ends it with no notice at all.  In each case
    what was gathered so far is dropped. *)
Theorem fetchUnread_returns pages rest st :
  (credentialsInMemory st = false ->
   forall script,
     fetchUnread script st =
       (notice (if truthy_opt (Settings.userId (settings st))
                then MSG_NO_TOKEN else MSG_NO_USER) st, Returns)) /\
  (credentialsInMemory st = true ->
   forallb fullStreamPage pages = true ->
   let asked :=
     logged (map (fun t => RequestUrl (unreadRequest st t)) (streamTokens None pages)) st in
   (forall e,
      includes (message e) "status 401" || includes (message e) "status 429" = true ->
      fetchUnread (pages ++ Rejected e :: rest) st =
        (notice (if includes (Error_toString e) "status 401"
                 then MSG_TOKEN_EXPIRED else MSG_RATE_LIMIT) asked, Returns)) /\
   (forall token,
      fetchUnread (pages ++ Json (val (StreamPayload.mk None token)) :: rest) st =
        (asked, Returns))).
Proof.
  split.
  - unfold credentialsInMemory, fetchUnread. intros H script.
    destruct (truthy_opt (Settings.userId (settings st))); [|reflexivity].
    destruct (truthy_opt (Settings.accessToken (settings st))); [discriminate|].
    reflexivity.
  - intros Hc Hf. cbv zeta. split.
    + intros e He.
      rewrite (fetchUnread_loop _ _ Hc), streamLoop_pages by exact Hf.
      cbn [streamLoop]. unfold streamIteration, streamCatch. cbn [apiCall_result message new_Error].
      change (emit ?e ?s) with (logged [e] s). rewrite logged_logged.
      unfold streamTokens, unreadRequest. rewrite map_app. cbn [map streamToken].
      destruct (includes (Error_toString e) "status 401") eqn:E1; [reflexivity|].
      apply orb_true_iff in He as [He|He].
      * apply (includes_Error_toString e "status 401" eq_refl) in He. congruence.
      * apply (includes_Error_toString e "status 429" eq_refl) in He.
        rewrite He. reflexivity.
    + intros token.
      rewrite (fetchUnread_loop _ _ Hc), streamLoop_pages by exact Hf.
      cbn [streamLoop]. unfold streamIteration. cbn [apiCall_result StreamPayload.items].
      change (emit ?e ?s) with (logged [e] s). rewrite logged_logged.
      unfold streamTokens, unreadRequest. rewrite map_app. reflexivity.
Qed.

Lemma fetchUnread_returns_witness :
  fetchUnread [] (memoryOf noSettings) = (notice MSG_NO_USER (memoryOf noSettings), Returns) /\
  noticesOf (log (fst (fetchUnread [streamPage 250 (Some "s2"); streamFailure MSG_429]
                         (memoryOf storedIdle)))) = [MSG_RATE_LIMIT] /\
  snd (fetchUnread [streamPage 250 (Some "s2");
                    Json (val (StreamPayload.mk None None))]
         (memoryOf storedIdle)) = Returns.
Proof.
  destruct (fetchUnread_returns [] [] (memoryOf noSettings)) as [H1 _].
  destruct (fetchUnread_returns [streamPage 250 (Some "s2")] [] (memoryOf storedIdle))
    as [_ H2].
  destruct (H2 eq_refl eq_refl) as [H401 Hnone].
  specialize (H401 (mkError "Error" MSG_429) eq_refl).
  specialize (Hnone None). cbn [app] in H401, Hnone.
  split; [apply (H1 eq_refl)|]. split.
  - unfold streamFailure. rewrite H401. reflexivity.
  - rewrite Hnone. reflexivity.
Defined.


(** ** The saved entries *)

Lemma globalSaved_first pre k ids post :
  forallb (fun kv => negb (namesSaved (fst kv))) pre = true ->
  namesSaved k = true ->
  globalSaved (pre ++ (k, ids) :: post) = Some k /\
  property k (pre ++ (k, ids) :: post) = Some ids.
Proof.
  intros Hpre Hk. unfold globalSaved. induction pre as [|[k' v'] pre IH].
  - cbn. fold (namesSaved k). rewrite Hk, String.eqb_refl. auto.
  - cbn [forallb fst] in Hpre. apply andb_true_iff in Hpre as [Hk' Hpre].
    apply negb_true_iff in Hk'. destruct (IH Hpre) as [IH1 IH2].
    cbn [app map fst List.filter property]. fold (namesSaved k'). rewrite Hk'.
    split; [exact IH1|].
    destruct (String.eqb k' k) eqn:E; [|exact IH2].
    apply String.eqb_eq in E. congruence.
Qed.

Lemma globalSaved_none t :
  forallb (fun kv => negb (namesSaved (fst kv)) &&
                     negb (String.eqb (fst kv) "undefined")) t = true ->
  globalSaved t = None /\ property "undefined" t = None.
Proof.
  unfold globalSaved. induction t as [|[k v] t IH]; [auto|].
  cbn [forallb fst]. intros H. apply andb_true_iff in H as [Hk Ht].
  apply andb_true_iff in Hk as [Hs Hu].
  apply negb_true_iff in Hs. apply negb_true_iff in Hu.
  destruct (IH Ht) as [IH1 IH2].
  cbn [map fst List.filter property]. fold (namesSaved k). rewrite Hs, Hu. auto.
Qed.

(** X12.  [getSavedLater] first asks for the tags.  When the table of
    tags comes back, it posts to [entries/.mget] the JSON text of the
    entries listed under the first tag, in the order of the table, whose id
    contains [global.saved]; when no tag id contains it (and none is named
    undefined) the post is sent without a body.  It returns the entries of
    the answer as they are. *)
Theorem getSavedLater_posts accessToken (t : list (string * json)) r2 :
  let tags := Json (val (mkTags (Some t))) in
  (forall pre k ids post,
     t = (pre ++ (k, ids) :: post)%list ->
     forallb (fun kv => negb (namesSaved (fst kv))) pre = true ->
     namesSaved k = true ->
     fst (getSavedLater accessToken tags r2) =
       [tagsRequest accessToken; mgetRequest accessToken (Some ids)] /\
     body (mgetRequest accessToken (Some ids)) = Some (BodyText (JSON_stringify ids))) /\
  (forallb (fun kv => negb (namesSaved (fst kv)) &&
                      negb (String.eqb (fst kv) "undefined")) t = true ->
   fst (getSavedLater accessToken tags r2) =
     [tagsRequest accessToken; mgetRequest accessToken None] /\
   body (mgetRequest accessToken None) = None) /\
  (forall xs, r2 = Json (val xs) -> snd (getSavedLater accessToken tags r2) = Ok xs).
Proof.
  cbv zeta. unfold getSavedLater. cbn [apiCall_result taggedEntries].
  split; [|split].
  - intros pre k ids post -> Hpre Hk.
    destruct (globalSaved_first pre k ids post Hpre Hk) as [-> Hp].
    cbn [template default]. unfold id. rewrite Hp.
    split; [|reflexivity]. destruct (apiCall_result r2) as [[| |xs]|e]; reflexivity.
  - intros Hn. destruct (globalSaved_none t Hn) as [-> Hp].
    cbn [template default]. rewrite Hp.
    split; [|reflexivity]. destruct (apiCall_result r2) as [[| |xs]|e]; reflexivity.
  - intros xs ->. reflexivity.
Qed.

Lemma getSavedLater_posts_witness :
  fst (getSavedLater "secret" (Json (val (mkTags (Some sampleTags)))) (Json (val []))) =
    [tagsRequest "secret"; mgetRequest "secret" (Some savedIds)] /\
  snd (getSavedLater "secret" (Json (val (mkTags (Some sampleTags))))
         (Json (val [emptyRendered]))) = Ok [emptyRendered].
Proof.
  destruct (getSavedLater_posts "secret" sampleTags (Json (val []))) as [H1 _].
  destruct (getSavedLater_posts "secret" sampleTags (Json (val [emptyRendered])))
    as (_ & _ & H3).
  split.
  - apply (H1 [("user/u1/tag/reading", JArr [JStr "entry-9"])]
              "user/u1/tag/global.saved" savedIds []); reflexivity.
  - apply H3. reflexivity.
Defined.

(** ** Sections of the export *)

Lemma authorOrOrigin_lacks x :
  lacksAuthor x = true <-> exists e, authorOrOrigin x = Throw e.
Proof.
  unfold lacksAuthor, authorOrOrigin.
  destruct (Article.author x); cbn [is_nullish andb];
    try (destruct (Article.origin x) as [| |o];
         [| |destruct (OriginJ.title o)]);
    split; intros H; try reflexivity; try discriminate; eauto;
    destruct H as [e H]; discriminate.
Qed.

(** X13.  The sections of the export are built for all articles or for
    none: every article with an author, or with an origin whose title is
    not null, gives one section, in order, that carries the title of the
    article and its metadata block followed by its body; one article with
    neither makes the whole step raise. *)
Theorem contents_all_or_nothing host (xs : list Article.t) :
  ((exists ss, contents host xs = Ok ss) <->
   forallb (fun x => negb (lacksAuthor x)) xs = true) /\
  (forall ss, contents host xs = Ok ss ->
     Forall2 (fun x s =>
                Section_.title s = Article.title x /\
                exists a, authorOrOrigin x = Ok a /\
                  Section_.data s = metadataBlock host x a +:+ bodyBlock x) xs ss).
Proof.
  induction xs as [|x xs [IH1 IH2]].
  - split; [split; [reflexivity | eexists; reflexivity]|].
    intros ss [= <-]. constructor.
  - cbn [contents forallb]. unfold toSection.
    destruct (authorOrOrigin x) as [a|e] eqn:Ea.
    + assert (Hl : lacksAuthor x = false).
      { destruct (lacksAuthor x) eqn:El; [|reflexivity].
        apply authorOrOrigin_lacks in El as [e He]. congruence. }
      rewrite Hl. cbn [negb andb].
      destruct (contents host xs) as [ss|e] eqn:Ec.
      * split.
        -- split; [intros _; apply IH1; eauto | eexists; reflexivity].
        -- intros ss' [= <-]. constructor; [|apply IH2; reflexivity].
           cbn. split; [reflexivity|]. exists a. auto.
      * split; [|discriminate].
        split; [intros [ss H]; discriminate|].
        intros H. apply IH1 in H as [ss H]. discriminate.
    + assert (Hl : lacksAuthor x = true) by (apply authorOrOrigin_lacks; eauto).
      rewrite Hl. cbn [negb andb].
      split; [|discriminate].
      split; [intros [ss H]; discriminate | discriminate].
Qed.

Lemma contents_all_or_nothing_witness :
  (exists e, contents UTC.host [emptyRendered; anonymousArticle] = Throw e) /\
  exists s, contents UTC.host [emptyRendered] = Ok [s] /\
            Section_.title s = val "T".
Proof.
  split; [eexists; reflexivity|].
  destruct (contents UTC.host [emptyRendered]) as [ss|e] eqn:E;
    [|vm_compute in E; discriminate].
  pose proof (proj2 (contents_all_or_nothing UTC.host [emptyRendered]) ss E) as HF.
  inversion HF as [|x s xs' ss' [Ht _] Hrest]; subst.
  inversion Hrest; subst. exists s. split; [reflexivity | exact Ht].
Defined.

(** ** More on the container *)

Lemma addFile_misplaced f z :
  (misplaced f = true ->
   addFile folderTable f z = Throw (missingFolder (file_folder f))) /\
  (misplaced f = false -> exists z', addFile folderTable f z = Ok z').
Proof.
  unfold misplaced, addFile.
  destruct (String.eqb (file_name f) MIMETYPE); cbn [negb andb];
    [split; [discriminate | eauto]|].
  destruct (truthy (file_folder f)); cbn [andb]; [|split; [discriminate | eauto]].
  unfold folderTable, knownFolders. cbn [map lookupFolder existsb].
  repeat match goal with
         | |- context [String.eqb ?a (file_folder f)] =>
             destruct (String.eqb a (file_folder f));
             [cbn [orb negb]; split; [discriminate | eauto]|]
         end.
  cbn [orb negb]. split; [reflexivity | discriminate].
Qed.

Lemma addFiles_misplaced fs : forall z,
  match List.find misplaced fs with
  | Some f => addFiles folderTable fs z = Throw (missingFolder (file_folder f))
  | None => exists z', addFiles folderTable fs z = Ok z'
  end.
Proof.
  induction fs as [|f fs IH]; intros z; cbn [List.find addFiles].
  - eauto.
  - destruct (addFile_misplaced f z) as [Hbad Hgood].
    destruct (misplaced f).
    + rewrite (Hbad eq_refl). reflexivity.
    + destruct (Hgood eq_refl) as [z1 ->]. apply IH.
Qed.

Lemma find_existsb {A} (p : A -> bool) (l : list A) :
  existsb p l = match List.find p l with Some _ => true | None => false end.
Proof.
  induction l as [|x l IH]; cbn [existsb List.find]; [reflexivity|].
  destruct (p x); [reflexivity | exact IH].
Qed.

(** X14.  The assembler produces an archive exactly when every file other
    than the mimetype file either has no folder or lies in one of the five
    folders it has a view for.  A file in any other folder makes it raise
    and no archive is produced: the error is the one of the first such file,
    a TypeError, which reports a call of what is not a function when the
    folder bears a name that every object inherits, such as constructor, and
    a read of [file] from undefined for any other folder. *)
Theorem packFiles_needs_known_folders (fs : list EpubFile) :
  (existsb misplaced fs = false <-> exists archive, packFiles fs = Ok archive) /\
  (existsb misplaced fs = true <-> exists e, packFiles fs = Throw e) /\
  (forall e, packFiles fs = Throw e <->
     exists f, List.find misplaced fs = Some f /\
       e = if existsb (String.eqb (file_folder f)) inheritedKeys
           then mkError "TypeError" "folders[file.folder].file is not a function"
           else mkError "TypeError"
                  "Cannot read properties of undefined (reading 'file')").
Proof.
  unfold packFiles, assemble.
  pose proof (makeFolders_table (addMimetype fs)) as Ht.
  destruct (makeFolders (addMimetype fs)) as [z0 tbl]. cbn [snd] in Ht. subst tbl.
  pose proof (addFiles_misplaced fs z0) as H.
  rewrite find_existsb.
  destruct (List.find misplaced fs) as [f|].
  - rewrite H. split; [|split].
    + split; [discriminate | intros [a Ha]; discriminate].
    + split; eauto.
    + intros e. split.
      * intros [= <-]. exists f. split; [reflexivity|].
        unfold missingFolder. destruct (existsb _ inheritedKeys); reflexivity.
      * intros (g & [= <-] & ->). unfold missingFolder.
        destruct (existsb _ inheritedKeys); reflexivity.
  - destruct H as [z' ->]. split; [|split].
    + split; eauto.
    + split; [discriminate | intros [e He]; discriminate].
    + intros e. split; [discriminate | intros (g & Hg & _); discriminate].
Qed.

Lemma packFiles_needs_known_folders_witness :
  packFiles strayFiles = Throw (readOfNothing "undefined" "file") /\
  packFiles inheritedFiles =
    Throw (mkError "TypeError" "folders[file.folder].file is not a function") /\
  exists archive, packFiles sampleFiles = Ok archive.
Proof.
  split; [|split].
  - apply (proj2 (proj2 (packFiles_needs_known_folders strayFiles))).
    eexists. split; reflexivity.
  - apply (proj2 (proj2 (packFiles_needs_known_folders inheritedFiles))).
    eexists. split; reflexivity.
  - apply (proj1 (packFiles_needs_known_folders sampleFiles)). reflexivity.
Defined.

Module ZipMore.
Import Zip.

Lemma hd_put e0 e z :
  hd_error z = Some e0 -> path e <> path e0 -> hd_error (put e z) = Some e0.
Proof.
  destruct z as [|e' z]; [discriminate|]. cbn. intros [= ->] Hne.
  destruct (String.eqb (path e0) (path e)) eqn:E; [|reflexivity].
  apply String.eqb_eq in E. congruence.
Qed.

Lemma hd_addParents e0 n q z :
  has_char "/" (path e0) = false ->
  hd_error z = Some e0 -> hd_error (addParents n q z) = Some e0.
Proof.
  intros Hs. revert q. induction n as [|n IH]; intros q H; cbn [addParents]; [exact H|].
  destruct (truthy (parentFolder q)); [|exact H].
  destruct (has (forceTrailingSlash (parentFolder q)) z); [exact H|].
  apply hd_put; [apply IH, H|]. cbn [dirEntry path]. intros E.
  pose proof (ZipFacts.forceTrailingSlash_has_slash (parentFolder q)) as Hf.
  rewrite E in Hf. congruence.
Qed.

Lemma hd_file e0 root name data c z :
  has_char "/" (path e0) = false ->
  has_char "/" (root +:+ name) = true ->
  hd_error z = Some e0 -> hd_error (file root name data c z) = Some e0.
Proof.
  intros Hs Hp H. unfold file.
  apply hd_put; [now apply hd_addParents|].
  destruct (truthy_opt data); cbn [path]; intros E; rewrite E in Hp; congruence.
Qed.

Lemma hd_folder e0 root name z :
  has_char "/" (path e0) = false ->
  hd_error z = Some e0 -> hd_error (fst (folder root name z)) = Some e0.
Proof.
  intros Hs H. unfold folder. cbn [fst].
  destruct (has (forceTrailingSlash (root +:+ name)) z); [exact H|].
  apply hd_put; [now apply hd_addParents|]. cbn [dirEntry path]. intros E.
  pose proof (ZipFacts.forceTrailingSlash_has_slash (root +:+ name)) as Hf.
  rewrite E in Hf. congruence.
Qed.

Lemma has_put_other p e z : path e <> p -> has p (put e z) = has p z.
Proof.
  intros Hne. unfold has.
  assert (He : String.eqb (path e) p = false) by now apply String.eqb_neq.
  induction z as [|e' z IH]; cbn [put existsb].
  - now rewrite He.
  - destruct (String.eqb (path e') (path e)) eqn:E; cbn [existsb].
    + apply String.eqb_eq in E. rewrite E, He. reflexivity.
    + now rewrite IH.
Qed.

Lemma has_addParents_other p n q z :
  has_char "/" p = false -> has p (addParents n q z) = has p z.
Proof.
  intros Hs. revert q. induction n as [|n IH]; intros q; cbn [addParents]; [reflexivity|].
  destruct (truthy (parentFolder q)); [|reflexivity].
  destruct (has (forceTrailingSlash (parentFolder q)) z); [reflexivity|].
  rewrite has_put_other; [apply IH|]. cbn [dirEntry path]. intros E.
  pose proof (ZipFacts.forceTrailingSlash_has_slash (parentFolder q)) as Hf.
  rewrite E in Hf. congruence.
Qed.

Lemma has_file_other p root name data c z :
  has_char "/" p = false -> has_char "/" (root +:+ name) = true ->
  has p (file root name data c z) = has p z.
Proof.
  intros Hs Hp. unfold file. rewrite has_put_other; [now apply has_addParents_other|].
  destruct (truthy_opt data); cbn [path]; intros E; rewrite E in Hp; congruence.
Qed.

Lemma has_folder_other p root name z :
  has_char "/" p = false -> has p (fst (folder root name z)) = has p z.
Proof.
  intros Hs. unfold folder. cbn [fst].
  destruct (has (forceTrailingSlash (root +:+ name)) z); [reflexivity|].
  rewrite has_put_other; [now apply has_addParents_other|].
  cbn [dirEntry path]. intros E.
  pose proof (ZipFacts.forceTrailingSlash_has_slash (root +:+ name)) as Hf.
  rewrite E in Hf. congruence.
Qed.

End ZipMore.

Lemma makeFolders_preserves (P : Zip.t -> Prop) z :
  (forall root name z, P z -> P (fst (Zip.folder root name z))) ->
  P z -> P (fst (makeFolders z)).
Proof.
  intros HP H. unfold makeFolders.
  repeat match goal with
         | |- context [Zip.folder ?r ?n ?x] =>
             let z' := fresh "z" in
             let Hz := fresh "Hz" in
             assert (Hz : P (fst (Zip.folder r n x))) by (apply HP; assumption);
             destruct (Zip.folder r n x) as [z' ?]; cbn [fst] in Hz
         end.
  cbn [fst]. assumption.
Qed.

Lemma addFiles_preserves (P : Zip.t -> Prop) fs : forall z z',
  (forall root name data c z,
     has_char "/" (root +:+ name) = true -> P z -> P (Zip.file root name data c z)) ->
  addFiles folderTable fs z = Ok z' -> P z -> P z'.
Proof.
  induction fs as [|f fs IH]; intros z z' HP; cbn [addFiles].
  - intros [= <-]. auto.
  - destruct (addFile folderTable f z) as [z1|e] eqn:E1; [|discriminate].
    intros E H. apply (IH z1 z' HP E).
    unfold addFile in E1.
    destruct (String.eqb (file_name f) MIMETYPE); [injection E1 as <-; exact H|].
    destruct (truthy (file_folder f)).
    + destruct (lookupFolder (file_folder f) folderTable) as [root|] eqn:El;
        [|discriminate].
      apply lookupFolder_table in El as [-> _]. injection E1 as <-.
      apply HP; [|exact H]. rewrite !has_char_append. cbn. now rewrite orb_true_r.
    + injection E1 as <-. apply HP; [|exact H].
      rewrite !has_char_append. cbn. now rewrite orb_true_r.
Qed.

(** X15.  What the archive holds under the name mimetype.  When the
    generated files include a mimetype file, the first entry of the archive
    is named mimetype, is stored, and its bytes are the [data] field of that
    file, empty when the field is missing: the [content] field of the
    mimetype file is not read.  When they include none, the archive has no
    entry of that name. *)
Theorem mimetype_entry_bytes (fs : list EpubFile) (archive : list Zip.archived) :
  packFiles fs = Ok archive ->
  (forall m, findMimetype fs = Some m ->
     hd_error archive =
       Some (Zip.mkArchived MIMETYPE (default "" (file_data m)) Zip.STORE)) /\
  (findMimetype fs = None ->
   forall a, In a archive -> Zip.a_path a <> MIMETYPE).
Proof.
  unfold packFiles. destruct (assemble fs) as [z|e] eqn:Ea; [|discriminate].
  intros [= <-]. unfold assemble in Ea.
  pose proof (makeFolders_table (addMimetype fs)) as Ht.
  split.
  - intros m Hm.
    set (e0 := Zip.mkEntry MIMETYPE false (default "" (file_data m)) (Some Zip.STORE)).
    assert (H0 : hd_error (addMimetype fs) = Some e0).
    { unfold addMimetype. rewrite Hm.
      apply find_some in Hm as [_ Hn]. apply String.eqb_eq in Hn.
      unfold Zip.file. rewrite Hn. unfold e0.
      destruct (file_data m) as [[|c d]|]; reflexivity. }
    pose proof (makeFolders_preserves (fun z => hd_error z = Some e0) _
                  (fun root name z => ZipMore.hd_folder e0 root name z eq_refl) H0) as H1.
    destruct (makeFolders (addMimetype fs)) as [z0 tbl]. cbn [snd fst] in Ht, H1.
    subst tbl.
    pose proof (addFiles_preserves (fun z => hd_error z = Some e0) fs z0 z
                  (fun root name data c z Hs => ZipMore.hd_file e0 root name data c z eq_refl Hs)
                  Ea H1) as H2.
    destruct z as [|e z]; [discriminate|]. injection H2 as ->. reflexivity.
  - intros Hm a Hin.
    assert (H0 : Zip.has MIMETYPE (addMimetype fs) = false).
    { unfold addMimetype. rewrite Hm. reflexivity. }
    pose proof (makeFolders_preserves (fun z => Zip.has MIMETYPE z = false) _
                  (fun root name z H =>
                     eq_trans (ZipMore.has_folder_other MIMETYPE root name z eq_refl) H)
                  H0) as H1.
    destruct (makeFolders (addMimetype fs)) as [z0 tbl]. cbn [snd fst] in Ht, H1.
    subst tbl.
    pose proof (addFiles_preserves (fun z => Zip.has MIMETYPE z = false) fs z0 z
                  (fun root name data c z Hs H =>
                     eq_trans (ZipMore.has_file_other MIMETYPE root name data c z eq_refl Hs) H)
                  Ea H1) as H2.
    unfold Zip.generateAsync in Hin. apply in_map_iff in Hin as (e & <- & He).
    cbn [Zip.a_path]. intros Hp.
    assert (Hh : Zip.has MIMETYPE z = true).
    { unfold Zip.has. apply existsb_exists. exists e. split; [exact He|].
      now apply String.eqb_eq. }
    congruence.
Qed.

Lemma mimetype_entry_bytes_witness :
  (exists archive, packFiles sampleFiles = Ok archive /\
     hd_error archive = Some (Zip.mkArchived MIMETYPE "" Zip.STORE)) /\
  (exists archive, packFiles dataFiles = Ok archive /\
     hd_error archive = Some (Zip.mkArchived MIMETYPE "application/epub+zip" Zip.STORE)).
Proof.
  split.
  - destruct (packFiles sampleFiles) as [archive|e] eqn:E; [|vm_compute in E; discriminate].
    exists archive. split; [reflexivity|].
    apply (proj1 (mimetype_entry_bytes sampleFiles archive E)
             (mkFile "mimetype" "" "application/epub+zip" None)).
    reflexivity.
  - destruct (packFiles dataFiles) as [archive|e] eqn:E; [|vm_compute in E; discriminate].
    exists archive. split; [reflexivity|].
    apply (proj1 (mimetype_entry_bytes dataFiles archive E)
             (mkFile "mimetype" "" "application/epub+zip" (Some "application/epub+zip"))).
    reflexivity.
Defined.

(** ** Deleting the generated archives *)

(** X16.  The cleanup moves to the trash exactly the files whose extension
    is epub and whose base name begins with FeedlySync, in the order of the
    vault, and leaves every other file where it is: no file with another
    extension is ever touched, so no annotation document is.  Running it
    again on what is left moves nothing. *)
Theorem cleanup_only_generated_archives (fs : list TFile) :
  (forall f, In f (fst (cleanup fs)) <->
     In f fs /\ extension f = "epub" /\ String.prefix "FeedlySync" (basename f) = true) /\
  (forall f, In f (snd (cleanup fs)) <->
     In f fs /\ ~ (extension f = "epub" /\ String.prefix "FeedlySync" (basename f) = true)) /\
  (forall f, In f fs -> extension f <> "epub" -> In f (snd (cleanup fs))) /\
  cleanup (snd (cleanup fs)) = ([], snd (cleanup fs)) /\
  (length (fst (cleanup fs)) + length (snd (cleanup fs)))%nat = length fs.
Proof.
  assert (Hspec : forall f, isGeneratedArchive f = true <->
            extension f = "epub" /\ String.prefix "FeedlySync" (basename f) = true).
  { intros f. unfold isGeneratedArchive. rewrite andb_true_iff, String.eqb_eq. tauto. }
  unfold cleanup. cbn [fst snd]. split; [|split; [|split; [|split]]].
  - intros f. rewrite filter_In, Hspec. tauto.
  - intros f. rewrite filter_In, negb_true_iff, <- Hspec.
    destruct (isGeneratedArchive f); intuition congruence.
  - intros f Hin Hext. apply filter_In. split; [exact Hin|].
    apply negb_true_iff. destruct (isGeneratedArchive f) eqn:E; [|reflexivity].
    apply Hspec in E as [E _]. congruence.
  - f_equal.
    + induction fs as [|f fs IH]; [reflexivity|]. cbn [List.filter].
      destruct (isGeneratedArchive f) eqn:E; cbn [negb List.filter]; [exact IH|].
      rewrite E. exact IH.
    + induction fs as [|f fs IH]; [reflexivity|]. cbn [List.filter].
      destruct (isGeneratedArchive f) eqn:E; cbn [negb List.filter]; [exact IH|].
      rewrite E. cbn [negb]. now rewrite IH.
  - induction fs as [|f fs IH]; [reflexivity|]. cbn [List.filter].
    destruct (isGeneratedArchive f); cbn [negb length]; lia.
Qed.

Lemma cleanup_only_generated_archives_witness :
  In (mkTFile "Feedly Annotations/AI & Chips.md" "AI & Chips" "md")
     (snd (cleanup vaultFiles)) /\
  map tf_path (fst (cleanup vaultFiles)) =
    ["FeedlySync-1700000000000.epub"; "old/FeedlySync-1.epub"].
Proof.
  split; [|reflexivity].
  apply (proj1 (proj2 (proj2 (cleanup_only_generated_archives vaultFiles)))).
  - cbn. tauto.
  - discriminate.
Defined.

(** ** Dates *)

Lemma in_Zrange lo n z : lo <= z < lo + Z.of_nat n -> In z (Zrange lo n).
Proof.
  intros H. unfold Zrange. apply in_map_iff. exists (Z.to_nat (z - lo)).
  split; [lia | apply in_seq; lia].
Qed.

Lemma years_fourDigits y :
  1000 <= y <= 9999 -> Number_toString y = fourDigits y.
Proof.
  intros H.
  assert (Hall : forallb (fun y => String.eqb (Number_toString y) (fourDigits y))
                   (Zrange 1000 (Z.to_nat 9000)) = true)
    by (vm_compute; reflexivity).
  rewrite forallb_forall in Hall. apply String.eqb_eq, Hall, in_Zrange. lia.
Qed.

Lemma padStart_twoDigits z :
  0 <= z <= 99 -> padStart 2 "0" (Number_toString z) = twoDigits z.
Proof.
  intros H.
  assert (Hall : forallb (fun z => String.eqb (padStart 2 "0" (Number_toString z))
                                     (twoDigits z))
                   (Zrange 0 100) = true) by (vm_compute; reflexivity).
  rewrite forallb_forall in Hall. apply String.eqb_eq, Hall, in_Zrange. lia.
Qed.

(** X18.  For a date whose local year has four digits, [dateToJournal]
    gives exactly ten characters: the four digits of the year, a hyphen, the
    month counted from 1 (the host counts it from 0) on two digits with its
    leading zero, a hyphen, the day of the month on two digits with its
    leading zero, in this order.  The invalid date, which is what an article
    without publication and crawl time gives, prints as NaN-NaN-NaN. *)
Theorem dateToJournal_shape host t :
  1000 <= getFullYear host t <= 9999 ->
  0 <= getMonth host t <= 11 ->
  1 <= getDate host t <= 31 ->
  dateToJournal host (ValidDate t) =
    fourDigits (getFullYear host t) +:+ "-" +:+
    twoDigits (getMonth host t + 1) +:+ "-" +:+
    twoDigits (getDate host t) /\
  String.length (dateToJournal host (ValidDate t)) = 10%nat /\
  dateToJournal host (new_Date_js undefined) = "NaN-NaN-NaN".
Proof.
  intros Hy Hm Hd.
  assert (E : dateToJournal host (ValidDate t) =
              fourDigits (getFullYear host t) +:+ "-" +:+
              twoDigits (getMonth host t + 1) +:+ "-" +:+
              twoDigits (getDate host t)).
  { cbn [dateToJournal].
    rewrite (years_fourDigits _ Hy).
    rewrite (padStart_twoDigits (getMonth host t + 1)) by lia.
    rewrite (padStart_twoDigits (getDate host t)) by lia.
    reflexivity. }
  split; [exact E|split; [|reflexivity]].
  rewrite E. reflexivity.
Qed.

Lemma dateToJournal_shape_witness :
  dateToJournal UTC.host (ValidDate 1700000000000) =
    fourDigits 2023 +:+ "-" +:+ twoDigits 11 +:+ "-" +:+ twoDigits 14 /\
  dateToJournal UTC.host (ValidDate 1700000000000) = "2023-11-14" /\
  dateToJournal UTC.host (ValidDate 1704412800000) = "2024-01-05".
Proof.
  split; [|split; reflexivity].
  apply (dateToJournal_shape UTC.host 1700000000000); vm_compute; split; discriminate.
Defined.

Lemma sync_repeats_first_page_witness :
  map url (requestsOf (log (fst (runSync [pageWith 100 None; pageWith 100 (Some "")]
                                   storedIdle)))) =
  repeat (url (firstRequest part_000 (stateOf storedIdle))) 3.
Proof.
  apply (sync_repeats_first_page UTC.host part_000 5000
           [pageWith 100 None; pageWith 100 (Some "")] (stateOf storedIdle)
           eq_refl eq_refl eq_refl eq_refl).
Defined.

(** ** Section titles *)

Lemma numberedTitles_nth_from ss : forall i k,
  nth_error (numberedTitles i ss) k =
  option_map (fun c => Number_toString (Z.of_nat (S (i + k))) +:+ ". " +:+
                       template_js (Section_.title c))
    (nth_error ss k).
Proof.
  induction ss as [|c ss IH]; intros i k.
  - destruct k; reflexivity.
  - destruct k as [|k]; cbn [numberedTitles nth_error option_map].
    + rewrite Nat.add_0_r. reflexivity.
    + rewrite IH. replace (S i + k)%nat with (i + S k)%nat by lia. reflexivity.
Qed.

(** X19.  The sections handed to the e-book library are numbered from 1
    in the order of the articles: the title of the section at position [k],
    counted from 0, is the number [k + 1], a full stop, a space and the
    title of the article; there are as many titles as sections. *)
Theorem numberedTitles_nth (ss : list Section_.t) (k : nat) :
  nth_error (numberedTitles 0 ss) k =
    option_map (fun c => Number_toString (Z.of_nat (S k)) +:+ ". " +:+
                         template_js (Section_.title c))
      (nth_error ss k) /\
  length (numberedTitles 0 ss) = length ss.
Proof.
  split; [apply numberedTitles_nth_from|].
  generalize 0%nat. induction ss as [|c ss IH]; intros i; [reflexivity|].
  cbn [numberedTitles length]. now rewrite IH.
Qed.

(** ** The two source files *)

Lemma iterationRequest_same run :
  iterationRequest main_ts run = iterationRequest part_000 run.
Proof. reflexivity. Qed.

Lemma syncLoop_same host folder script : forall run,
  syncLoop host main_ts folder script run = syncLoop host part_000 folder script run.
Proof.
  induction script as [|r script IH]; intros run; [reflexivity|].
  rewrite !syncLoop_cons.
  change (sendRequest main_ts run) with (sendRequest part_000 run).
  destruct (iteration host folder r (sendRequest part_000 run)) as [run' [|]];
    [apply IH | reflexivity].
Qed.

(** X20.  The sync command is the same in the two source files: the one
    expression in which their [apiCall] differs is the body, and the sync
    sends none, so on any stored state and any answers of the service both
    files send the same requests, show the same notices, save the same
    settings and leave the same vault. *)
Theorem sync_same_in_both_files host now script st :
  sync host main_ts now script st = sync host part_000 now script st.
Proof.
  unfold sync. cbv zeta.
  destruct (negb (truthy_opt (Settings.userId (settings (loadSettings st)))));
    [reflexivity|].
  destruct (negb (truthy_opt (Settings.accessToken (settings (loadSettings st)))));
    [reflexivity|].
  rewrite syncLoop_same. reflexivity.
Qed.

Lemma sync_needs_credentials_witness :
  fst (sync UTC.host part_000 5000 twoPages (stateOf noSettings)) =
    notice MSG_NO_USER (loadSettings (stateOf noSettings)).
Proof.
  destruct (sync_needs_credentials UTC.host part_000 5000 twoPages
              (stateOf noSettings) eq_refl) as [He _].
  rewrite He. reflexivity.
Defined.

Lemma sync_through_full_pages_witness :
  snd (runSync onePage storedMidway) = Waiting /\
  requestsOf (log (fst (runSync onePage storedMidway))) =
    [resumeRequest part_000 storedMidway (Some "cursor-1");
     resumeRequest part_000 storedMidway (Some "cursor-2")] /\
  Settings.continuationToken (data (fst (runSync onePage storedMidway))) =
    Some "cursor-2".
Proof.
  destruct (sync_through_full_pages UTC.host part_000 5000 onePage
              (stateOf storedMidway) eq_refl eq_refl) as (Hw & Hl & _ & Hd & _).
  split; [exact Hw|]. split.
  - unfold runSync. rewrite Hl. reflexivity.
  - unfold runSync. rewrite Hd by discriminate. reflexivity.
Defined.

Lemma sync_completes_on_short_page_witness :
  data (fst (runSync twoPages storedIdle)) =
    Settings.mk (Some "user-1") (Some "secret") (Some 5000) (Some 5000) None
      (Some DEFAULT_FOLDER) /\
  noticesOf (log (fst (runSync twoPages storedIdle))) =
    [MSG_BEGIN; MSG_ALL_SYNCED; "Synced 140 annotations"].
Proof.
  destruct (sync_completes_on_short_page UTC.host part_000 5000
              [pageWith 100 (Some "cursor-2")] (pageWith 40 None) []
              (stateOf storedIdle) eq_refl eq_refl eq_refl) as (_ & Hd & _ & Hl).
  split.
  - unfold runSync, twoPages. cbn [app] in Hd. rewrite Hd. reflexivity.
  - unfold runSync, twoPages. cbn [app] in Hl. rewrite Hl. reflexivity.
Defined.

(** ** The requests sent *)

Lemma callRequest_shape f accessToken c :
  calls f c = true ->
  headers (callRequest f accessToken c) =
    [("Authorization", "Bearer " +:+ accessToken); ("Accept", "application/json")] /\
  body (callRequest f accessToken c) =
    option_map (fun v => BodyText (JSON_stringify v)) (callData c).
Proof.
  intros H. split; [reflexivity|].
  destruct f, c as [k t| |[v|]|u k]; try discriminate H; reflexivity.
Qed.

Lemma callRequest_gateway f accessToken c :
  calls f c = true -> gatewayRequest (callRequest f accessToken c).
Proof.
  intros H. destruct (callRequest_shape f accessToken c H) as [Hh Hb].
  split; [exists accessToken; exact Hh|].
  rewrite Hb. destruct (callData c) as [v|]; [right; exists v|left]; reflexivity.
Qed.

Lemma emit_requests (P : Request -> Prop) ev st :
  match ev with RequestUrl r => P r | _ => True end ->
  Forall P (requestsOf (log st)) -> Forall P (requestsOf (log (emit ev st))).
Proof.
  intros Hev H. cbn [emit log]. rewrite requestsOf_app.
  apply List.Forall_app. split; [exact H|].
  destruct ev; cbn; auto.
Qed.

Lemma iteration_requests host folder r run :
  requestsOf (log (state (fst (iteration host folder r run)))) =
  requestsOf (log (state run)).
Proof.
  unfold iteration. destruct (getAnnotations r) as [[p|]|e].
  - destruct (page_count p <? 100)%nat; cbn; rewrite ?requestsOf_app; cbn;
      rewrite ?app_nil_r; reflexivity.
  - reflexivity.
  - destruct (includes (message e) "API rate limit"); cbn;
      rewrite requestsOf_app; cbn; rewrite app_nil_r; reflexivity.
Qed.

Lemma sendRequest_requests f run :
  Forall gatewayRequest (requestsOf (log (state run))) ->
  Forall gatewayRequest (requestsOf (log (state (sendRequest f run)))).
Proof.
  intros H. unfold sendRequest. cbn [state]. apply emit_requests; [|exact H].
  apply (callRequest_gateway f _ (JournalCall _ _)). reflexivity.
Qed.

Lemma syncLoop_requests host f folder script : forall run,
  Forall gatewayRequest (requestsOf (log (state run))) ->
  Forall gatewayRequest
    (requestsOf (log (state (fst (syncLoop host f folder script run))))).
Proof.
  induction script as [|r script IH]; intros run H; cbn [syncLoop].
  - cbn [fst]. apply sendRequest_requests, H.
  - pose proof (iteration_requests host folder r (sendRequest f run)) as Hi.
    destruct (iteration host folder r (sendRequest f run)) as [run1 c].
    cbn [fst] in Hi.
    assert (H1 : Forall gatewayRequest (requestsOf (log (state run1))))
      by (rewrite Hi; apply sendRequest_requests, H).
    destruct c; [apply IH, H1 | exact H1].
Qed.

Lemma syncPrelude_requests now st :
  requestsOf (log (state (syncPrelude now st))) = requestsOf (log st).
Proof.
  unfold syncPrelude. cbn [state]. rewrite ensureFolder_log.
  destruct (truthy_opt (Settings.continuationToken (settings st))); cbn;
    rewrite ?requestsOf_app; cbn; rewrite ?app_nil_r; reflexivity.
Qed.

Lemma notice_requests msg st :
  requestsOf (log (notice msg st)) = requestsOf (log st).
Proof. cbn. rewrite requestsOf_app. cbn. apply app_nil_r. Qed.

Lemma sync_requests host f now script st0 :
  Forall gatewayRequest (requestsOf (log st0)) ->
  Forall gatewayRequest (requestsOf (log (fst (sync host f now script st0)))).
Proof.
  intros H. unfold sync. cbv zeta.
  destruct (negb (truthy_opt (Settings.userId (settings (loadSettings st0)))));
    [cbn [fst]; rewrite notice_requests; exact H|].
  destruct (negb (truthy_opt (Settings.accessToken (settings (loadSettings st0)))));
    [cbn [fst]; rewrite notice_requests; exact H|].
  pose proof (syncLoop_requests host f
                (syncFolder (state (syncPrelude now (loadSettings st0)))) script
                (syncPrelude now (loadSettings st0))) as Hl.
  rewrite syncPrelude_requests in Hl. specialize (Hl H).
  destruct (syncLoop host f _ script _) as [run' [|]]; cbn [fst] in *.
  - rewrite notice_requests. exact Hl.
  - exact Hl.
Qed.

Lemma streamIteration_requests r g st :
  requestsOf (log (snd (fst (streamIteration r g st)))) = requestsOf (log st).
Proof.
  assert (Hc : forall e,
             requestsOf (log (snd (fst (streamCatch e g st)))) = requestsOf (log st)).
  { intros e. unfold streamCatch.
    destruct (includes (message e) "status 401");
      [cbn [fst snd]; apply notice_requests|].
    destruct (includes (message e) "status 429");
      [cbn [fst snd]; apply notice_requests | reflexivity]. }
  unfold streamIteration. destruct (apiCall_result r) as [[| |res]|e]; try apply Hc.
  destruct (StreamPayload.items res) as [its|]; [|reflexivity].
  destruct (length its <? 250)%nat; reflexivity.
Qed.

Lemma streamLoop_requests accessToken userId script : forall g st,
  Forall gatewayRequest (requestsOf (log st)) ->
  Forall gatewayRequest
    (requestsOf (log (fst (streamLoop accessToken userId script g st)))).
Proof.
  induction script as [|r script IH]; intros g st H; cbn [streamLoop].
  - cbn [fst]. apply emit_requests; [|exact H].
    apply (callRequest_gateway part_000 _ (StreamCall _ _)). reflexivity.
  - set (st1 := emit (RequestUrl (streamRequest accessToken userId (streamToken g))) st).
    assert (H1 : Forall gatewayRequest (requestsOf (log st1))).
    { apply emit_requests; [|exact H].
      apply (callRequest_gateway part_000 _ (StreamCall _ _)). reflexivity. }
    pose proof (streamIteration_requests r g st1) as Hi.
    destruct (streamIteration r g st1) as [[g' st2] c]. cbn [fst snd] in Hi.
    rewrite <- Hi in H1.
    destruct c; [apply IH, H1 | exact H1 | exact H1].
Qed.

Lemma fetchUnread_requests script st :
  Forall gatewayRequest (requestsOf (log st)) ->
  Forall gatewayRequest (requestsOf (log (fst (fetchUnread script st)))).
Proof.
  intros H. unfold fetchUnread.
  destruct (negb (truthy_opt (Settings.userId (settings st))));
    [cbn [fst]; rewrite notice_requests; exact H|].
  destruct (negb (truthy_opt (Settings.accessToken (settings st))));
    [cbn [fst]; rewrite notice_requests; exact H|].
  apply streamLoop_requests, H.
Qed.

Lemma getSavedLater_requests accessToken r1 r2 :
  Forall gatewayRequest (fst (getSavedLater accessToken r1 r2)).
Proof.
  assert (Ht : gatewayRequest (tagsRequest accessToken))
    by (apply (callRequest_gateway part_000 _ TagsCall); reflexivity).
  assert (Hm : forall entries, gatewayRequest (mgetRequest accessToken entries))
    by (intros entries; apply (callRequest_gateway part_000 _ (MgetCall _));
        reflexivity).
  assert (H1 : Forall gatewayRequest [tagsRequest accessToken])
    by (apply List.Forall_cons; [exact Ht | apply List.Forall_nil]).
  assert (H2 : forall entries,
             Forall gatewayRequest
               [tagsRequest accessToken; mgetRequest accessToken entries])
    by (intros entries; apply List.Forall_cons; [exact Ht|];
        apply List.Forall_cons; [apply Hm | apply List.Forall_nil]).
  unfold getSavedLater.
  destruct (apiCall_result r1) as [[| |m]|e]; cbn [fst]; try exact H1.
  destruct (taggedEntries m) as [t|]; cbn [fst]; [|exact H1].
  destruct (apiCall_result r2) as [[| |x]|e]; cbn [fst]; apply H2.
Qed.


